(** * South African (JSE) market layer: configuration, data adapter, agents

    A shallow embedding of
      - [src/config/sa_market_config.py]  (static configuration, ticker validator),
      - [src/data/sa_data_adapter.py]     (cached HTTP adapter),
      - [src/agents/sa_market_analyst.py] (the three analyst agents),
    followed by the properties proved about them.

    Conventions.
      - Python [str] is [string]; the tickers of interest are ASCII.
      - Python [float] is idealised as an exact rational ([Q]); [int] is [Z].
      - A Python [dict] whose iteration order is observable is an
        insertion-ordered association list ([pydict]); dictionaries that are
        only looked up by key (the cache stores, the result mappings) are
        [gmap]s.
      - Side effects (HTTP requests, LLM calls, printing, the cache) are
        threaded through an explicit state, with an event trace. *)

From Stdlib Require Import ZArith QArith Qabs String Ascii List Bool Lia.
From Stdlib Require DecimalString.
From stdpp Require Import base option gmap strings fin_maps.
Import ListNotations.

Local Open Scope string_scope.
Local Open Scope Z_scope.

(* ===================================================================== *)
(** * Python dictionaries with observable order *)
(* ===================================================================== *)

Module PyDict.

Definition pydict (V : Type) : Type := list (string * V).

(** [d.get(k)] *)
Fixpoint get {V} (d : pydict V) (k : string) : option V :=
  match d with
  | [] => None
  | (k', v) :: d' => if String.eqb k' k then Some v else get d' k
  end.

(** [d.get(k, dflt)] *)
Definition get_default {V} (d : pydict V) (k : string) (dflt : V) : V :=
  match get d k with Some v => v | None => dflt end.

(** [d[k] = v]: an existing key keeps its position, a new key goes last. *)
Fixpoint set {V} (d : pydict V) (k : string) (v : V) : pydict V :=
  match d with
  | [] => [(k, v)]
  | (k', v') :: d' =>
      if String.eqb k' k then (k', v) :: d' else (k', v') :: set d' k v
  end.

Definition keys {V} (d : pydict V) : list string := map fst d.
Definition values {V} (d : pydict V) : list V := map snd d.

(** [k in d] *)
Definition mem {V} (d : pydict V) (k : string) : bool :=
  match get d k with Some _ => true | None => false end.

End PyDict.

Import PyDict.

(** [x in xs] for a list of strings. *)
Definition str_in (x : string) (xs : list string) : bool :=
  existsb (String.eqb x) xs.

(* ===================================================================== *)
(** * [sa_market_config.py] *)
(* ===================================================================== *)

Module SAMarketConfig.

Definition EXCHANGE_NAME : string := "JSE".
Definition EXCHANGE_CODE : string := "JSE".
Definition CURRENCY : string := "ZAR".
Definition CURRENCY_SYMBOL : string := "R".
Definition SETTLEMENT_DAYS : Z := 3.

Definition MAJOR_INDICES : list string :=
  [ "JSE:J203"; "JSE:J200"; "JSE:J250"; "JSE:J580";
    "JSE:J433"; "JSE:J210"; "JSE:J211" ].

Definition SECTORS : list string :=
  [ "Financial Services"; "Mining & Resources"; "Industrial";
    "Consumer Goods"; "Technology"; "Healthcare"; "Real Estate";
    "Telecommunications"; "Energy"; "Transportation" ].

Definition TOP_STOCKS : list string :=
  [ "NPN"; "BHP"; "AGL"; "MTN"; "VOD"; "SBK"; "FSR"; "NED"; "ABG"; "SOL";
    "IMP"; "ANG"; "AMS"; "SHP"; "WHL"; "TBS"; "BID"; "TFG"; "MRP"; "CLS" ].

Definition DATA_SOURCES : pydict string :=
  [ ("prices", "https://api.financialdatasets.ai/prices/");
    ("fundamentals", "https://api.financialdatasets.ai/financial-metrics/");
    ("news", "https://api.financialdatasets.ai/news/");
    ("insider_trades", "https://api.financialdatasets.ai/insider-trades/");
    ("company_facts", "https://api.financialdatasets.ai/company-facts/") ].

Definition REGULATORY_BODY : string := "FSCA".
Definition EXCHANGE_CONTROLS : bool := true.
Definition FOREIGN_INVESTMENT_LIMITS : pydict Q :=
  [ ("individual", 0%Q); ("institutional", 0%Q) ].

Definition MAX_POSITION_SIZE : Q := 5 # 100.
Definition MAX_SECTOR_EXPOSURE : Q := 30 # 100.
Definition STOP_LOSS_PERCENTAGE : Q := 15 # 100.
Definition MAX_DAILY_DRAWDOWN : Q := 2 # 100.

Definition RISK_FACTORS : list string :=
  [ "Currency volatility (ZAR)"; "Political risk"; "Load shedding impact";
    "Commodity price exposure"; "Emerging market volatility";
    "Regulatory changes"; "Infrastructure challenges" ].

End SAMarketConfig.

(** [c.isalpha()] for one ASCII character. *)
Definition ascii_isalpha (c : ascii) : bool :=
  let n := nat_of_ascii c in
  ((65 <=? n)%nat && (n <=? 90)%nat) || ((97 <=? n)%nat && (n <=? 122)%nat).

(** [s.isalpha()]: non-empty and every character alphabetic. *)
Definition isalpha (s : string) : bool :=
  match s with
  | EmptyString => false
  | _ => forallb ascii_isalpha (list_ascii_of_string s)
  end.

(** [len(s)] *)
Definition len (s : string) : Z := Z.of_nat (String.length s).

Definition is_jse_ticker (ticker : string) : bool :=
  (3 <=? len ticker) && (len ticker <=? 4) && isalpha ticker
  && str_in ticker SAMarketConfig.TOP_STOCKS.

(* ===================================================================== *)
(** * Pure parts of the adapter: validation and the sector table *)
(* ===================================================================== *)

(** [SADataAdapter.validate_sa_ticker] *)
Definition validate_sa_ticker (ticker : string) : bool :=
  is_jse_ticker ticker && str_in ticker SAMarketConfig.TOP_STOCKS.

Definition sector_mapping : pydict string :=
  [ ("SBK", "Financial Services"); ("FSR", "Financial Services");
    ("NED", "Financial Services"); ("ABG", "Financial Services");
    ("BHP", "Mining & Resources"); ("AGL", "Mining & Resources");
    ("SOL", "Mining & Resources"); ("IMP", "Mining & Resources");
    ("ANG", "Mining & Resources"); ("AMS", "Mining & Resources");
    ("SHP", "Consumer Goods"); ("WHL", "Consumer Goods");
    ("TBS", "Consumer Goods"); ("BID", "Consumer Goods");
    ("TFG", "Consumer Goods"); ("MRP", "Consumer Goods");
    ("CLS", "Consumer Goods");
    ("MTN", "Telecommunications"); ("VOD", "Telecommunications");
    ("NPN", "Technology") ].

(** [SADataAdapter.get_sa_sector_exposure] *)
Definition get_sa_sector_exposure (ticker : string) : option string :=
  PyDict.get sector_mapping ticker.

(* ===================================================================== *)
(** * Values exchanged with the outside world *)
(* ===================================================================== *)

(** Decoded JSON documents; numbers are idealised as rationals. *)
#[local] Set Warnings "-register-all".
Inductive json : Type :=
| JNull
| JBool (b : bool)
| JNum (q : Q)
| JStr (s : string)
| JArr (l : list json)
| JObj (d : list (string * json)).

(** Python truthiness of a decoded value ([if x:]). *)
Definition truthy (j : json) : bool :=
  match j with
  | JNull => false
  | JBool b => b
  | JNum q => negb (Qeq_bool q 0)
  | JStr s => negb (String.eqb s "")
  | JArr l => match l with [] => false | _ => true end
  | JObj d => match d with [] => false | _ => true end
  end.

(** Truthiness of the result of a lookup that yields [None] when absent. *)
Definition truthy_opt (o : option json) : bool :=
  match o with Some j => truthy j | None => false end.

(** Exceptions, as far as the handlers of this code base tell them apart:
    [except requests.RequestException] catches only the second kind,
    [except Exception] catches all three. *)
Inductive exn : Type :=
| ValueError (msg : string)
| RequestException (msg : string)
| OtherException (cls msg : string).

Definition is_request_exception (e : exn) : bool :=
  match e with RequestException _ => true | _ => false end.

(** [str(e)] *)
Definition exn_str (e : exn) : string :=
  match e with
  | ValueError m => m
  | RequestException m => m
  | OtherException _ m => m
  end.

(** The outcome of one HTTP GET: the call raises, or a response comes back
    whose [.json()] either raises or decodes. *)
Inductive http_reply : Type :=
| GetRaises (e : exn)
| Response (status_code : Z) (body : exn + json).

(** What the language model is asked: the data the two prompts are rendered
    from (the rendering itself, an f-string around [json.dumps], is not
    modelled). *)
Record llm_request : Type := {
  req_ticker : string;
  req_sector : option string;
  req_company_info : list (string * json);
  req_recent_news : list (list (string * json));
  req_economic_indicators : pydict Q;
  req_fx_rates : pydict Q;
}.

(** Observable effects, in program order. *)
Inductive event : Type :=
| EvRequestsGet (url : string) (headers : pydict string)  (* requests.get *)
| EvSessionGet (url : string) (headers : pydict string)   (* self.session.get *)
| EvLlmInvoke (req : llm_request)                         (* llm.invoke *)
| EvPrint (msg : string).                                 (* print *)

(** Modelled from the spec: [src/data/models.py] is absent.  An analyst
    signal is a value object with a categorical signal, a confidence, a
    free-form reasoning payload and a maximum recommended position size;
    the agents set exactly these four fields. *)
Record AnalystSignal : Type := {
  signal : option string;
  confidence : option Q;
  reasoning : json;
  max_position_size : option Q;
}.

(** Modelled from the spec: [src/data/models.py] is absent.  The typed
    records ([Price], [FinancialMetrics], [CompanyNews], [CompanyFacts]) are
    pydantic models: construction from keyword arguments validates and may
    fail; [model_dump] serialises; a dumped model validates back to
    itself. *)
Class BaseModel (T : Type) : Type := {
  construct : pydict json -> option T;
  model_dump : T -> pydict json;
  construct_model_dump : forall x : T, construct (model_dump x) = Some x;
}.

(** The environment the code runs in.  Replies may depend on everything
    that happened before (the trace), so nothing is assumed about the
    upstream service or the model being deterministic. *)
Record World : Type := {
  FINANCIAL_DATASETS_API_KEY : option string;
  today : string;                               (* datetime.now().strftime *)
  http : list event -> string -> http_reply;
  llm : list event -> llm_request -> exn + string;   (* response.content *)
  json_loads : string -> exn + json;
  (* AnalystSignal(signal=.., confidence=.., reasoning=.., max_position_size=..)
     on values taken from a decoded reply: validation may reject them *)
  AnalystSignal_validate : option json -> option json -> option json ->
                           option json -> option AnalystSignal;
}.

(** Modelled from the spec: [src/data/cache.py] is absent.  The cache is a
    set of stores, one per data kind, keyed by a composite string; [get_*]
    reads the entry (or [None]), [set_*] writes it; nothing is ever
    invalidated or expired. *)
Record Cache : Type := {
  prices_cache : gmap string json;
  financial_metrics_cache : gmap string json;
  news_cache : gmap string json;
  company_facts_cache : gmap string json;
  economic_indicators_cache : gmap string (pydict Q);
  fx_rates_cache : gmap string (pydict Q);
}.

Definition empty_cache : Cache :=
  {| prices_cache := ∅; financial_metrics_cache := ∅; news_cache := ∅;
     company_facts_cache := ∅; economic_indicators_cache := ∅;
     fx_rates_cache := ∅ |}.

(** The mutable program state: the global cache and the trace so far. *)
Record state : Type := {
  cache : Cache;
  trace : list event;
}.

Definition init_state : state := {| cache := empty_cache; trace := [] |}.

(* ===================================================================== *)
(** * Statements with early return and exceptions *)
(* ===================================================================== *)

(** How a statement completes inside a function whose return type is [R]. *)
Inductive completion (R A : Type) : Type :=
| Normal (a : A)       (* control falls through, with value [a] *)
| Return (r : R)       (* a [return] was executed *)
| Raise (e : exn).     (* an exception propagates *)

Arguments Normal {R A} a.
Arguments Return {R A} r.
Arguments Raise {R A} e.

Definition stmt (R A : Type) : Type := state -> completion R A * state.

(** A function call: returns a value or raises. *)
Definition fn (A : Type) : Type := state -> (exn + A) * state.

Definition pure {R A} (a : A) : stmt R A := fun s => (Normal a, s).
Definition py_return {R A} (r : R) : stmt R A := fun s => (Return r, s).
Definition py_raise {R A} (e : exn) : stmt R A := fun s => (Raise e, s).

Definition bind {R A B} (m : stmt R A) (k : A -> stmt R B) : stmt R B :=
  fun s =>
    match m s with
    | (Normal a, s') => k a s'
    | (Return r, s') => (Return r, s')
    | (Raise e, s') => (Raise e, s')
    end.

Notation "x <- c1 ;; c2" := (bind c1 (fun x => c2))
  (at level 100, c1 at next level, right associativity).
Notation "c1 ;; c2" := (bind c1 (fun _ => c2))
  (at level 100, right associativity).

(** [try: body  except <classes matched by handler>: handler e].  The
    handler answers [None] for an exception its clause does not match. *)
Definition try_except {R A} (body : stmt R A)
    (handler : exn -> option (stmt R A)) : stmt R A :=
  fun s =>
    match body s with
    | (Raise e, s') =>
        match handler e with
        | Some h => h s'
        | None => (Raise e, s')
        end
    | r => r
    end.

(** [for x in xs: body x] *)
Fixpoint for_each {R X} (xs : list X) (body : X -> stmt R unit) : stmt R unit :=
  match xs with
  | [] => pure tt
  | x :: xs' => body x ;; for_each xs' body
  end.

(** [def f(..): body]: falling off the end yields the body's value. *)
Definition def {R} (body : stmt R R) : fn R :=
  fun s =>
    match body s with
    | (Normal r, s') => (inr r, s')
    | (Return r, s') => (inr r, s')
    | (Raise e, s') => (inl e, s')
    end.

(** Calling a function from a statement. *)
Definition call {R A} (f : fn A) : stmt R A :=
  fun s =>
    match f s with
    | (inr a, s') => (Normal a, s')
    | (inl e, s') => (Raise e, s')
    end.

(** Lifting a fallible pure computation. *)
Definition lift {R A} (x : exn + A) : stmt R A :=
  match x with inr a => pure a | inl e => py_raise e end.

Definition emit {R} (ev : event) : stmt R unit :=
  fun s => (Normal tt, {| cache := cache s; trace := trace s ++ [ev] |}).

Definition print {R} (msg : string) : stmt R unit := emit (EvPrint msg).

Definition get_cache {R} : stmt R Cache := fun s => (Normal (cache s), s).

Definition put_cache {R} (c : Cache) : stmt R unit :=
  fun s => (Normal tt, {| cache := c; trace := trace s |}).

(** Computations that only may raise. *)
Definition ebind {A B} (x : exn + A) (k : A -> exn + B) : exn + B :=
  match x with inr a => k a | inl e => inl e end.

(** [[f x for x in xs]] where [f] may raise. *)
Fixpoint map_exn {A B} (f : A -> exn + B) (xs : list A) : exn + list B :=
  match xs with
  | [] => inr []
  | x :: xs' =>
      ebind (f x) (fun y => ebind (map_exn f xs') (fun ys => inr (y :: ys)))
  end.

Definition TypeError (msg : string) : exn := OtherException "TypeError" msg.
Definition AttributeError (msg : string) : exn := OtherException "AttributeError" msg.
Definition ValidationError (msg : string) : exn := OtherException "ValidationError" msg.

(** Iterating a decoded value: a list yields its items, a dict its keys, a
    string its characters; anything else is not iterable. *)
Definition py_iter (j : json) : exn + list json :=
  match j with
  | JArr l => inr l
  | JObj d => inr (map (fun kv => JStr (fst kv)) d)
  | JStr s => inr (map (fun c => JStr (String c EmptyString)) (list_ascii_of_string s))
  | _ => inl (TypeError "object is not iterable")
  end.

(** [j.get(k, dflt)]: only a dict has [.get]. *)
Definition json_get (j : json) (k : string) (dflt : json) : exn + json :=
  match j with
  | JObj d => inr (get_default d k dflt)
  | _ => inl (AttributeError "object has no attribute 'get'")
  end.

(** [j[k] = v] with a string key: only a dict accepts it. *)
Definition json_setitem (j : json) (k : string) (v : json) : exn + pydict json :=
  match j with
  | JObj d => inr (PyDict.set d k v)
  | _ => inl (TypeError "object does not support item assignment")
  end.

(** [T( **d)] on an already decoded dict. *)
Definition construct_dict {T} `{BaseModel T} (d : pydict json) : exn + T :=
  match construct d with
  | Some x => inr x
  | None => inl (ValidationError "validation error")
  end.

(** [T( **j)]: [j] must be a mapping, and must validate. *)
Definition construct_kw {T} `{BaseModel T} (j : json) : exn + T :=
  match j with
  | JObj d => construct_dict d
  | _ => inl (TypeError "argument after ** must be a mapping")
  end.

(** [[T( **x) for x in cached_data]] *)
Definition construct_all {T} `{BaseModel T} (cached_data : json) : exn + list T :=
  ebind (py_iter cached_data) (map_exn construct_kw).

(** [[m.model_dump() for m in ms]] *)
Definition dump_all {T} `{BaseModel T} (ms : list T) : json :=
  JArr (map (fun m => JObj (model_dump m)) ms).

(** ASCII [str.lower]. *)
Definition ascii_lower (c : ascii) : ascii :=
  let n := nat_of_ascii c in
  if ((65 <=? n)%nat && (n <=? 90)%nat)%bool then ascii_of_nat (n + 32) else c.

Fixpoint lower (s : string) : string :=
  match s with
  | EmptyString => EmptyString
  | String c s' => String (ascii_lower c) (lower s')
  end.

(** [word in text] *)
Definition contains (word text : string) : bool :=
  match String.index 0 word text with Some _ => true | None => false end.

(** [sum(1 for word in words if word in text)] *)
Definition count_in (words : list string) (text : string) : Z :=
  Z.of_nat (List.length (List.filter (fun word => contains word text) words)).

(** [SADataAdapter._analyze_sa_sentiment] *)
Definition _analyze_sa_sentiment (text : string) : string :=
  let positive_words :=
    [ "growth"; "profit"; "dividend"; "expansion"; "recovery"; "rand"; "zar";
      "jse"; "johannesburg"; "south africa" ] in
  let negative_words :=
    [ "load shedding"; "eskom"; "corruption"; "strike"; "protest";
      "inflation"; "recession"; "debt"; "default" ] in
  let text_lower := lower text in
  let positive_count := count_in positive_words text_lower in
  let negative_count := count_in negative_words text_lower in
  if positive_count >? negative_count then "positive"
  else if negative_count >? positive_count then "negative"
  else "neutral".

(* ===================================================================== *)
(** * [sa_data_adapter.py]: the effectful adapter *)
(* ===================================================================== *)

(** What [get_jse_prices] can hand back: the annotation promises a list of
    [Price], two of its [return]s hand back a decoded document instead. *)
Inductive prices_result (Price : Type) : Type :=
| TypedPrices (ps : list Price)
| RawJson (j : json).

Arguments TypedPrices {Price} ps.
Arguments RawJson {Price} j.

Record response : Type := {
  status_code : Z;
  body : exn + json;
}.

Section Adapter.

Context (w : World).
Context {Price FinancialMetrics CompanyNews CompanyFacts : Type}.
Context `{!BaseModel Price} `{!BaseModel FinancialMetrics}
        `{!BaseModel CompanyNews} `{!BaseModel CompanyFacts}.

(** ** Primitive effects *)

Definition http_call {R} (ev : event) (url : string) : stmt R response :=
  fun s =>
    let s' := {| cache := cache s; trace := trace s ++ [ev] |} in
    match http w (trace s) url with
    | GetRaises e => (Raise e, s')
    | Response code b => (Normal {| status_code := code; body := b |}, s')
    end.

(** [requests.get(url, headers=headers)] *)
Definition requests_get {R} (url : string) (headers : pydict string)
  : stmt R response :=
  http_call (EvRequestsGet url headers) url.

(** [self.session.get(url, headers=headers)] *)
Definition session_get {R} (url : string) (headers : pydict string)
  : stmt R response :=
  http_call (EvSessionGet url headers) url.

(** [response.raise_for_status()]: 4xx and 5xx raise [HTTPError], a
    [RequestException]. *)
Definition raise_for_status {R} (r : response) : stmt R unit :=
  if (400 <=? status_code r) && (status_code r <? 600)
  then py_raise (RequestException "HTTPError")
  else pure tt.

(** [response.json()] *)
Definition response_json {R} (r : response) : stmt R json := lift (body r).

(** [headers = {}; if financial_api_key: headers["X-API-KEY"] = ...] *)
Definition request_headers : pydict string :=
  match FINANCIAL_DATASETS_API_KEY w with
  | Some k => if String.eqb k "" then [] else PyDict.set [] "X-API-KEY" k
  | None => []
  end.

(** [self.config.DATA_SOURCES[kind]] (every kind used below is present) *)
Definition data_source (kind : string) : string :=
  get_default SAMarketConfig.DATA_SOURCES kind "".

(** ** Cache accessors *)

(** Modelled from the spec: the [get_*] and [set_*] methods of the absent
    [src/data/cache.py], one pair per store: a read of the entry under the
    key, a write of the entry under the key. *)

Definition cache_get_prices {R} (k : string) : stmt R (option json) :=
  c <- get_cache ;; pure (prices_cache c !! k).
Definition cache_set_prices {R} (k : string) (v : json) : stmt R unit :=
  c <- get_cache ;;
  put_cache {| prices_cache := <[k := v]> (prices_cache c);
               financial_metrics_cache := financial_metrics_cache c;
               news_cache := news_cache c;
               company_facts_cache := company_facts_cache c;
               economic_indicators_cache := economic_indicators_cache c;
               fx_rates_cache := fx_rates_cache c |}.

Definition cache_get_financial_metrics {R} (k : string) : stmt R (option json) :=
  c <- get_cache ;; pure (financial_metrics_cache c !! k).
Definition cache_set_financial_metrics {R} (k : string) (v : json) : stmt R unit :=
  c <- get_cache ;;
  put_cache {| prices_cache := prices_cache c;
               financial_metrics_cache := <[k := v]> (financial_metrics_cache c);
               news_cache := news_cache c;
               company_facts_cache := company_facts_cache c;
               economic_indicators_cache := economic_indicators_cache c;
               fx_rates_cache := fx_rates_cache c |}.

Definition cache_get_news {R} (k : string) : stmt R (option json) :=
  c <- get_cache ;; pure (news_cache c !! k).
Definition cache_set_news {R} (k : string) (v : json) : stmt R unit :=
  c <- get_cache ;;
  put_cache {| prices_cache := prices_cache c;
               financial_metrics_cache := financial_metrics_cache c;
               news_cache := <[k := v]> (news_cache c);
               company_facts_cache := company_facts_cache c;
               economic_indicators_cache := economic_indicators_cache c;
               fx_rates_cache := fx_rates_cache c |}.

Definition cache_get_company_facts {R} (k : string) : stmt R (option json) :=
  c <- get_cache ;; pure (company_facts_cache c !! k).
Definition cache_set_company_facts {R} (k : string) (v : json) : stmt R unit :=
  c <- get_cache ;;
  put_cache {| prices_cache := prices_cache c;
               financial_metrics_cache := financial_metrics_cache c;
               news_cache := news_cache c;
               company_facts_cache := <[k := v]> (company_facts_cache c);
               economic_indicators_cache := economic_indicators_cache c;
               fx_rates_cache := fx_rates_cache c |}.

Definition cache_get_economic_indicators {R} (k : string)
  : stmt R (option (pydict Q)) :=
  c <- get_cache ;; pure (economic_indicators_cache c !! k).
Definition cache_set_economic_indicators {R} (k : string) (v : pydict Q)
  : stmt R unit :=
  c <- get_cache ;;
  put_cache {| prices_cache := prices_cache c;
               financial_metrics_cache := financial_metrics_cache c;
               news_cache := news_cache c;
               company_facts_cache := company_facts_cache c;
               economic_indicators_cache := <[k := v]> (economic_indicators_cache c);
               fx_rates_cache := fx_rates_cache c |}.

Definition cache_get_fx_rates {R} (k : string) : stmt R (option (pydict Q)) :=
  c <- get_cache ;; pure (fx_rates_cache c !! k).
Definition cache_set_fx_rates {R} (k : string) (v : pydict Q) : stmt R unit :=
  c <- get_cache ;;
  put_cache {| prices_cache := prices_cache c;
               financial_metrics_cache := financial_metrics_cache c;
               news_cache := news_cache c;
               company_facts_cache := company_facts_cache c;
               economic_indicators_cache := economic_indicators_cache c;
               fx_rates_cache := <[k := v]> (fx_rates_cache c) |}.

(** ** [get_jse_prices] *)

(** The four spellings tried, in order. *)
Definition ticker_formats (ticker : string) : list string :=
  [ ticker; "JSE:" +:+ ticker; ticker +:+ ".JSE"; ticker +:+ ".JO" ].

Definition prices_url (ticker_format start_date end_date : string) : string :=
  data_source "prices" +:+ "?ticker=" +:+ ticker_format
    +:+ "&interval=day&interval_multiplier=1&start_date=" +:+ start_date
    +:+ "&end_date=" +:+ end_date.

Definition prices_cache_key (ticker start_date end_date : string) : string :=
  "JSE_" +:+ ticker +:+ "_" +:+ start_date +:+ "_" +:+ end_date.

(** [for price_data in data.get("prices", []): price_data["currency"] = "ZAR";
    prices.append(Price( **price_data))] and its siblings. *)
Definition annotate_currency {T} `{!BaseModel T} (items : json)
  : exn + list T :=
  ebind (py_iter items) (map_exn (fun item =>
    ebind (json_setitem item "currency" (JStr "ZAR")) construct_dict)).

(** The statements that follow the unconditional [return {"prices": []}]:
    a second request through the session, typed parsing, currency
    annotation and the cache write.  [url] is the loop's last value. *)
Definition get_jse_prices_tail (ticker cache_key url : string)
    (headers : pydict string)
  : stmt (prices_result Price) (prices_result Price) :=
  try_except
    (response <- session_get url headers ;;
     raise_for_status response ;;
     data <- response_json response ;;
     items <- lift (json_get data "prices" (JArr [])) ;;
     prices <- lift (annotate_currency items) ;;
     cache_set_prices cache_key (dump_all prices) ;;
     py_return (TypedPrices prices))
    (fun e =>
       if is_request_exception e
       then Some (print ("Error fetching JSE data for " +:+ ticker +:+ ": "
                          +:+ exn_str e) ;;
                  py_return (TypedPrices []))
       else None).

(** One iteration of [for ticker_format in ticker_formats]: the [try]
    block returns on status 200, [except Exception: continue] swallows
    whatever the request or the decoding raises. *)
Definition try_ticker_format (start_date end_date : string)
    (headers : pydict string) (ticker_format : string)
  : stmt (prices_result Price) unit :=
  try_except
    (let url := prices_url ticker_format start_date end_date in
     response <- requests_get url headers ;;
     if status_code response =? 200
     then j <- response_json response ;; py_return (RawJson j)
     else pure tt)
    (fun _ => Some (pure tt)).

(** The body of [get_jse_prices], with the statements after the
    unconditional [return] as a parameter. *)
Definition get_jse_prices_body (ticker start_date end_date : string)
    (tail : string -> string -> pydict string ->
            stmt (prices_result Price) (prices_result Price))
  : stmt (prices_result Price) (prices_result Price) :=
  if negb (is_jse_ticker ticker)
  then py_raise (ValueError ("Invalid JSE ticker format: " +:+ ticker))
  else
    let cache_key := prices_cache_key ticker start_date end_date in
    cached_data <- cache_get_prices cache_key ;;
    if truthy_opt cached_data
    then
      ps <- lift (construct_all (default JNull cached_data)) ;;
      py_return (TypedPrices ps)
    else
      let headers := request_headers in
      for_each (ticker_formats ticker)
        (try_ticker_format start_date end_date headers) ;;
      (py_return (RawJson (JObj [("prices", JArr [])])) : stmt _ unit) ;;
      tail cache_key
           (prices_url (List.last (ticker_formats ticker) ticker)
                       start_date end_date)
           headers.

Definition get_jse_prices (ticker start_date end_date : string)
  : fn (prices_result Price) :=
  def (get_jse_prices_body ticker start_date end_date
         (get_jse_prices_tail ticker)).

(** ** [get_sa_financial_metrics] *)

Definition financial_metrics_cache_key (ticker end_date period : string)
  : string :=
  "JSE_FIN_" +:+ ticker +:+ "_" +:+ end_date +:+ "_" +:+ period.

Definition financial_metrics_url (ticker end_date period : string) : string :=
  let jse_ticker := "JSE:" +:+ ticker in
  data_source "fundamentals" +:+ "?ticker=" +:+ jse_ticker
    +:+ "&end_date=" +:+ end_date +:+ "&period=" +:+ period.

Definition get_sa_financial_metrics (ticker end_date period : string)
  : fn (list FinancialMetrics) :=
  def (
    let cache_key := financial_metrics_cache_key ticker end_date period in
    cached_data <- cache_get_financial_metrics cache_key ;;
    if truthy_opt cached_data
    then
      ms <- lift (construct_all (default JNull cached_data)) ;;
      py_return ms
    else
      let headers := request_headers in
      let url := financial_metrics_url ticker end_date period in
      try_except
        (response <- session_get url headers ;;
         raise_for_status response ;;
         data <- response_json response ;;
         items <- lift (json_get data "financial_metrics" (JArr [])) ;;
         metrics <- lift (annotate_currency items) ;;
         cache_set_financial_metrics cache_key (dump_all metrics) ;;
         py_return metrics)
        (fun e =>
           if is_request_exception e
           then Some (print ("Error fetching SA financial metrics for "
                              +:+ ticker +:+ ": " +:+ exn_str e) ;;
                      py_return [])
           else None)).

(** ** [get_sa_news] *)

(** [start_date or 'all'] / [if start_date:] *)
Definition str_truthy (o : option string) : bool :=
  match o with Some s => negb (String.eqb s "") | None => false end.

Definition news_cache_key (ticker end_date : string)
    (start_date : option string) : string :=
  "JSE_NEWS_" +:+ ticker +:+ "_" +:+ end_date +:+ "_"
    +:+ (if str_truthy start_date then default "" start_date else "all").

Definition news_url (ticker end_date : string) (start_date : option string)
  : string :=
  let jse_ticker := "JSE:" +:+ ticker in
  let url := data_source "news" +:+ "?ticker=" +:+ jse_ticker
               +:+ "&end_date=" +:+ end_date in
  if str_truthy start_date
  then url +:+ "&start_date=" +:+ default "" start_date
  else url.

(** [text.lower()] needs a string. *)
Definition as_text (j : json) : exn + string :=
  match j with
  | JStr s => inr s
  | _ => inl (AttributeError "object has no attribute 'lower'")
  end.

(** [for news_data in data.get("news", []): news_data["sentiment"] = ...;
    news_items.append(CompanyNews( **news_data))] *)
Definition annotate_sentiment (items : json) : exn + list CompanyNews :=
  ebind (py_iter items) (map_exn (fun news_data =>
    ebind (json_get news_data "title" (JStr "")) (fun title =>
    ebind (as_text title) (fun text =>
    ebind (json_setitem news_data "sentiment"
             (JStr (_analyze_sa_sentiment text)))
          construct_dict)))).

Definition get_sa_news (ticker end_date : string) (start_date : option string)
  : fn (list CompanyNews) :=
  def (
    let cache_key := news_cache_key ticker end_date start_date in
    cached_data <- cache_get_news cache_key ;;
    if truthy_opt cached_data
    then
      ns <- lift (construct_all (default JNull cached_data)) ;;
      py_return ns
    else
      let headers := request_headers in
      let url := news_url ticker end_date start_date in
      try_except
        (response <- session_get url headers ;;
         raise_for_status response ;;
         data <- response_json response ;;
         items <- lift (json_get data "news" (JArr [])) ;;
         news_items <- lift (annotate_sentiment items) ;;
         cache_set_news cache_key (dump_all news_items) ;;
         py_return news_items)
        (fun e =>
           if is_request_exception e
           then Some (print ("Error fetching SA news for " +:+ ticker
                              +:+ ": " +:+ exn_str e) ;;
                      py_return [])
           else None)).

(** ** [get_sa_company_facts] *)

Definition company_facts_cache_key (ticker : string) : string :=
  "JSE_FACTS_" +:+ ticker.

Definition company_facts_url (ticker : string) : string :=
  let jse_ticker := "JSE:" +:+ ticker in
  data_source "company_facts" +:+ "?ticker=" +:+ jse_ticker.

Definition get_sa_company_facts (ticker : string) : fn (option CompanyFacts) :=
  def (
    let cache_key := company_facts_cache_key ticker in
    cached_data <- cache_get_company_facts cache_key ;;
    if truthy_opt cached_data
    then
      facts <- lift (construct_kw (default JNull cached_data)) ;;
      py_return (Some facts)
    else
      let headers := request_headers in
      let url := company_facts_url ticker in
      try_except
        (response <- session_get url headers ;;
         raise_for_status response ;;
         data <- response_json response ;;
         company_facts <- lift (json_get data "company_facts" (JObj [])) ;;
         company_facts <- lift (json_setitem company_facts "exchange" (JStr "JSE")) ;;
         let company_facts := PyDict.set company_facts "currency" (JStr "ZAR") in
         facts <- lift (construct_dict company_facts) ;;
         cache_set_company_facts cache_key (JObj (model_dump facts)) ;;
         py_return (Some facts))
        (fun e =>
           if is_request_exception e
           then Some (print ("Error fetching SA company facts for " +:+ ticker
                              +:+ ": " +:+ exn_str e) ;;
                      py_return None)
           else None)).

(** ** [get_sa_market_data] *)

(** [for x in xs: acc = body x acc] *)
Fixpoint for_fold {R X S} (xs : list X) (acc : S) (body : X -> S -> stmt R S)
  : stmt R S :=
  match xs with
  | [] => pure acc
  | x :: xs' => acc' <- body x acc ;; for_fold xs' acc' body
  end.

Definition index_url (index : string) : string :=
  data_source "prices" +:+ "?ticker=" +:+ index
    +:+ "&interval=day&interval_multiplier=1&start_date=" +:+ today w
    +:+ "&end_date=" +:+ today w.

Definition get_sa_market_data (indices : option (list string))
  : fn (pydict json) :=
  def (
    let indices :=
      match indices with
      | None => firstn 3 SAMarketConfig.MAJOR_INDICES
      | Some l => l
      end in
    market_data <-
      for_fold indices [] (fun index market_data =>
        let cache_key := "JSE_INDEX_" +:+ index in
        cached_data <- cache_get_prices cache_key ;;
        if truthy_opt cached_data
        then pure (PyDict.set market_data index (default JNull cached_data))
        else
          let headers := request_headers in
          let url := index_url index in
          try_except
            (response <- session_get url headers ;;
             raise_for_status response ;;
             data <- response_json response ;;
             prices <- lift (json_get data "prices" (JArr [])) ;;
             let market_data := PyDict.set market_data index prices in
             cache_set_prices cache_key prices ;;
             pure market_data)
            (fun e =>
               if is_request_exception e
               then Some (print ("Error fetching SA market data for "
                                  +:+ index +:+ ": " +:+ exn_str e) ;;
                          pure (PyDict.set market_data index (JArr [])))
               else None)) ;;
    py_return market_data).

(** ** Placeholder indicators and FX rates *)

Definition dict_truthy {V} (o : option (pydict V)) : bool :=
  match o with Some (_ :: _) => true | _ => false end.

Definition get_sa_economic_indicators : fn (pydict Q) :=
  def (
    let cache_key := "SA_ECONOMIC_INDICATORS" in
    cached_data <- cache_get_economic_indicators cache_key ;;
    if dict_truthy cached_data
    then py_return (default [] cached_data)
    else
      let indicators : pydict Q :=
        [ ("SA_CPI", 52 # 10); ("SA_REPO_RATE", 825 # 100);
          ("SA_GDP_GROWTH", 18 # 10); ("SA_UNEMPLOYMENT", 321 # 10);
          ("SA_CURRENT_ACCOUNT", - 21 # 10);
          ("SA_BUDGET_DEFICIT", - 49 # 10) ]%Q in
      cache_set_economic_indicators cache_key indicators ;;
      py_return indicators).

Definition get_zar_fx_rates : fn (pydict Q) :=
  def (
    let cache_key := "ZAR_FX_RATES" in
    cached_data <- cache_get_fx_rates cache_key ;;
    if dict_truthy cached_data
    then py_return (default [] cached_data)
    else
      let fx_rates : pydict Q :=
        [ ("USDZAR", 1845 # 100); ("EURZAR", 2012 # 100);
          ("GBPZAR", 2367 # 100); ("JPYZAR", 123 # 1000);
          ("CNYZAR", 256 # 100) ]%Q in
      cache_set_fx_rates cache_key fx_rates ;;
      py_return fx_rates).

End Adapter.

(* ===================================================================== *)
(** * Number formatting: the [.2%] format specification *)
(* ===================================================================== *)

(** [str(n)] for a non-negative integer. *)
Definition Z_to_string (n : Z) : string :=
  DecimalString.NilZero.string_of_uint (N.to_uint (Z.to_N n)).

(** Nearest integer to a non-negative rational, ties to even. *)
Definition round_half_even (q : Q) : Z :=
  let a := Qnum q in
  let b := Z.pos (Qden q) in
  let d := a / b in
  let r := a mod b in
  if 2 * r <? b then d
  else if b <? 2 * r then d + 1
  else if Z.even d then d else d + 1.

(** [f"{q:.2%}"]: the value times 100, two decimals, a percent sign. *)
Definition format_percent (q : Q) : string :=
  let neg := Qnum q <? 0 in
  let n := round_half_even (Qabs q * 10000) in
  let frac := n mod 100 in
  (if neg then "-" else "")
    +:+ Z_to_string (n / 100) +:+ "."
    +:+ (if frac <? 10 then "0" else "") +:+ Z_to_string frac +:+ "%".

(* ===================================================================== *)
(** * [sa_market_analyst.py]: the shared pipeline state *)
(* ===================================================================== *)

(** Modelled from the spec: [src/data/models.py] is absent.  A portfolio
    record as the compliance agent reads it: [portfolio.total_cash],
    [portfolio.positions] (ticker to position, in insertion order) and
    [position.shares]. *)
Record Position : Type := { shares : Z }.

Record Portfolio : Type := {
  total_cash : Q;
  positions : pydict Position;
}.

(** The [state] dictionary handed from stage to stage. *)
Record AgentState : Type := {
  model_name : string;                 (* state["metadata"]["model_name"] *)
  model_provider : string;             (* state["metadata"]["model_provider"] *)
  tickers : list string;               (* state["data"]["tickers"] *)
  end_date : string;                   (* state["data"]["end_date"] *)
  portfolio : Portfolio;               (* state["data"]["portfolio"] *)
  analyst_signals : option (gmap string (gmap string AnalystSignal));
}.

(** [if "analyst_signals" not in state["data"]: state["data"]["analyst_signals"] = {}]
    followed by [state["data"]["analyst_signals"][agent] = signals]. *)
Definition record_signals (st : AgentState) (agent : string)
    (signals : gmap string AnalystSignal) : AgentState :=
  {| model_name := model_name st;
     model_provider := model_provider st;
     tickers := tickers st;
     end_date := end_date st;
     portfolio := portfolio st;
     analyst_signals := Some (<[agent := signals]> (default ∅ (analyst_signals st))) |}.

(** The signals an agent left in the state. *)
Definition signals_of (st : AgentState) (agent : string)
  : option (gmap string AnalystSignal) :=
  match analyst_signals st with
  | Some m => m !! agent
  | None => None
  end.

Definition json_of_floats (d : pydict Q) : json :=
  JObj (map (fun kv => (fst kv, JNum (snd kv))) d).

(* ===================================================================== *)
(** * [sa_regulatory_compliance_agent] *)
(* ===================================================================== *)

Definition regulatory_context : pydict json :=
  [ ("regulatory_body", JStr SAMarketConfig.REGULATORY_BODY);
    ("exchange_controls", JBool SAMarketConfig.EXCHANGE_CONTROLS);
    ("foreign_limits", json_of_floats SAMarketConfig.FOREIGN_INVESTMENT_LIMITS);
    ("max_position_size", JNum SAMarketConfig.MAX_POSITION_SIZE);
    ("max_sector_exposure", JNum SAMarketConfig.MAX_SECTOR_EXPOSURE);
    ("stop_loss_percentage", JNum SAMarketConfig.STOP_LOSS_PERCENTAGE);
    ("max_daily_drawdown", JNum SAMarketConfig.MAX_DAILY_DRAWDOWN) ].

(** [a > b] on floats. *)
Definition Qgtb (a b : Q) : bool := negb (Qle_bool a b).

(** [position_value / total_portfolio_value if total_portfolio_value > 0 else 0] *)
Definition position_size (p : Position) (total_portfolio_value : Q) : Q :=
  let position_value := inject_Z (shares p * 100) in
  if Qgtb total_portfolio_value 0
  then (position_value / total_portfolio_value)%Q
  else 0%Q.

Definition position_issue (ticker : string) (size : Q) : json :=
  JObj [ ("ticker", JStr ticker);
         ("issue", JStr "Position size exceeds 5% limit");
         ("current_size", JStr (format_percent size));
         ("max_allowed", JStr (format_percent SAMarketConfig.MAX_POSITION_SIZE)) ].

(** First loop: one issue per position above the position limit. *)
Fixpoint position_issues (ps : pydict Position) (total_portfolio_value : Q)
  : list json :=
  match ps with
  | [] => []
  | (ticker, position) :: ps' =>
      let rest := position_issues ps' total_portfolio_value in
      if shares position >? 0
      then
        let size := position_size position total_portfolio_value in
        if Qgtb size SAMarketConfig.MAX_POSITION_SIZE
        then position_issue ticker size :: rest
        else rest
      else rest
  end.

(** Second loop: share counts accumulated per sector, in first-seen order. *)
Fixpoint accumulate_sectors (ps : pydict Position) (sector_exposures : pydict Z)
  : pydict Z :=
  match ps with
  | [] => sector_exposures
  | (ticker, position) :: ps' =>
      if shares position >? 0
      then
        match get_sa_sector_exposure ticker with
        | Some sector =>
            if negb (String.eqb sector "")
            then accumulate_sectors ps'
                   (PyDict.set sector_exposures sector
                      (get_default sector_exposures sector 0 + shares position))
            else accumulate_sectors ps' sector_exposures
        | None => accumulate_sectors ps' sector_exposures
        end
      else accumulate_sectors ps' sector_exposures
  end.

(** [sum(sector_exposures.values())] *)
Definition sum_values (d : pydict Z) : Z := fold_right Z.add 0 (PyDict.values d).

(** [exposure / sum(...) if sum(...) > 0 else 0] *)
Definition sector_exposure_ratio (exposure total : Z) : Q :=
  if total >? 0 then (inject_Z exposure / inject_Z total)%Q else 0%Q.

Definition sector_issue (sector : string) (ratio : Q) : json :=
  JObj [ ("sector", JStr sector);
         ("issue", JStr "Sector exposure exceeds 30% limit");
         ("current_exposure", JStr (format_percent ratio));
         ("max_allowed", JStr (format_percent SAMarketConfig.MAX_SECTOR_EXPOSURE)) ].

(** Third loop: one issue per sector above the sector limit; [total] is the
    sum over the whole dictionary. *)
Fixpoint sector_issues_from (items : pydict Z) (total : Z) : list json :=
  match items with
  | [] => []
  | (sector, exposure) :: items' =>
      let ratio := sector_exposure_ratio exposure total in
      if Qgtb ratio SAMarketConfig.MAX_SECTOR_EXPOSURE
      then sector_issue sector ratio :: sector_issues_from items' total
      else sector_issues_from items' total
  end.

Definition sector_issues (sector_exposures : pydict Z) : list json :=
  sector_issues_from sector_exposures (sum_values sector_exposures).

(** The list [compliance_issues] when the agent builds its signal. *)
Definition compliance_issues (p : Portfolio) : list json :=
  position_issues (positions p) (total_cash p)
    ++ sector_issues (accumulate_sectors (positions p) []).

Definition is_empty {A} (l : list A) : bool :=
  match l with [] => true | _ => false end.

Definition compliance_signal (p : Portfolio) : AnalystSignal :=
  let issues := compliance_issues p in
  {| signal := Some (if is_empty issues then "COMPLIANT" else "NON_COMPLIANT");
     confidence := Some (if is_empty issues then 1 # 1 else 8 # 10);
     reasoning :=
       JObj [ ("regulatory_body", JStr SAMarketConfig.REGULATORY_BODY);
              ("compliance_issues", JArr issues);
              ("regulatory_limits", JObj regulatory_context) ];
     max_position_size := Some SAMarketConfig.MAX_POSITION_SIZE |}.

Definition sa_regulatory_compliance_agent (st : AgentState) : AgentState :=
  record_signals st "sa_regulatory_compliance"
    {[ "PORTFOLIO" := compliance_signal (portfolio st) ]}.

(* ===================================================================== *)
(** * [sa_currency_risk_agent] *)
(* ===================================================================== *)

Definition currency_sensitive_stocks : pydict string :=
  [ ("BHP", "high"); ("AGL", "high"); ("SOL", "high");
    ("MTN", "medium"); ("VOD", "medium");
    ("NPN", "high");
    ("SHP", "low"); ("WHL", "low"); ("TBS", "low"); ("BID", "low");
    ("TFG", "low"); ("MRP", "low"); ("CLS", "low");
    ("SBK", "medium"); ("FSR", "medium"); ("NED", "medium"); ("ABG", "medium") ].

(** [currency_sensitive_stocks.get(ticker, "low")] *)
Definition currency_sensitivity (ticker : string) : string :=
  get_default currency_sensitive_stocks ticker "low".

Record currency_context : Type := {
  ctx_fx_rates : pydict Q;
  inflation : Q;
  repo_rate : Q;
  current_account : Q;
  budget_deficit : Q;
}.

Definition make_currency_context (fx_rates economic_indicators : pydict Q)
  : currency_context :=
  {| ctx_fx_rates := fx_rates;
     inflation := get_default economic_indicators "SA_CPI" 0%Q;
     repo_rate := get_default economic_indicators "SA_REPO_RATE" 0%Q;
     current_account := get_default economic_indicators "SA_CURRENT_ACCOUNT" 0%Q;
     budget_deficit := get_default economic_indicators "SA_BUDGET_DEFICIT" 0%Q |}.

Definition json_of_currency_context (c : currency_context) : json :=
  JObj [ ("base_currency", JStr "ZAR");
         ("fx_rates", json_of_floats (ctx_fx_rates c));
         ("inflation", JNum (inflation c));
         ("repo_rate", JNum (repo_rate c));
         ("current_account", JNum (current_account c));
         ("budget_deficit", JNum (budget_deficit c)) ].

(** The signal built for one valid ticker. *)
Definition currency_signal (ticker : string) (c : currency_context)
  : AnalystSignal :=
  let sensitivity := currency_sensitivity ticker in
  let high := String.eqb sensitivity "high" in
  let currency_analysis :=
    JObj [ ("ticker", JStr ticker);
           ("currency_sensitivity", JStr sensitivity);
           ("zar_volatility_impact", JStr (if high then "high" else "low"));
           ("inflation_impact", JStr (if high then "high" else "medium"));
           ("interest_rate_impact",
            JStr (if str_in ticker ["SBK"; "FSR"; "NED"; "ABG"]
                  then "high" else "low"));
           ("fx_context", json_of_currency_context c) ] in
  let '(sig, conf) :=
    if high
    then (if Qgtb (inflation c) 6 then "REDUCE" else "HOLD", 8 # 10)
    else if String.eqb sensitivity "medium"
    then ("HOLD", 6 # 10)
    else ("BUY", 7 # 10) in
  {| signal := Some sig;
     confidence := Some conf;
     reasoning :=
       JObj [ ("currency_sensitivity", JStr sensitivity);
              ("zar_analysis", currency_analysis);
              ("inflation_impact", JNum (inflation c));
              ("interest_rate_impact", JNum (repo_rate c)) ];
     max_position_size := Some (if high then 3 # 100 else 5 # 100) |}.

(** The loop over [state["data"]["tickers"]]. *)
Fixpoint currency_analyses (ts : list string) (c : currency_context)
    (ticker_analyses : gmap string AnalystSignal) : gmap string AnalystSignal :=
  match ts with
  | [] => ticker_analyses
  | ticker :: ts' =>
      if negb (validate_sa_ticker ticker)
      then currency_analyses ts' c ticker_analyses
      else currency_analyses ts' c
             (<[ticker := currency_signal ticker c]> ticker_analyses)
  end.

Section Agents.

Context (w : World).
Context {CompanyNews CompanyFacts : Type}.
Context `{!BaseModel CompanyNews} `{!BaseModel CompanyFacts}.

Definition sa_currency_risk_agent (st : AgentState) : fn AgentState :=
  def (
    fx_rates <- call get_zar_fx_rates ;;
    economic_indicators <- call get_sa_economic_indicators ;;
    let ctx := make_currency_context fx_rates economic_indicators in
    let ticker_analyses := currency_analyses (tickers st) ctx ∅ in
    py_return (record_signals st "sa_currency_risk" ticker_analyses)).

(* =================================================================== *)
(** * [sa_market_analyst_agent] *)
(* =================================================================== *)

(** [llm.invoke(messages)], yielding [response.content]. *)
Definition llm_invoke {R} (req : llm_request) : stmt R string :=
  fun s =>
    let s' := {| cache := cache s; trace := trace s ++ [EvLlmInvoke req] |} in
    match llm w (trace s) req with
    | inl e => (Raise e, s')
    | inr content => (Normal content, s')
    end.

(** [analysis.get(k)]: [None] when the key is absent. *)
Definition analysis_get (analysis : json) (k : string) : exn + option json :=
  match analysis with
  | JObj d => inr (PyDict.get d k)
  | _ => inl (AttributeError "object has no attribute 'get'")
  end.

(** The signal recorded when analysing a ticker fails. *)
Definition default_signal (e : exn) : AnalystSignal :=
  {| signal := Some "HOLD";
     confidence := Some (5 # 10);
     reasoning := JObj [("error", JStr ("Analysis failed: " +:+ exn_str e))];
     max_position_size := Some (2 # 100) |}.

(** [ticker_context], together with the market context the system
    prompt is rendered from. *)
Definition make_ticker_context (ticker : string) (sector : option string)
    (company_facts : option CompanyFacts) (news : list CompanyNews)
    (economic_indicators fx_rates : pydict Q) : llm_request :=
  {| req_ticker := ticker;
     req_sector := sector;
     req_company_info :=
       match company_facts with
       | Some facts => model_dump facts
       | None => []
       end;
     req_recent_news := map model_dump (firstn 5 news);
     req_economic_indicators := economic_indicators;
     req_fx_rates := fx_rates |}.

(** One iteration of the loop over tickers. *)
Definition analyze_ticker {R} (st : AgentState)
    (economic_indicators fx_rates : pydict Q)
    (ticker : string) (ticker_analyses : gmap string AnalystSignal)
  : stmt R (gmap string AnalystSignal) :=
  if negb (validate_sa_ticker ticker)
  then pure ticker_analyses
  else
    let sector := get_sa_sector_exposure ticker in
    company_facts <- call (get_sa_company_facts w ticker) ;;
    news <- call (get_sa_news w ticker (end_date st) None) ;;
    let ticker_context :=
      make_ticker_context ticker sector company_facts news
        economic_indicators fx_rates in
    try_except
      (content <- llm_invoke ticker_context ;;
       analysis <- lift (json_loads w content) ;;
       sig <- lift (analysis_get analysis "signal") ;;
       conf <- lift (analysis_get analysis "confidence") ;;
       reas <- lift (analysis_get analysis "reasoning") ;;
       mps <- lift (analysis_get analysis "max_position_size") ;;
       match AnalystSignal_validate w sig conf reas mps with
       | Some signal => pure (<[ticker := signal]> ticker_analyses)
       | None => py_raise (ValidationError "validation error")
       end)
      (fun e =>
         Some (print ("Error analyzing " +:+ ticker +:+ " for SA market: "
                       +:+ exn_str e) ;;
               pure (<[ticker := default_signal e]> ticker_analyses))).

Definition sa_market_analyst_agent (st : AgentState) : fn AgentState :=
  def (
    economic_indicators <- call get_sa_economic_indicators ;;
    fx_rates <- call get_zar_fx_rates ;;
    market_data <- call (get_sa_market_data w None) ;;
    ticker_analyses <-
      for_fold (tickers st) ∅
        (analyze_ticker st economic_indicators fx_rates) ;;
    py_return (record_signals st "sa_market_analyst" ticker_analyses)).

End Agents.

(* ===================================================================== *)
(** * [sa_main.py] and [sa_backtester.py]: selecting the tickers *)
(* ===================================================================== *)

(** ASCII whitespace, the characters [str.strip] removes. *)
Definition ascii_isspace (c : ascii) : bool :=
  let n := nat_of_ascii c in
  ((9 <=? n)%nat && (n <=? 13)%nat) || ((28 <=? n)%nat && (n <=? 32)%nat).

(** [s.lstrip()] *)
Fixpoint lstrip (s : string) : string :=
  match s with
  | EmptyString => EmptyString
  | String c s' => if ascii_isspace c then lstrip s' else s
  end.

(** [s.rstrip()] *)
Fixpoint rstrip (s : string) : string :=
  match s with
  | EmptyString => EmptyString
  | String c s' =>
      match rstrip s' with
      | EmptyString => if ascii_isspace c then EmptyString
                       else String c EmptyString
      | r => String c r
      end
  end.

(** [s.strip()] *)
Definition strip (s : string) : string := rstrip (lstrip s).

(** ASCII [str.upper]. *)
Definition ascii_upper (c : ascii) : ascii :=
  let n := nat_of_ascii c in
  if ((97 <=? n)%nat && (n <=? 122)%nat)%bool then ascii_of_nat (n - 32) else c.

Fixpoint upper (s : string) : string :=
  match s with
  | EmptyString => EmptyString
  | String c s' => String (ascii_upper c) (upper s')
  end.

(** [s.split(sep)] for a one-character separator. *)
Fixpoint split (sep : ascii) (s : string) : list string :=
  match s with
  | EmptyString => [EmptyString]
  | String c s' =>
      if Ascii.eqb c sep then EmptyString :: split sep s'
      else match split sep s' with
           | h :: t => String c h :: t
           | [] => [String c EmptyString]
           end
  end.

(** [sep.join(xs)] *)
Fixpoint join (sep : string) (xs : list string) : string :=
  match xs with
  | [] => EmptyString
  | [x] => x
  | x :: xs' => x +:+ sep +:+ join sep xs'
  end.

(** [[t.strip().upper() for t in args.ticker.split(",")]] *)
Definition parse_tickers (ticker_arg : string) : list string :=
  map (fun t => upper (strip t)) (split ","%char ticker_arg).

(** The validation loop: each ticker is appended to the valid or to the
    invalid list. *)
Fixpoint sort_tickers (tickers valid_tickers invalid_tickers : list string)
  : list string * list string :=
  match tickers with
  | [] => (valid_tickers, invalid_tickers)
  | ticker :: rest =>
      if validate_sa_ticker ticker
      then sort_tickers rest (valid_tickers ++ [ticker]) invalid_tickers
      else sort_tickers rest valid_tickers (invalid_tickers ++ [ticker])
  end.

(** How ticker selection ends: [sys.exit(code)], or the run goes on with
    the valid tickers. *)
Inductive selection : Type :=
| Exit (code : Z)
| Proceed (valid_tickers : list string).

(** [main], from the parsing of [--ticker] to the exit on an empty
    selection (the same statements in both entry points). *)
Definition main_select_tickers (ticker_arg : string) : fn selection :=
  def (
    let tickers := parse_tickers ticker_arg in
    let '(valid_tickers, invalid_tickers) := sort_tickers tickers [] [] in
    (if negb (is_empty invalid_tickers)
     then
       print ("⚠️  Warning: Invalid JSE tickers: "
              +:+ join ", " invalid_tickers) ;;
       print ("Valid JSE tickers: " +:+ join ", " SAMarketConfig.TOP_STOCKS)
     else pure tt) ;;
    if is_empty valid_tickers
    then
      print "❌ No valid JSE tickers provided. Exiting." ;;
      py_return (Exit 1)
    else py_return (Proceed valid_tickers)).

(* ===================================================================== *)
(** * Concrete instances used to run the model *)
(* ===================================================================== *)

(** A permissive model class: any dict validates, and dumps as itself. *)
#[local] Instance RawModel : BaseModel (pydict json) :=
  {| construct := fun d => Some d;
     model_dump := fun d => d;
     construct_model_dump := fun d => eq_refl |}.

(** A permissive [AnalystSignal] validator: a string signal and numeric
    confidence and position size (or nothing) are accepted. *)
Definition validate_signal (sig conf reas mps : option json)
  : option AnalystSignal :=
  match sig, conf, mps with
  | Some (JStr s), Some (JNum c), Some (JNum m) =>
      Some {| signal := Some s; confidence := Some c;
              reasoning := default JNull reas; max_position_size := Some m |}
  | None, None, None =>
      Some {| signal := None; confidence := None;
              reasoning := default JNull reas; max_position_size := None |}
  | _, _, _ => None
  end.

(** A world in which every HTTP request fails to connect and the model is
    unreachable. *)
Definition offline_world : World :=
  {| FINANCIAL_DATASETS_API_KEY := None;
     today := "2024-06-03";
     http := fun _ _ => GetRaises (RequestException "connection refused");
     llm := fun _ _ => inl (OtherException "APIConnectionError" "unreachable");
     json_loads := fun _ => inl (ValueError "Expecting value");
     AnalystSignal_validate := validate_signal |}.

Definition empty_portfolio : Portfolio :=
  {| total_cash := 1000000 # 1; positions := [] |}.

Definition sample_state (ts : list string) : AgentState :=
  {| model_name := "gpt-4o-mini"; model_provider := "OpenAI";
     tickers := ts; end_date := "2024-06-03";
     portfolio := empty_portfolio; analyst_signals := None |}.

(** The URL an HTTP event asked for. *)
Definition request_url (ev : event) : string :=
  match ev with
  | EvRequestsGet url _ => url
  | EvSessionGet url _ => url
  | _ => ""
  end.

(** The reply to request number [i] when the requests [reqs] are issued one
    after the other, starting from trace [tr]. *)
Definition nth_reply (w : World) (tr : list event) (reqs : list event)
    (i : nat) : http_reply :=
  http w (tr ++ firstn i reqs) (request_url (nth i reqs (EvPrint ""))).

(** A reply [get_jse_prices] returns from: status 200 with a body that
    decodes. *)
Definition usable (r : http_reply) : option json :=
  match r with
  | Response code (inr j) => if code =? 200 then Some j else None
  | _ => None
  end.

(** A reply with status 200, decodable or not. *)
Definition has_status_200 (r : http_reply) : bool :=
  match r with
  | Response code _ => code =? 200
  | GetRaises _ => false
  end.

(** The request [get_jse_prices] makes for one spelling. *)
Definition price_request (w : World) (start_date end_date : string)
    (ticker_format : string) : event :=
  EvRequestsGet (prices_url ticker_format start_date end_date)
                (request_headers w).

(** The requests [get_jse_prices] can issue, in order. *)
Definition price_requests (w : World) (ticker start_date end_date : string)
  : list event :=
  map (price_request w start_date end_date) (ticker_formats ticker).

(** The state after further events. *)
Definition after (s : state) (evs : list event) : state :=
  {| cache := cache s; trace := trace s ++ evs |}.

(** What the adapter reports as economic indicators when called in state
    [s] (the cached dictionary if there is a non-empty one, the placeholder
    otherwise). *)
Definition indicators_at (s : state) : pydict Q :=
  match fst (get_sa_economic_indicators s) with
  | inr ei => ei
  | inl _ => []
  end.

(** Likewise for the exchange rates. *)
Definition fx_rates_at (s : state) : pydict Q :=
  match fst (get_zar_fx_rates s) with
  | inr fx => fx
  | inl _ => []
  end.

(** A state whose cache already holds economic indicators. *)
Definition state_with_indicators (ei : pydict Q) : state :=
  {| cache :=
       {| prices_cache := ∅; financial_metrics_cache := ∅; news_cache := ∅;
          company_facts_cache := ∅;
          economic_indicators_cache := {[ "SA_ECONOMIC_INDICATORS" := ei ]};
          fx_rates_cache := ∅ |};
     trace := [] |}.

(** One position of 100 NPN shares against 100 000 of cash: 10% of cash. *)
Definition concentrated_state : AgentState :=
  {| model_name := "gpt-4o-mini"; model_provider := "OpenAI";
     tickers := ["NPN"]; end_date := "2024-06-03";
     portfolio := {| total_cash := 100000 # 1;
                     positions := [("NPN", {| shares := 100 |})] |};
     analyst_signals := None |}.

(** Four equal positions in four different sectors, each 0.1% of cash. *)
Definition diversified_state : AgentState :=
  {| model_name := "gpt-4o-mini"; model_provider := "OpenAI";
     tickers := ["SBK"; "BHP"; "SHP"; "MTN"]; end_date := "2024-06-03";
     portfolio := {| total_cash := 1000000 # 1;
                     positions := [ ("SBK", {| shares := 10 |});
                                    ("BHP", {| shares := 10 |});
                                    ("SHP", {| shares := 10 |});
                                    ("MTN", {| shares := 10 |}) ] |};
     analyst_signals := None |}.

(** A listing for one day, as the upstream price endpoint sends it. *)
Definition sample_prices_document : json :=
  JObj [ ("prices",
          JArr [ JObj [ ("open", JNum (3150 # 1)); ("close", JNum (3180 # 1));
                        ("high", JNum (3200 # 1)); ("low", JNum (3140 # 1));
                        ("volume", JNum (120000 # 1));
                        ("time", JStr "2024-01-02") ] ]) ].

(** A world in which the upstream service answers every request with
    status 200 and the sample listing. *)
Definition serving_world : World :=
  {| FINANCIAL_DATASETS_API_KEY := None;
     today := "2024-06-03";
     http := fun _ _ => Response 200 (inr sample_prices_document);
     llm := fun _ _ => inl (OtherException "APIConnectionError" "unreachable");
     json_loads := fun _ => inl (ValueError "Expecting value");
     AnalystSignal_validate := validate_signal |}.

(** A world in which the plain spelling "NPN" is answered with status 200
    and a body that is not JSON (an HTML page, say), every other spelling
    with status 200 and the sample listing. *)
Definition undecodable_first_world : World :=
  {| FINANCIAL_DATASETS_API_KEY := None;
     today := "2024-06-03";
     http := fun _ url =>
       if String.eqb url
            (prices_url "NPN" "2024-01-01" "2024-01-31")
       then Response 200
              (inl (RequestException "Expecting value: line 1 column 1 (char 0)"))
       else Response 200 (inr sample_prices_document);
     llm := fun _ _ => inl (OtherException "APIConnectionError" "unreachable");
     json_loads := fun _ => inl (ValueError "Expecting value");
     AnalystSignal_validate := validate_signal |}.

(** A world whose upstream service knows one metrics record, one news
    item and the company facts of every ticker, and nothing else. *)
Definition fundamentals_world : World :=
  {| FINANCIAL_DATASETS_API_KEY := Some "key";
     today := "2024-06-03";
     http := fun _ url =>
       if String.prefix "https://api.financialdatasets.ai/financial-metrics/" url
       then Response 200
              (inr (JObj [ ("financial_metrics",
                            JArr [ JObj [ ("ticker", JStr "JSE:NPN");
                                          ("price_to_earnings_ratio",
                                           JNum (187 # 10)) ] ]) ]))
       else if String.prefix "https://api.financialdatasets.ai/news/" url
       then Response 200
              (inr (JObj [ ("news",
                            JArr [ JObj [ ("title",
                                           JStr "Naspers profit growth") ] ]) ]))
       else if String.prefix "https://api.financialdatasets.ai/company-facts/" url
       then Response 200
              (inr (JObj [ ("company_facts",
                            JObj [ ("name", JStr "Naspers") ]) ]))
       else Response 404 (inl (RequestException "Not Found"));
     llm := fun _ _ => inl (OtherException "APIConnectionError" "unreachable");
     json_loads := fun _ => inl (ValueError "Expecting value");
     AnalystSignal_validate := validate_signal |}.

(** A world whose upstream service answers every request with status 200
    and an empty list of financial metrics. *)
Definition empty_metrics_world : World :=
  {| FINANCIAL_DATASETS_API_KEY := None;
     today := "2024-06-03";
     http := fun _ _ =>
       Response 200 (inr (JObj [ ("financial_metrics", JArr []) ]));
     llm := fun _ _ => inl (OtherException "APIConnectionError" "unreachable");
     json_loads := fun _ => inl (ValueError "Expecting value");
     AnalystSignal_validate := validate_signal |}.


(** What the accumulation loop maintains: distinct keys, positive counts,
    and only sectors some positive-share position maps to. *)
Definition exposures_ok (secs : list string) (d : pydict Z) : Prop :=
  List.NoDup (keys d) /\ forall k v, In (k, v) d -> v > 0 /\ In k secs.

(** The exception the [except requests.RequestException] clause of a fetch
    catches for a reply, if any: the request itself raised one, the status
    is 4xx or 5xx ([raise_for_status]), or decoding the body raised one. *)
Definition caught_failure (r : http_reply) : option exn :=
  match r with
  | GetRaises e => if is_request_exception e then Some e else None
  | Response code b =>
      if (400 <=? code) && (code <? 600)
      then Some (RequestException "HTTPError")
      else match b with
           | inl e => if is_request_exception e then Some e else None
           | inr _ => None
           end
  end.

(** The decoded body of a reply that passes [raise_for_status]. *)
Definition decoded_body (r : http_reply) : option json :=
  match r with
  | Response code (inr data) =>
      if (400 <=? code) && (code <? 600) then None else Some data
  | _ => None
  end.

(** A cache that differs from [c] at most in the entry [k] of one store. *)
Definition same_but_financial_metrics (k : string) (c c' : Cache) : Prop :=
  prices_cache c' = prices_cache c
  /\ news_cache c' = news_cache c
  /\ company_facts_cache c' = company_facts_cache c
  /\ economic_indicators_cache c' = economic_indicators_cache c
  /\ fx_rates_cache c' = fx_rates_cache c
  /\ forall k', k' <> k ->
        financial_metrics_cache c' !! k' = financial_metrics_cache c !! k'.

Definition same_but_news (k : string) (c c' : Cache) : Prop :=
  prices_cache c' = prices_cache c
  /\ financial_metrics_cache c' = financial_metrics_cache c
  /\ company_facts_cache c' = company_facts_cache c
  /\ economic_indicators_cache c' = economic_indicators_cache c
  /\ fx_rates_cache c' = fx_rates_cache c
  /\ forall k', k' <> k -> news_cache c' !! k' = news_cache c !! k'.

Definition same_but_company_facts (k : string) (c c' : Cache) : Prop :=
  prices_cache c' = prices_cache c
  /\ financial_metrics_cache c' = financial_metrics_cache c
  /\ news_cache c' = news_cache c
  /\ economic_indicators_cache c' = economic_indicators_cache c
  /\ fx_rates_cache c' = fx_rates_cache c
  /\ forall k', k' <> k ->
        company_facts_cache c' !! k' = company_facts_cache c !! k'.


(** A world whose upstream service answers every request with status 200
    and a JSON array instead of an object. *)
Definition array_world : World :=
  {| FINANCIAL_DATASETS_API_KEY := None;
     today := "2024-06-03";
     http := fun _ _ => Response 200 (inr (JArr []));
     llm := fun _ _ => inl (OtherException "APIConnectionError" "unreachable");
     json_loads := fun _ => inl (ValueError "Expecting value");
     AnalystSignal_validate := validate_signal |}.

(** The exception that escapes a fetch for a reply, if any: one that is not
    a [RequestException], raised by the request or by decoding, or the
    [AttributeError] of calling [.get] on a decoded body that is not an
    object. *)
Definition escaping_failure (r : http_reply) : option exn :=
  match r with
  | GetRaises e => if is_request_exception e then None else Some e
  | Response code b =>
      if (400 <=? code) && (code <? 600) then None
      else match b with
           | inl e => if is_request_exception e then None else Some e
           | inr (JObj _) => None
           | inr _ => Some (AttributeError "object has no attribute 'get'")
           end
  end.

(** What [get_sa_market_data] reports for an index it cannot fetch: the
    cached listing if there is a truthy one, the empty list otherwise. *)
Definition cached_or_empty (c : Cache) (index : string) : json :=
  match prices_cache c !! ("JSE_INDEX_" +:+ index) with
  | Some v => if truthy v then v else JArr []
  | None => JArr []
  end.

(** A state whose price store already holds an entry. *)
Definition state_with_prices (k : string) (v : json) : state :=
  {| cache :=
       {| prices_cache := {[ k := v ]}; financial_metrics_cache := ∅;
          news_cache := ∅; company_facts_cache := ∅;
          economic_indicators_cache := ∅; fx_rates_cache := ∅ |};
     trace := [] |}.

(** Strings that do not contain the key separator. *)
Definition no_underscore (s : string) : bool :=
  forallb (fun c => negb (Ascii.eqb c "_"%char)) (list_ascii_of_string s).

(** [if sector:] on the result of the sector lookup. *)
Definition sector_counts (o : option string) : bool :=
  match o with
  | Some sector => negb (String.eqb sector "")
  | None => false
  end.

(** The shares held in positions that have positive shares and a sector. *)
Fixpoint mapped_shares (ps : pydict Position) : Z :=
  match ps with
  | [] => 0
  | (ticker, position) :: ps' =>
      (if (shares position >? 0)
          && sector_counts (get_sa_sector_exposure ticker)
       then shares position else 0)
      + mapped_shares ps'
  end.

(** The positions with positive shares, in order. *)
Definition holdings (ps : pydict Position) : pydict Position :=
  List.filter (fun kv => shares (snd kv) >? 0) ps.

(** A portfolio with no cash left and one position. *)
Definition cashless_portfolio : Portfolio :=
  {| total_cash := 0; positions := [("NPN", {| shares := 100 |})] |}.

(** A portfolio with a closed and a short position next to a holding. *)
Definition mixed_portfolio : Portfolio :=
  {| total_cash := 100000 # 1;
     positions := [ ("SBK", {| shares := 0 |});
                    ("NPN", {| shares := 100 |});
                    ("BHP", {| shares := -50 |}) ] |}.


(** A reply as the user prompt asks for it. *)
Definition buy_reply : json :=
  JObj [ ("signal", JStr "BUY");
         ("confidence", JNum (75 # 100));
         ("reasoning", JObj [ ("currency_impact", JStr "ZAR stable") ]);
         ("max_position_size", JNum (4 # 100));
         ("stop_loss", JStr "15%");
         ("time_horizon", JStr "Medium term") ].

(** A world that is offline for HTTP and whose model answers every request
    with the text [content]; three texts decode: to the reply above, to a
    JSON array, and to an object whose signal is a number. *)
Definition replying_world (content : string) : World :=
  {| FINANCIAL_DATASETS_API_KEY := None;
     today := "2024-06-03";
     http := fun _ _ => GetRaises (RequestException "connection refused");
     llm := fun _ _ => inr content;
     json_loads := fun c =>
       if String.eqb c "buy reply" then inr buy_reply
       else if String.eqb c "array reply" then inr (JArr [])
       else if String.eqb c "number reply"
       then inr (JObj [ ("signal", JNum (1 # 1)) ])
       else inl (ValueError "Expecting value");
     AnalystSignal_validate := validate_signal |}.

(** Strings without a comma. *)
Definition no_comma (s : string) : bool :=
  forallb (fun c => negb (Ascii.eqb c ","%char)) (list_ascii_of_string s).

(* ===================================================================== *)
(** * Properties *)
(* ===================================================================== *)

Lemma str_in_In x xs : str_in x xs = true <-> In x xs.
Proof.
  unfold str_in. rewrite existsb_exists. split.
  - intros [y [Hy He]]. apply String.eqb_eq in He. now subst.
  - intros H. exists x. split; [exact H | apply String.eqb_refl].
Qed.

Example is_jse_ticker_NPN : is_jse_ticker "NPN" = true.
Proof. reflexivity. Qed.

Example is_jse_ticker_AAPL : is_jse_ticker "AAPL" = false.
Proof. reflexivity. Qed.

Example sentiment_growth : _analyze_sa_sentiment "JSE Growth slows" = "positive".
Proof. reflexivity. Qed.

Example sentiment_eskom : _analyze_sa_sentiment "Eskom strike" = "negative".
Proof. reflexivity. Qed.

Example format_percent_5 : format_percent (5 # 100) = "5.00%".
Proof. reflexivity. Qed.

Example format_percent_third : format_percent (1 # 3) = "33.33%".
Proof. reflexivity. Qed.

Example format_percent_tie : format_percent (12345 # 1000000) = "1.23%".
Proof. reflexivity. Qed.

Example format_percent_big : format_percent (25 # 10) = "250.00%".
Proof. reflexivity. Qed.

(** ** The validator and the static tables *)

Lemma is_jse_ticker_spec ticker :
  is_jse_ticker ticker = true <->
  (3 <= len ticker <= 4 /\ isalpha ticker = true
   /\ In ticker SAMarketConfig.TOP_STOCKS).
Proof.
  unfold is_jse_ticker.
  rewrite !andb_true_iff, !Z.leb_le, str_in_In. tauto.
Qed.

Lemma not_in_top_stocks ticker :
  ~ In ticker SAMarketConfig.TOP_STOCKS -> is_jse_ticker ticker = false.
Proof.
  intros Hn. destruct (is_jse_ticker ticker) eqn:E; [| reflexivity].
  apply is_jse_ticker_spec in E. tauto.
Qed.

(** Every entry of the allow-list is three letters, so membership alone
    decides the validator. *)
Lemma in_top_stocks_valid ticker :
  In ticker SAMarketConfig.TOP_STOCKS -> validate_sa_ticker ticker = true.
Proof.
  intros H. simpl in H.
  repeat (destruct H as [<- | H]; [reflexivity |]). destruct H.
Qed.

Lemma validate_sa_ticker_In ticker :
  validate_sa_ticker ticker = true <-> In ticker SAMarketConfig.TOP_STOCKS.
Proof.
  split; [| apply in_top_stocks_valid].
  unfold validate_sa_ticker. rewrite andb_true_iff, str_in_In. tauto.
Qed.

(** C7. [is_jse_ticker] holds exactly of the strings of length 3 to 4 that
    are alphabetic and on the [TOP_STOCKS] allow-list; for a ticker off the
    allow-list it answers false, the market analyst's iteration for that
    ticker changes nothing (no request, no model call, no cache write, no
    entry), and [get_jse_prices] rejects it before any request. *)
Theorem C7_validator_allow_list :
  forall ticker : string,
    (is_jse_ticker ticker = true <->
     (3 <= len ticker <= 4 /\ isalpha ticker = true
      /\ In ticker SAMarketConfig.TOP_STOCKS))
    /\ (~ In ticker SAMarketConfig.TOP_STOCKS ->
        is_jse_ticker ticker = false
        /\ validate_sa_ticker ticker = false
        /\ (forall (w : World) (News Facts : Type)
                   (HN : BaseModel News) (HF : BaseModel Facts)
                   (R : Type) (st : AgentState) (ei fx : pydict Q)
                   (acc : gmap string AnalystSignal) (s : state),
               analyze_ticker (R := R) (CompanyNews := News)
                 (CompanyFacts := Facts) w st ei fx ticker acc s
               = (Normal acc, s))
        /\ (forall (w : World) (Price : Type) (HP : BaseModel Price)
                   (start_date end_date : string) (s : state),
               get_jse_prices w ticker start_date end_date s
               = (inl (ValueError ("Invalid JSE ticker format: " +:+ ticker)), s))).
Proof.
  intros ticker. split; [apply is_jse_ticker_spec |].
  intros Hn. pose proof (not_in_top_stocks ticker Hn) as Hf.
  assert (Hv : validate_sa_ticker ticker = false)
    by (unfold validate_sa_ticker; rewrite Hf; reflexivity).
  repeat split; try assumption.
  - intros. unfold analyze_ticker. rewrite Hv. reflexivity.
  - intros. unfold get_jse_prices, get_jse_prices_body, def.
    rewrite Hf. reflexivity.
Qed.

Lemma C7_validator_allow_list_witness :
  is_jse_ticker "AAPL" = false
  /\ analyze_ticker (R := unit) (CompanyNews := pydict json)
       (CompanyFacts := pydict json)
       offline_world (sample_state ["AAPL"]) [] [] "AAPL" ∅ init_state
     = (Normal ∅, init_state).
Proof.
  assert (Hn : ~ In "AAPL" SAMarketConfig.TOP_STOCKS).
  { simpl. intros H. repeat (destruct H as [H | H]; [discriminate H |]). exact H. }
  destruct (C7_validator_allow_list "AAPL") as [_ Hoff].
  destruct (Hoff Hn) as [Hf [_ [Hiter _]]].
  split; [exact Hf | apply Hiter].
Defined.

(** C8. On the allow-list the sector lookup always answers, with a member
    of [SECTORS]; "NPN" is Technology and "SBK" is Financial Services. *)
Theorem C8_sector_lookup :
  (forall ticker : string,
      In ticker SAMarketConfig.TOP_STOCKS ->
      exists sector : string,
        get_sa_sector_exposure ticker = Some sector
        /\ In sector SAMarketConfig.SECTORS)
  /\ get_sa_sector_exposure "NPN" = Some "Technology"
  /\ get_sa_sector_exposure "SBK" = Some "Financial Services".
Proof.
  split; [| split; reflexivity].
  intros ticker H. simpl in H.
  repeat (destruct H as [<- | H];
          [eexists; split; [reflexivity | simpl; tauto] |]).
  destruct H.
Qed.

Lemma C8_sector_lookup_witness :
  exists sector : string,
    get_sa_sector_exposure "MTN" = Some sector
    /\ In sector SAMarketConfig.SECTORS.
Proof.
  apply (proj1 C8_sector_lookup). simpl. tauto.
Defined.

(** ** The currency-risk agent *)

Lemma signals_of_record st agent m :
  signals_of (record_signals st agent m) agent = Some m.
Proof. unfold signals_of, record_signals. simpl. apply lookup_insert_eq. Qed.

(** Unfolding of the statement combinators and the cache accessors. *)
Ltac run_stmt :=
  cbv [def call bind pure py_return py_raise lift get_cache put_cache emit
       print try_except http_call requests_get session_get
       raise_for_status response_json llm_invoke
       cache_get_prices cache_set_prices
       cache_get_financial_metrics cache_set_financial_metrics
       cache_get_news cache_set_news
       cache_get_company_facts cache_set_company_facts
       cache_get_economic_indicators cache_set_economic_indicators
       cache_get_fx_rates cache_set_fx_rates];
  cbn [cache trace prices_cache financial_metrics_cache news_cache
       company_facts_cache economic_indicators_cache fx_rates_cache
       status_code body fst snd].

Lemma sa_currency_risk_agent_run (st : AgentState) (s : state) :
  exists s',
    sa_currency_risk_agent st s
    = (inr (record_signals st "sa_currency_risk"
              (currency_analyses (tickers st)
                 (make_currency_context (fx_rates_at s) (indicators_at s)) ∅)),
       s').
Proof.
  destruct s as [[pc fc nc cc ec xc] tr].
  unfold sa_currency_risk_agent, fx_rates_at, indicators_at,
    get_zar_fx_rates, get_sa_economic_indicators, dict_truthy.
  run_stmt.
  destruct (xc !! "ZAR_FX_RATES") as [[| ? ?] |]; run_stmt;
    destruct (ec !! "SA_ECONOMIC_INDICATORS") as [[| ? ?] |]; run_stmt;
    eexists; reflexivity.
Qed.

Lemma currency_analyses_keep ts c (m : gmap string AnalystSignal) t :
  m !! t = Some (currency_signal t c) ->
  currency_analyses ts c m !! t = Some (currency_signal t c).
Proof.
  revert m. induction ts as [| x ts IH]; intros m Hm; simpl; [exact Hm |].
  destruct (validate_sa_ticker x); simpl; [| apply IH; exact Hm].
  apply IH. destruct (decide (x = t)) as [-> | Hne].
  - apply lookup_insert_eq.
  - rewrite lookup_insert_ne by exact Hne. exact Hm.
Qed.

Lemma currency_analyses_lookup ts c (m : gmap string AnalystSignal) t :
  In t ts -> validate_sa_ticker t = true ->
  currency_analyses ts c m !! t = Some (currency_signal t c).
Proof.
  revert m. induction ts as [| x ts IH]; intros m Hin Hv; [destruct Hin |].
  simpl. destruct Hin as [-> | Hin].
  - rewrite Hv. simpl. apply currency_analyses_keep, lookup_insert_eq.
  - destruct (validate_sa_ticker x); simpl; apply IH; assumption.
Qed.

(** Every valid ticker handed to the agent gets the signal computed from
    the indicators the adapter reports. *)
Lemma sa_currency_risk_agent_entry (st : AgentState) (s : state) ticker :
  In ticker (tickers st) -> validate_sa_ticker ticker = true ->
  exists st' s' m,
    sa_currency_risk_agent st s = (inr st', s')
    /\ signals_of st' "sa_currency_risk" = Some m
    /\ m !! ticker
       = Some (currency_signal ticker
                 (make_currency_context (fx_rates_at s) (indicators_at s))).
Proof.
  intros Hin Hv. destruct (sa_currency_risk_agent_run st s) as [s' Hrun].
  eexists _, s', _. split; [exact Hrun |]. split.
  - apply signals_of_record.
  - apply currency_analyses_lookup; assumption.
Qed.

Lemma Qgtb_true a b : Qgtb a b = true <-> (b < a)%Q.
Proof.
  unfold Qgtb. rewrite negb_true_iff. split.
  - intros H. apply Qnot_le_lt. intros Hle.
    apply Qle_bool_iff in Hle. congruence.
  - intros H. destruct (Qle_bool a b) eqn:E; [| reflexivity].
    apply Qle_bool_iff in E. exfalso. exact (Qlt_not_le _ _ H E).
Qed.

Lemma Qgtb_false a b : Qgtb a b = false <-> (a <= b)%Q.
Proof.
  unfold Qgtb. rewrite negb_false_iff. apply Qle_bool_iff.
Qed.

(** C4. For a valid ticker the sensitivity table marks "high", the agent
    returns, and the ticker's signal is "REDUCE" exactly when the [SA_CPI]
    indicator is above 6.0 and "HOLD" exactly when it is at or below 6.0;
    the confidence is 0.8 either way. *)
Theorem C4_currency_risk_high :
  forall (st : AgentState) (s : state) (ticker : string),
    In ticker (tickers st) ->
    validate_sa_ticker ticker = true ->
    PyDict.get currency_sensitive_stocks ticker = Some "high" ->
    exists (st' : AgentState) (s' : state) (m : gmap string AnalystSignal)
           (sg : AnalystSignal),
      sa_currency_risk_agent st s = (inr st', s')
      /\ signals_of st' "sa_currency_risk" = Some m
      /\ m !! ticker = Some sg
      /\ (signal sg = Some "REDUCE"
          <-> (6 < get_default (indicators_at s) "SA_CPI" 0)%Q)
      /\ (signal sg = Some "HOLD"
          <-> (get_default (indicators_at s) "SA_CPI" 0 <= 6)%Q)
      /\ confidence sg = Some (8 # 10).
Proof.
  intros st s ticker Hin Hv Hhigh.
  destruct (sa_currency_risk_agent_entry st s ticker Hin Hv)
    as (st' & s' & m & Hrun & Hsig & Hm).
  exists st', s', m, (currency_signal ticker
    (make_currency_context (fx_rates_at s) (indicators_at s))).
  split; [exact Hrun |]. split; [exact Hsig |]. split; [exact Hm |].
  unfold currency_signal, currency_sensitivity, get_default.
  rewrite Hhigh.
  cbn [String.eqb Ascii.eqb Bool.eqb signal confidence inflation
       make_currency_context].
  fold (get_default (indicators_at s) "SA_CPI" 0%Q).
  destruct (Qgtb (get_default (indicators_at s) "SA_CPI" 0%Q) 6) eqn:E.
  - apply Qgtb_true in E. repeat split; try (intros _; exact E).
    intros H. discriminate H.
    intros H. exfalso. exact (Qlt_not_le _ _ E H).
  - apply Qgtb_false in E. repeat split; try (intros _; exact E).
    intros H. discriminate H.
    intros H. exfalso. exact (Qlt_not_le _ _ H E).
Qed.

Lemma C4_currency_risk_high_witness :
  exists (st' : AgentState) (s' : state) (m : gmap string AnalystSignal)
         (sg : AnalystSignal),
    sa_currency_risk_agent (sample_state ["SBK"; "BHP"])
      (state_with_indicators [("SA_CPI", 7 # 1)]) = (inr st', s')
    /\ signals_of st' "sa_currency_risk" = Some m
    /\ m !! "BHP" = Some sg
    /\ (signal sg = Some "REDUCE"
        <-> (6 < get_default
                   (indicators_at (state_with_indicators [("SA_CPI", 7 # 1)]))
                   "SA_CPI" 0)%Q)
    /\ (signal sg = Some "HOLD"
        <-> (get_default
               (indicators_at (state_with_indicators [("SA_CPI", 7 # 1)]))
               "SA_CPI" 0 <= 6)%Q)
    /\ confidence sg = Some (8 # 10).
Proof.
  apply C4_currency_risk_high; [simpl; tauto | reflexivity | reflexivity].
Defined.

(** With the placeholder indicators ([SA_CPI] 5.2) a "high" ticker is held;
    with a cached [SA_CPI] of 7 it is reduced. *)
Example currency_risk_placeholder_hold :
  currency_signal "NPN" (make_currency_context (fx_rates_at init_state)
                           (indicators_at init_state))
  = currency_signal "NPN"
      (make_currency_context (fx_rates_at init_state)
         [ ("SA_CPI", 52 # 10); ("SA_REPO_RATE", 825 # 100);
           ("SA_GDP_GROWTH", 18 # 10); ("SA_UNEMPLOYMENT", 321 # 10);
           ("SA_CURRENT_ACCOUNT", - 21 # 10);
           ("SA_BUDGET_DEFICIT", - 49 # 10) ]%Q)
  /\ signal (currency_signal "NPN"
               (make_currency_context (fx_rates_at init_state)
                  (indicators_at init_state))) = Some "HOLD".
Proof. split; reflexivity. Qed.

Example currency_risk_cached_reduce :
  signal (currency_signal "NPN"
            (make_currency_context []
               (indicators_at (state_with_indicators [("SA_CPI", 7 # 1)]))))
  = Some "REDUCE".
Proof. vm_compute. reflexivity. Qed.

(** C10. The allow-list tickers missing from the sensitivity table are
    exactly IMP, ANG and AMS; each of them is valid, defaults to "low", and
    for any state of the cache (whatever indicators or rates it holds) gets
    signal "BUY" with confidence 0.7 and maximum position size 0.05. *)
Theorem C10_unlisted_tickers_buy :
  (forall ticker : string,
      In ticker SAMarketConfig.TOP_STOCKS ->
      PyDict.get currency_sensitive_stocks ticker = None ->
      In ticker ["IMP"; "ANG"; "AMS"])
  /\ (forall ticker : string,
        In ticker ["IMP"; "ANG"; "AMS"] ->
        validate_sa_ticker ticker = true
        /\ PyDict.get currency_sensitive_stocks ticker = None
        /\ currency_sensitivity ticker = "low"
        /\ (forall (st : AgentState) (s : state),
              In ticker (tickers st) ->
              exists (st' : AgentState) (s' : state)
                     (m : gmap string AnalystSignal) (sg : AnalystSignal),
                sa_currency_risk_agent st s = (inr st', s')
                /\ signals_of st' "sa_currency_risk" = Some m
                /\ m !! ticker = Some sg
                /\ signal sg = Some "BUY"
                /\ confidence sg = Some (7 # 10)
                /\ max_position_size sg = Some (5 # 100))).
Proof.
  split.
  - intros ticker H. simpl in H.
    repeat (destruct H as [<- | H];
            [first [ intros E; discriminate E | intros _; simpl; tauto ] |]).
    destruct H.
  - intros ticker H.
    assert (Hv : validate_sa_ticker ticker = true).
    { simpl in H. repeat (destruct H as [<- | H]; [reflexivity |]). destruct H. }
    assert (Hn : PyDict.get currency_sensitive_stocks ticker = None).
    { simpl in H. repeat (destruct H as [<- | H]; [reflexivity |]). destruct H. }
    split; [exact Hv |]. split; [exact Hn |].
    split; [unfold currency_sensitivity, get_default; rewrite Hn; reflexivity |].
    intros st s Hin.
    destruct (sa_currency_risk_agent_entry st s ticker Hin Hv)
      as (st' & s' & m & Hrun & Hsig & Hm).
    eexists st', s', m, _.
    split; [exact Hrun |]. split; [exact Hsig |]. split; [exact Hm |].
    unfold currency_signal, currency_sensitivity, get_default.
    rewrite Hn. simpl. repeat split; reflexivity.
Qed.

Lemma C10_unlisted_tickers_buy_witness :
  In "IMP" ["IMP"; "ANG"; "AMS"]
  /\ exists (st' : AgentState) (s' : state)
            (m : gmap string AnalystSignal) (sg : AnalystSignal),
      sa_currency_risk_agent (sample_state ["IMP"])
        (state_with_indicators [("SA_CPI", 9 # 1)]) = (inr st', s')
      /\ signals_of st' "sa_currency_risk" = Some m
      /\ m !! "IMP" = Some sg
      /\ signal sg = Some "BUY"
      /\ confidence sg = Some (7 # 10)
      /\ max_position_size sg = Some (5 # 100).
Proof.
  assert (H : In "IMP" ["IMP"; "ANG"; "AMS"]) by (simpl; tauto).
  split; [exact H |].
  apply (proj2 C10_unlisted_tickers_buy "IMP" H). simpl. tauto.
Defined.

(** ** The regulatory compliance agent *)

Lemma compliance_agent_signal (st : AgentState) :
  exists m : gmap string AnalystSignal,
    signals_of (sa_regulatory_compliance_agent st) "sa_regulatory_compliance"
    = Some m
    /\ m !! "PORTFOLIO" = Some (compliance_signal (portfolio st)).
Proof.
  eexists. split.
  - unfold sa_regulatory_compliance_agent. apply signals_of_record.
  - apply lookup_singleton_eq.
Qed.



Lemma position_issues_none ps total :
  (forall ticker position,
      In (ticker, position) ps -> shares position > 0 ->
      Qgtb (position_size position total) SAMarketConfig.MAX_POSITION_SIZE
      = false) ->
  position_issues ps total = [].
Proof.
  induction ps as [| [t p] ps IH]; intros H; [reflexivity |].
  simpl. rewrite IH by (intros; eapply H; [right |]; eassumption).
  destruct (shares p >? 0) eqn:E; [| reflexivity].
  rewrite (H t p); [reflexivity | left; reflexivity |].
  apply Z.gtb_lt in E. lia.
Qed.



(** The two verdicts on concrete portfolios. *)
Example compliance_concentrated :
  compliance_issues (portfolio concentrated_state)
  = [ position_issue "NPN" (1 # 10); sector_issue "Technology" (1 # 1) ]
  /\ position_issue "NPN" (1 # 10)
     = JObj [ ("ticker", JStr "NPN");
              ("issue", JStr "Position size exceeds 5% limit");
              ("current_size", JStr "10.00%");
              ("max_allowed", JStr "5.00%") ]
  /\ signal (compliance_signal (portfolio concentrated_state))
     = Some "NON_COMPLIANT".
Proof. repeat split; vm_compute; reflexivity. Qed.

Example compliance_diversified :
  compliance_issues (portfolio diversified_state) = []
  /\ signal (compliance_signal (portfolio diversified_state)) = Some "COMPLIANT"
  /\ confidence (compliance_signal (portfolio diversified_state)) = Some (1 # 1).
Proof. repeat split; vm_compute; reflexivity. Qed.

(** ** Sector exposure: ratios of share counts sum to one *)

Section PyDictFacts.

Context {V : Type}.
Implicit Types (d : pydict V) (k : string) (v : V).

Lemma get_In d k v : PyDict.get d k = Some v -> In (k, v) d.
Proof.
  induction d as [| [k' v'] d IH]; simpl; [discriminate |].
  destruct (String.eqb k' k) eqn:E.
  - apply String.eqb_eq in E. subst. intros [= ->]. left. reflexivity.
  - intros H. right. apply IH, H.
Qed.

Lemma get_None_keys d k : PyDict.get d k = None -> ~ In k (keys d).
Proof.
  induction d as [| [k' v'] d IH]; simpl; [tauto |].
  destruct (String.eqb k' k) eqn:E; [discriminate |].
  apply String.eqb_neq in E. intros H [Hk | Hk]; [congruence |].
  exact (IH H Hk).
Qed.

Lemma set_In d k v k0 v0 :
  In (k0, v0) (PyDict.set d k v) -> (k0, v0) = (k, v) \/ In (k0, v0) d.
Proof.
  induction d as [| [k' v'] d IH]; simpl.
  - intros [H | H]; [left; symmetry; exact H | destruct H].
  - destruct (String.eqb k' k) eqn:E.
    + apply String.eqb_eq in E. subst. simpl.
      intros [H | H]; [left; symmetry; exact H | right; right; exact H].
    + simpl. intros [H | H]; [right; left; exact H |].
      destruct (IH H) as [H' | H']; [left | right; right]; exact H'.
Qed.

Lemma set_keys_In d k v k0 :
  In k0 (keys (PyDict.set d k v)) -> k0 = k \/ In k0 (keys d).
Proof.
  unfold keys. induction d as [| [k' v'] d IH]; simpl.
  - intros [H | H]; [left; symmetry; exact H | destruct H].
  - destruct (String.eqb k' k) eqn:E; simpl.
    + tauto.
    + intros [H | H]; [tauto |]. destruct (IH H); tauto.
Qed.

Lemma set_NoDup d k v : List.NoDup (keys d) -> List.NoDup (keys (PyDict.set d k v)).
Proof.
  unfold keys. induction d as [| [k' v'] d IH]; simpl; intros Hnd.
  - constructor; [intros [] | constructor].
  - destruct (String.eqb k' k) eqn:E; simpl; [exact Hnd |].
    inversion Hnd as [| ? ? Hnotin Hnd']; subst.
    constructor; [| apply IH, Hnd'].
    intros Hin. apply set_keys_In in Hin. destruct Hin as [-> | Hin].
    + rewrite String.eqb_refl in E. discriminate E.
    + exact (Hnotin Hin).
Qed.

Lemma set_nonempty d k v : PyDict.set d k v <> [].
Proof.
  destruct d as [| [k' v'] d]; simpl; [discriminate |].
  destruct (String.eqb k' k); discriminate.
Qed.

End PyDictFacts.

(** Every sector named by the table is a non-empty string. *)
Lemma sector_truthy ticker sector :
  get_sa_sector_exposure ticker = Some sector -> String.eqb sector "" = false.
Proof.
  intros H. apply get_In in H. unfold sector_mapping in H. simpl in H.
  repeat (destruct H as [[= <- <-] | H]; [reflexivity |]). destruct H.
Qed.

Lemma get_default_nonneg secs (d : pydict Z) k :
  exposures_ok secs d -> get_default d k 0 >= 0.
Proof.
  intros [_ H]. unfold get_default.
  destruct (PyDict.get d k) as [v |] eqn:E; [| lia].
  apply get_In in E. apply H in E. lia.
Qed.

Lemma accumulate_sectors_ok secs ps :
  (forall ticker position sector,
      In (ticker, position) ps -> shares position > 0 ->
      get_sa_sector_exposure ticker = Some sector -> In sector secs) ->
  forall d, exposures_ok secs d -> exposures_ok secs (accumulate_sectors ps d).
Proof.
  induction ps as [| [t p] ps IH]; intros Hsecs d Hd; simpl; [exact Hd |].
  assert (Hrest : forall ticker position sector,
             In (ticker, position) ps -> shares position > 0 ->
             get_sa_sector_exposure ticker = Some sector -> In sector secs)
    by (intros; eapply Hsecs; [right |..]; eassumption).
  destruct (shares p >? 0) eqn:Epos; [| apply IH; assumption].
  apply Z.gtb_lt in Epos.
  destruct (get_sa_sector_exposure t) as [sector |] eqn:Esec;
    [| apply IH; assumption].
  rewrite (sector_truthy _ _ Esec). simpl.
  apply IH; [assumption |].
  pose proof (get_default_nonneg secs d sector Hd) as Hge.
  destruct Hd as [Hnd Hall]. split; [apply set_NoDup, Hnd |].
  intros k v Hin. apply set_In in Hin. destruct Hin as [[= -> ->] | Hin].
  - split; [lia |]. eapply Hsecs; [left; reflexivity | lia | exact Esec].
  - apply Hall, Hin.
Qed.

Lemma accumulate_sectors_nonempty ps :
  (exists ticker position sector,
      In (ticker, position) ps /\ shares position > 0
      /\ get_sa_sector_exposure ticker = Some sector) ->
  forall d, accumulate_sectors ps d <> [].
Proof.
  assert (Hkeep : forall qs d, d <> [] -> accumulate_sectors qs d <> []).
  { induction qs as [| [t p] qs IH]; intros d Hd; simpl; [exact Hd |].
    destruct (shares p >? 0); [| apply IH, Hd].
    destruct (get_sa_sector_exposure t) as [sector |]; [| apply IH, Hd].
    destruct (negb (String.eqb sector "")); apply IH;
      [apply set_nonempty | exact Hd]. }
  induction ps as [| [t p] ps IH];
    intros (ticker & position & sector & Hin & Hpos & Hsec) d;
    [destruct Hin |].
  simpl. destruct Hin as [[= -> ->] | Hin].
  - replace (shares position >? 0) with true by (symmetry; apply Z.gtb_lt; lia).
    rewrite Hsec, (sector_truthy _ _ Hsec). simpl.
    apply Hkeep, set_nonempty.
  - assert (Hex : exists ticker position sector,
               In (ticker, position) ps /\ shares position > 0
               /\ get_sa_sector_exposure ticker = Some sector)
      by (exists ticker, position, sector; tauto).
    destruct (shares p >? 0); [| apply IH, Hex].
    destruct (get_sa_sector_exposure t) as [sec |]; [| apply IH, Hex].
    destruct (negb (String.eqb sec "")); apply IH, Hex.
Qed.

Lemma sector_ratio_small exposure total :
  total > 0 ->
  Qgtb (sector_exposure_ratio exposure total) SAMarketConfig.MAX_SECTOR_EXPOSURE
  = false ->
  10 * exposure <= 3 * total.
Proof.
  intros Ht H. apply Qgtb_false in H. unfold sector_exposure_ratio in H.
  replace (total >? 0) with true in H by (symmetry; apply Z.gtb_lt; lia).
  destruct total as [| p | p]; try lia.
  unfold Qle, Qdiv, Qmult, Qinv, inject_Z, SAMarketConfig.MAX_SECTOR_EXPOSURE in H.
  simpl in H. lia.
Qed.

Lemma sector_issues_from_none items total :
  total > 0 ->
  sector_issues_from items total = [] ->
  10 * sum_values items <= 3 * total * Z.of_nat (List.length items).
Proof.
  intros Ht. unfold sum_values, values.
  induction items as [| [sector exposure] items IH]; intros H.
  - simpl. lia.
  - simpl in H.
    destruct (Qgtb (sector_exposure_ratio exposure total) _) eqn:E;
      [discriminate H |].
    apply sector_ratio_small in E; [| exact Ht].
    specialize (IH H). cbn [map fold_right snd List.length]. lia.
Qed.

Lemma sector_issues_from_In items total x :
  In x (sector_issues_from items total) ->
  exists sector exposure,
    In (sector, exposure) items
    /\ Qgtb (sector_exposure_ratio exposure total)
            SAMarketConfig.MAX_SECTOR_EXPOSURE = true.
Proof.
  induction items as [| [sector exposure] items IH]; simpl; [tauto |].
  destruct (Qgtb (sector_exposure_ratio exposure total) _) eqn:E.
  - intros [_ | H].
    + exists sector, exposure. split; [left; reflexivity | exact E].
    + destruct (IH H) as (s & e & Hin & Hg). exists s, e. tauto.
  - intros H. destruct (IH H) as (s & e & Hin & Hg). exists s, e. tauto.
Qed.

Lemma sum_values_positive secs (d : pydict Z) :
  exposures_ok secs d -> d <> [] -> sum_values d > 0.
Proof.
  intros [_ Hall] Hne. unfold sum_values, values.
  assert (Hge : forall d' : pydict Z,
             (forall k v, In (k, v) d' -> v > 0) ->
             fold_right Z.add 0 (map snd d') >= 0).
  { induction d' as [| [k v] d' IH]; intros H; simpl; [lia |].
    assert (v > 0) by (eapply H; left; reflexivity).
    assert (fold_right Z.add 0 (map snd d') >= 0)
      by (apply IH; intros; eapply H; right; eassumption).
    lia. }
  destruct d as [| [k v] d]; [congruence |]. simpl.
  assert (v > 0) by (eapply Hall; left; reflexivity).
  assert (fold_right Z.add 0 (map snd d) >= 0).
  { apply Hge. intros k' v' Hin. eapply Hall. right. exact Hin. }
  lia.
Qed.

Lemma exposures_length secs (d : pydict Z) :
  exposures_ok secs d -> (List.length d <= List.length secs)%nat.
Proof.
  intros [Hnd Hall].
  replace (List.length d) with (List.length (keys d))
    by (unfold keys; apply length_map).
  apply NoDup_incl_length; [exact Hnd |].
  intros k Hk. unfold keys in Hk. apply in_map_iff in Hk.
  destruct Hk as ([k' v] & <- & Hin). simpl. eapply Hall, Hin.
Qed.

(** With at most three sectors represented, one sector is above 30%. *)
Lemma few_sectors_issue secs (d : pydict Z) :
  (List.length secs <= 3)%nat -> exposures_ok secs d -> d <> [] ->
  sector_issues d <> [].
Proof.
  intros Hlen Hok Hne Hnone.
  pose proof (sum_values_positive secs d Hok Hne) as Hpos.
  pose proof (exposures_length secs d Hok) as Hl.
  unfold sector_issues in Hnone.
  apply sector_issues_from_none in Hnone; [| exact Hpos].
  assert (Z.of_nat (List.length d) <= 3) by lia.
  nia.
Qed.

(** C9. If the positive-share positions map into at most three sectors and
    at least one of them has a mapped sector, then some sector's share of
    the summed share counts is above 0.30 and the agent's signal is
    "NON_COMPLIANT". *)
Theorem C9_few_sectors_non_compliant :
  forall (st : AgentState) (secs : list string),
    (List.length secs <= 3)%nat ->
    (forall (ticker : string) (position : Position) (sector : string),
        In (ticker, position) (positions (portfolio st)) ->
        shares position > 0 ->
        get_sa_sector_exposure ticker = Some sector ->
        In sector secs) ->
    (exists (ticker : string) (position : Position) (sector : string),
        In (ticker, position) (positions (portfolio st))
        /\ shares position > 0
        /\ get_sa_sector_exposure ticker = Some sector) ->
    (exists (sector : string) (exposure : Z),
        In (sector, exposure) (accumulate_sectors (positions (portfolio st)) [])
        /\ (30 # 100
            < inject_Z exposure
              / inject_Z (sum_values
                            (accumulate_sectors (positions (portfolio st)) [])))%Q)
    /\ exists (m : gmap string AnalystSignal) (sg : AnalystSignal),
        signals_of (sa_regulatory_compliance_agent st) "sa_regulatory_compliance"
        = Some m
        /\ m !! "PORTFOLIO" = Some sg
        /\ signal sg = Some "NON_COMPLIANT"
        /\ confidence sg = Some (8 # 10).
Proof.
  intros st secs Hlen Hsecs Hex.
  set (d := accumulate_sectors (positions (portfolio st)) []).
  assert (Hok : exposures_ok secs d).
  { apply accumulate_sectors_ok; [exact Hsecs |].
    split; [constructor | intros k v []]. }
  assert (Hne : d <> []) by (apply accumulate_sectors_nonempty, Hex).
  pose proof (few_sectors_issue secs d Hlen Hok Hne) as Hissue.
  pose proof (sum_values_positive secs d Hok Hne) as Hpos.
  split.
  - destruct (sector_issues d) as [| x xs] eqn:E; [congruence |].
    assert (Hin : In x (sector_issues_from d (sum_values d)))
      by (fold (sector_issues d); rewrite E; left; reflexivity).
    apply sector_issues_from_In in Hin.
    destruct Hin as (sector & exposure & Hin & Hg).
    exists sector, exposure. split; [exact Hin |].
    apply Qgtb_true in Hg. unfold sector_exposure_ratio in Hg.
    replace (sum_values d >? 0) with true in Hg
      by (symmetry; apply Z.gtb_lt; lia).
    exact Hg.
  - destruct (compliance_agent_signal st) as (m & Hm & Hp).
    exists m, (compliance_signal (portfolio st)).
    split; [exact Hm |]. split; [exact Hp |].
    unfold compliance_signal, compliance_issues. fold d.
    destruct (sector_issues d) as [| x xs]; [congruence |].
    destruct (position_issues _ _); split; reflexivity.
Qed.

Lemma C9_few_sectors_non_compliant_witness :
  exists (m : gmap string AnalystSignal) (sg : AnalystSignal),
    signals_of (sa_regulatory_compliance_agent concentrated_state)
      "sa_regulatory_compliance" = Some m
    /\ m !! "PORTFOLIO" = Some sg
    /\ signal sg = Some "NON_COMPLIANT"
    /\ confidence sg = Some (8 # 10).
Proof.
  apply (C9_few_sectors_non_compliant concentrated_state ["Technology"]).
  - simpl. lia.
  - intros ticker position sector Hin _ Hsec. simpl in Hin.
    destruct Hin as [[= <- <-] | []]. injection Hsec as <-. simpl. tauto.
  - exists "NPN", {| shares := 100 |}, "Technology".
    split; [simpl; tauto |]. split; [reflexivity | reflexivity].
Defined.

(** ** [get_jse_prices]: the format fallback *)

Lemma nth_reply_0 w tr ev reqs :
  nth_reply w tr (ev :: reqs) 0 = http w tr (request_url ev).
Proof. unfold nth_reply. simpl. rewrite app_nil_r. reflexivity. Qed.

Lemma nth_reply_S w tr ev reqs i :
  nth_reply w tr (ev :: reqs) (S i) = nth_reply w (tr ++ [ev]) reqs i.
Proof. unfold nth_reply. simpl. rewrite <- app_assoc. reflexivity. Qed.

Lemma after_after s evs evs' : after (after s evs) evs' = after s (evs ++ evs').
Proof. unfold after. simpl. rewrite app_assoc. reflexivity. Qed.

Section PriceFallback.

Context (w : World) {Price : Type} `{!BaseModel Price}.
Context (start_date end_date : string).

#[local] Abbreviation hs := (request_headers w).
#[local] Abbreviation request := (price_request w start_date end_date).

(** One iteration issues exactly one request, returns the decoded body of
    a usable reply and falls through to the next spelling otherwise. *)
Lemma try_ticker_format_step (ticker_format : string) (s : state) :
  try_ticker_format (Price := Price) w start_date end_date hs ticker_format s
  = match usable (http w (trace s)
                    (prices_url ticker_format start_date end_date)) with
    | Some j => (Return (RawJson j), after s [request ticker_format])
    | None => (Normal tt, after s [request ticker_format])
    end.
Proof.
  unfold try_ticker_format, usable, after, price_request. run_stmt.
  destruct (http w (trace s) _) as [e | code [e | j]];
    cbn [status_code body]; try reflexivity;
    destruct (code =? 200); reflexivity.
Qed.

(** The loop: it stops at the first usable reply, or runs through all
    spellings; every spelling tried is requested exactly once. *)
Lemma for_each_ticker_format (fmts : list string) :
  forall s : state,
    let reqs := map request fmts in
    (exists (k : nat) (j : json),
        (k < List.length fmts)%nat
        /\ (forall i, (i < k)%nat ->
                      usable (nth_reply w (trace s) reqs i) = None)
        /\ usable (nth_reply w (trace s) reqs k) = Some j
        /\ for_each fmts
             (try_ticker_format (Price := Price) w start_date end_date hs) s
           = (Return (RawJson j), after s (firstn (S k) reqs)))
    \/ ((forall i, (i < List.length fmts)%nat ->
                   usable (nth_reply w (trace s) reqs i) = None)
        /\ for_each fmts
             (try_ticker_format (Price := Price) w start_date end_date hs) s
           = (Normal tt, after s reqs)).
Proof.
  induction fmts as [| f fmts IH]; intros s reqs.
  - right. split; [intros i Hi; inversion Hi |].
    unfold after. simpl. rewrite app_nil_r. destruct s; reflexivity.
  - subst reqs. cbn [map for_each]. unfold bind.
    rewrite try_ticker_format_step.
    destruct (usable (http w (trace s) (prices_url f start_date end_date)))
      as [j |] eqn:E; cbv beta iota.
    + left. exists 0%nat, j. repeat split.
      * simpl. lia.
      * intros i Hi. inversion Hi.
      * rewrite nth_reply_0. exact E.
    + destruct (IH (after s [request f])) as
        [(k & j & Hk & Hbefore & Hat & Hrun) | (Hnone & Hrun)].
      * left. exists (S k), j. repeat split.
        -- simpl. lia.
        -- intros [| i] Hi; [rewrite nth_reply_0; exact E |].
           rewrite nth_reply_S. apply Hbefore. lia.
        -- rewrite nth_reply_S. exact Hat.
        -- etransitivity; [exact Hrun |]. rewrite after_after. reflexivity.
      * right. split.
        -- intros [| i] Hi; [rewrite nth_reply_0; exact E |].
           rewrite nth_reply_S. apply Hnone. simpl in Hi. lia.
        -- etransitivity; [exact Hrun |]. rewrite after_after. reflexivity.
Qed.

End PriceFallback.

(** Whatever follows the unconditional [return] never runs. *)
Lemma get_jse_prices_tail_dead (w : World) (Price : Type)
    (HP : BaseModel Price) (ticker start_date end_date : string)
    (tail : string -> string -> pydict string ->
            stmt (prices_result Price) (prices_result Price))
    (s : state) :
  def (get_jse_prices_body w ticker start_date end_date tail) s
  = get_jse_prices w ticker start_date end_date s.
Proof.
  unfold get_jse_prices, get_jse_prices_body.
  destruct (is_jse_ticker ticker); cbn [negb]; [| reflexivity].
  cbv [def bind cache_get_prices get_cache pure].
  destruct (truthy_opt _); [reflexivity |].
  destruct (for_each _ _ s) as [[[] | r | e] s']; reflexivity.
Qed.

Lemma get_jse_prices_miss (w : World) (Price : Type) (HP : BaseModel Price)
    (ticker start_date end_date : string) (s : state) :
  is_jse_ticker ticker = true ->
  truthy_opt (prices_cache (cache s)
                !! prices_cache_key ticker start_date end_date) = false ->
  get_jse_prices w ticker start_date end_date s
  = match for_each (ticker_formats ticker)
            (try_ticker_format (Price := Price) w start_date end_date
               (request_headers w)) s with
    | (Normal _, s') => (inr (RawJson (JObj [("prices", JArr [])])), s')
    | (Return r, s') => (inr r, s')
    | (Raise e, s') => (inl e, s')
    end.
Proof.
  intros Hv Hmiss. unfold get_jse_prices, get_jse_prices_body.
  rewrite Hv. cbn [negb].
  cbv [def bind cache_get_prices get_cache pure]. rewrite Hmiss.
  destruct (for_each _ _ s) as [[[] | r | e] s']; reflexivity.
Qed.

(** C6 (as amended). The fallback tries the spellings ticker, "JSE:"ticker,
    ticker".JSE", ticker".JO" in this order, one request each, and returns
    the decoded body of the first reply that has status 200 and decodes;
    no spelling is requested twice and none after that reply; if no reply
    is usable it returns the empty price document.  The statements after
    the unconditional return never run, on any input. *)
Theorem C6_format_fallback :
  forall (w : World) (Price : Type) (HP : BaseModel Price)
         (ticker start_date end_date : string) (s : state),
    (forall tail,
        def (get_jse_prices_body w ticker start_date end_date tail) s
        = get_jse_prices w ticker start_date end_date s)
    /\ ticker_formats ticker
       = [ ticker; "JSE:" +:+ ticker; ticker +:+ ".JSE"; ticker +:+ ".JO" ]
    /\ (is_jse_ticker ticker = true ->
        truthy_opt (prices_cache (cache s)
                      !! prices_cache_key ticker start_date end_date) = false ->
        let reqs := price_requests w ticker start_date end_date in
        (exists (k : nat) (j : json),
            (k < 4)%nat
            /\ (forall i, (i < k)%nat ->
                          usable (nth_reply w (trace s) reqs i) = None)
            /\ usable (nth_reply w (trace s) reqs k) = Some j
            /\ get_jse_prices w ticker start_date end_date s
               = (inr (RawJson j), after s (firstn (S k) reqs)))
        \/ ((forall i, (i < 4)%nat ->
                       usable (nth_reply w (trace s) reqs i) = None)
            /\ get_jse_prices w ticker start_date end_date s
               = (inr (RawJson (JObj [("prices", JArr [])])), after s reqs))).
Proof.
  intros w Price HP ticker start_date end_date s.
  split; [intros tail; apply get_jse_prices_tail_dead |].
  split; [reflexivity |].
  intros Hv Hmiss reqs.
  rewrite (get_jse_prices_miss w Price HP ticker start_date end_date s Hv Hmiss).
  destruct (for_each_ticker_format (Price := Price) w start_date end_date
              (ticker_formats ticker) s)
    as [(k & j & Hk & Hbefore & Hat & Hrun) | (Hnone & Hrun)].
  - left. exists k, j. split; [exact Hk |]. split; [exact Hbefore |].
    split; [exact Hat |]. rewrite Hrun. reflexivity.
  - right. split; [exact Hnone |]. rewrite Hrun. reflexivity.
Qed.

Lemma C6_format_fallback_witness :
  get_jse_prices (Price := pydict json) serving_world
    "NPN" "2024-01-01" "2024-01-31" init_state
  = (inr (RawJson sample_prices_document),
     after init_state
       [ EvRequestsGet (prices_url "NPN" "2024-01-01" "2024-01-31") [] ]).
Proof.
  destruct (C6_format_fallback serving_world (pydict json) RawModel
              "NPN" "2024-01-01" "2024-01-31" init_state)
    as (_ & _ & H).
  destruct (H eq_refl eq_refl) as [(k & j & Hk & Hbefore & Hat & Hrun) | (Hnone & _)].
  - destruct k as [| k].
    + injection Hat as <-. exact Hrun.
    + specialize (Hbefore 0%nat (Nat.lt_0_succ k)). discriminate Hbefore.
  - specialize (Hnone 0%nat ltac:(lia)). discriminate Hnone.
Defined.

(** The claim as worded ("returns at the first variant whose HTTP response
    has status 200 without trying later variants") fails when that response
    does not decode: the first reply has status 200, yet a second request
    is issued and it is the second reply that is returned. *)
Lemma C6_status_200_counterexample :
  ~ (forall (k : nat),
        let reqs := price_requests undecodable_first_world
                      "NPN" "2024-01-01" "2024-01-31" in
        has_status_200 (nth_reply undecodable_first_world [] reqs k) = true ->
        (forall i, (i < k)%nat ->
           has_status_200 (nth_reply undecodable_first_world [] reqs i) = false) ->
        exists r,
          get_jse_prices (Price := pydict json) undecodable_first_world
            "NPN" "2024-01-01" "2024-01-31" init_state
          = (inr r, after init_state (firstn (S k) reqs))).
Proof.
  intros H. specialize (H 0%nat eq_refl).
  destruct H as [r Hr]; [intros i Hi; inversion Hi |].
  vm_compute in Hr. discriminate Hr.
Qed.

Example undecodable_first_run :
  get_jse_prices (Price := pydict json) undecodable_first_world
    "NPN" "2024-01-01" "2024-01-31" init_state
  = (inr (RawJson sample_prices_document),
     after init_state
       [ EvRequestsGet (prices_url "NPN" "2024-01-01" "2024-01-31") [];
         EvRequestsGet (prices_url "JSE:NPN" "2024-01-01" "2024-01-31") [] ]).
Proof. vm_compute. reflexivity. Qed.

(** [get_jse_prices] never writes the cache. *)
Lemma get_jse_prices_cache_unchanged (w : World) (Price : Type)
    (HP : BaseModel Price) (ticker start_date end_date : string) (s : state) :
  cache (snd (get_jse_prices w ticker start_date end_date s)) = cache s.
Proof.
  destruct (is_jse_ticker ticker) eqn:Hv.
  - destruct (truthy_opt (prices_cache (cache s)
                            !! prices_cache_key ticker start_date end_date))
      eqn:Hc.
    + unfold get_jse_prices, get_jse_prices_body. rewrite Hv. cbn [negb].
      cbv [def bind cache_get_prices get_cache pure py_return lift py_raise].
      rewrite Hc. destruct (construct_all _); reflexivity.
    + rewrite get_jse_prices_miss by assumption.
      destruct (for_each_ticker_format (Price := Price) w start_date end_date
                  (ticker_formats ticker) s)
        as [(k & j & _ & _ & _ & Hrun) | (_ & Hrun)];
        rewrite Hrun; reflexivity.
  - unfold get_jse_prices, get_jse_prices_body, def. rewrite Hv. reflexivity.
Qed.

(** C1 (the code at the failing input). On a cache miss with a first reply
    of status 200, [get_jse_prices] hands back the decoded document as it
    came: no list of [Price] records, no currency annotation, and the
    cache is left as it was. *)
Theorem C1_get_jse_prices_raw_document :
  let run := get_jse_prices (Price := pydict json) serving_world
               "NPN" "2024-01-01" "2024-01-31" init_state in
  fst run = inr (RawJson sample_prices_document)
  /\ (forall ps : list (pydict json), fst run <> inr (TypedPrices ps))
  /\ cache (snd run) = empty_cache
  /\ trace (snd run)
     = [ EvRequestsGet (prices_url "NPN" "2024-01-01" "2024-01-31") [] ].
Proof.
  assert (E : get_jse_prices (Price := pydict json) serving_world
                "NPN" "2024-01-01" "2024-01-31" init_state
              = (inr (RawJson sample_prices_document),
                 after init_state
                   [ EvRequestsGet
                       (prices_url "NPN" "2024-01-01" "2024-01-31") [] ]))
    by (vm_compute; reflexivity).
  cbv zeta. rewrite E. cbn [fst snd].
  repeat split. intros ps H. discriminate H.
Qed.

(** ** The read-through cache of the other fetch operations *)

Section ModelFacts.

Context {T : Type} `{!BaseModel T}.

Lemma construct_all_dump_all (ms : list T) :
  construct_all (dump_all ms) = inr ms.
Proof.
  unfold construct_all, dump_all. cbn [py_iter ebind].
  induction ms as [| m ms IH]; [reflexivity |].
  cbn [map map_exn construct_kw]. unfold construct_dict.
  rewrite construct_model_dump. cbn [ebind]. rewrite IH. reflexivity.
Qed.

Lemma truthy_dump_all (ms : list T) : ms <> [] -> truthy (dump_all ms) = true.
Proof. destruct ms; [congruence | reflexivity]. Qed.

Lemma construct_dict_not_request (d : pydict json) (e : exn) :
  construct_dict (T := T) d = inl e -> is_request_exception e = false.
Proof.
  unfold construct_dict. destruct (construct d); intros [= <-]. reflexivity.
Qed.

End ModelFacts.

Lemma map_exn_raises {A B} (f : A -> exn + B) (P : exn -> Prop) :
  (forall x e, f x = inl e -> P e) ->
  forall xs e, map_exn f xs = inl e -> P e.
Proof.
  intros Hf. induction xs as [| x xs IH]; intros e; simpl; [discriminate |].
  destruct (f x) as [e' | y] eqn:E; cbn [ebind].
  - intros [= <-]. eapply Hf, E.
  - destruct (map_exn f xs) as [e' | ys]; cbn [ebind]; [| discriminate].
    intros [= <-]. apply IH. reflexivity.
Qed.

Lemma py_iter_not_request j e :
  py_iter j = inl e -> is_request_exception e = false.
Proof. destruct j; simpl; intros [= <-]; reflexivity. Qed.

Lemma json_get_not_request j k dflt e :
  json_get j k dflt = inl e -> is_request_exception e = false.
Proof. destruct j; simpl; intros [= <-]; reflexivity. Qed.

Lemma json_setitem_not_request j k v e :
  json_setitem j k v = inl e -> is_request_exception e = false.
Proof. destruct j; simpl; intros [= <-]; reflexivity. Qed.

Lemma annotate_currency_not_request {T} `{!BaseModel T} items e :
  annotate_currency (T := T) items = inl e -> is_request_exception e = false.
Proof.
  unfold annotate_currency. destruct (py_iter items) as [e' | l] eqn:E;
    cbn [ebind].
  - intros [= <-]. eapply py_iter_not_request, E.
  - apply (map_exn_raises _ (fun e => is_request_exception e = false)).
    intros x e'.
    destruct (json_setitem x "currency" (JStr "ZAR")) as [e'' | d] eqn:Es;
      cbn [ebind].
    + intros [= <-]. eapply json_setitem_not_request, Es.
    + apply construct_dict_not_request.
Qed.

Lemma annotate_sentiment_not_request {T} `{!BaseModel T} items e :
  annotate_sentiment (CompanyNews := T) items = inl e ->
  is_request_exception e = false.
Proof.
  unfold annotate_sentiment. destruct (py_iter items) as [e' | l] eqn:E;
    cbn [ebind].
  - intros [= <-]. eapply py_iter_not_request, E.
  - apply (map_exn_raises _ (fun e => is_request_exception e = false)).
    intros x e'.
    destruct (json_get x "title" (JStr "")) as [e'' | title] eqn:Eg;
      cbn [ebind]; [intros [= <-]; eapply json_get_not_request, Eg |].
    destruct (as_text title) as [e'' | text] eqn:Et; cbn [ebind].
    { intros [= <-]. destruct title; simpl in Et; inversion Et; reflexivity. }
    destruct (json_setitem x "sentiment" _) as [e'' | d] eqn:Es; cbn [ebind].
    + intros [= <-]. eapply json_setitem_not_request, Es.
    + apply construct_dict_not_request.
Qed.

Section ReadThrough.

Context (w : World).
Context {FinancialMetrics CompanyNews CompanyFacts : Type}.
Context `{!BaseModel FinancialMetrics} `{!BaseModel CompanyNews}
        `{!BaseModel CompanyFacts}.

(** Closes the branches of a fetch in which the handler gave up or an
    exception escaped: they cannot have produced the given result. *)
Ltac dead_branch :=
  cbn [is_request_exception];
  first [ intros [= <- <-]; congruence | intros [= ] ].

(** A first fetch that misses the cache and yields a non-empty list made
    exactly one request and stored the serialised list under the key. *)
Lemma financial_metrics_first_fetch ticker end_date period s r s1 :
  truthy_opt (financial_metrics_cache (cache s)
                !! financial_metrics_cache_key ticker end_date period) = false ->
  get_sa_financial_metrics (FinancialMetrics := FinancialMetrics)
    w ticker end_date period s = (inr r, s1) ->
  r <> [] ->
  trace s1 = (trace s ++ [EvSessionGet
                            (financial_metrics_url ticker end_date period)
                            (request_headers w)])%list
  /\ financial_metrics_cache (cache s1)
     = <[financial_metrics_cache_key ticker end_date period := dump_all r]>
         (financial_metrics_cache (cache s)).
Proof.
  intros Hmiss Hrun Hne. revert Hrun.
  unfold get_sa_financial_metrics. run_stmt. rewrite Hmiss.
  destruct (http w (trace s) _) as [e | code b]; cbn [status_code body].
  { destruct (is_request_exception e); dead_branch. }
  destruct ((400 <=? code) && (code <? 600)); [dead_branch |].
  destruct b as [e | data].
  { destruct (is_request_exception e); dead_branch. }
  destruct (json_get data _ _) as [e | items] eqn:Eg.
  { rewrite (json_get_not_request _ _ _ _ Eg). dead_branch. }
  destruct (annotate_currency items) as [e | metrics] eqn:Ea.
  { rewrite (annotate_currency_not_request _ _ Ea). dead_branch. }
  intros [= <- <-]. cbn [cache trace financial_metrics_cache].
  split; reflexivity.
Qed.

(** A fetch that finds a truthy entry returns its typed form and touches
    nothing: no request, no cache write. *)
Lemma financial_metrics_cached ticker end_date period s cached r :
  financial_metrics_cache (cache s)
    !! financial_metrics_cache_key ticker end_date period = Some cached ->
  truthy cached = true ->
  construct_all cached = inr r ->
  get_sa_financial_metrics (FinancialMetrics := FinancialMetrics)
    w ticker end_date period s = (inr r, s).
Proof.
  intros Hget Ht Hc. unfold get_sa_financial_metrics. run_stmt.
  rewrite Hget. cbn [truthy_opt default from_option id]. rewrite Ht, Hc.
  reflexivity.
Qed.

Lemma news_first_fetch ticker end_date start_date s r s1 :
  truthy_opt (news_cache (cache s)
                !! news_cache_key ticker end_date start_date) = false ->
  get_sa_news (CompanyNews := CompanyNews)
    w ticker end_date start_date s = (inr r, s1) ->
  r <> [] ->
  trace s1 = (trace s ++ [EvSessionGet
                            (news_url ticker end_date start_date)
                            (request_headers w)])%list
  /\ news_cache (cache s1)
     = <[news_cache_key ticker end_date start_date := dump_all r]>
         (news_cache (cache s)).
Proof.
  intros Hmiss Hrun Hne. revert Hrun.
  unfold get_sa_news. run_stmt. rewrite Hmiss.
  destruct (http w (trace s) _) as [e | code b]; cbn [status_code body].
  { destruct (is_request_exception e); dead_branch. }
  destruct ((400 <=? code) && (code <? 600)); [dead_branch |].
  destruct b as [e | data].
  { destruct (is_request_exception e); dead_branch. }
  destruct (json_get data _ _) as [e | items] eqn:Eg.
  { rewrite (json_get_not_request _ _ _ _ Eg). dead_branch. }
  destruct (annotate_sentiment items) as [e | news_items] eqn:Ea.
  { rewrite (annotate_sentiment_not_request _ _ Ea). dead_branch. }
  intros [= <- <-]. cbn [cache trace news_cache].
  split; reflexivity.
Qed.

Lemma news_cached ticker end_date start_date s cached r :
  news_cache (cache s)
    !! news_cache_key ticker end_date start_date = Some cached ->
  truthy cached = true ->
  construct_all cached = inr r ->
  get_sa_news (CompanyNews := CompanyNews)
    w ticker end_date start_date s = (inr r, s).
Proof.
  intros Hget Ht Hc. unfold get_sa_news. run_stmt.
  rewrite Hget. cbn [truthy_opt default from_option id]. rewrite Ht, Hc.
  reflexivity.
Qed.

Lemma company_facts_first_fetch ticker s facts s1 :
  truthy_opt (company_facts_cache (cache s)
                !! company_facts_cache_key ticker) = false ->
  get_sa_company_facts (CompanyFacts := CompanyFacts) w ticker s
  = (inr (Some facts), s1) ->
  trace s1 = (trace s ++ [EvSessionGet (company_facts_url ticker)
                            (request_headers w)])%list
  /\ company_facts_cache (cache s1)
     = <[company_facts_cache_key ticker := JObj (model_dump facts)]>
         (company_facts_cache (cache s)).
Proof.
  intros Hmiss Hrun. revert Hrun.
  unfold get_sa_company_facts. run_stmt. rewrite Hmiss.
  destruct (http w (trace s) _) as [e | code b]; cbn [status_code body].
  { destruct (is_request_exception e); dead_branch. }
  destruct ((400 <=? code) && (code <? 600)); [dead_branch |].
  destruct b as [e | data].
  { destruct (is_request_exception e); dead_branch. }
  destruct (json_get data _ _) as [e | company_facts] eqn:Eg.
  { rewrite (json_get_not_request _ _ _ _ Eg). dead_branch. }
  destruct (json_setitem company_facts _ _) as [e | d] eqn:Es.
  { rewrite (json_setitem_not_request _ _ _ _ Es). dead_branch. }
  destruct (construct_dict _) as [e | facts'] eqn:Ec.
  { rewrite (construct_dict_not_request _ _ Ec). dead_branch. }
  intros [= <- <-]. cbn [cache trace company_facts_cache].
  split; reflexivity.
Qed.

Lemma company_facts_cached ticker s cached facts :
  company_facts_cache (cache s) !! company_facts_cache_key ticker
  = Some cached ->
  truthy cached = true ->
  construct_kw cached = inr facts ->
  get_sa_company_facts (CompanyFacts := CompanyFacts) w ticker s
  = (inr (Some facts), s).
Proof.
  intros Hget Ht Hc. unfold get_sa_company_facts. run_stmt.
  rewrite Hget. cbn [truthy_opt default from_option id]. rewrite Ht, Hc.
  reflexivity.
Qed.

End ReadThrough.

(** C2 (as amended). For the financial-metrics, news and company-facts
    fetches: when a first fetch misses the cache and returns a non-empty
    result, the entry under the composite key reads back as exactly the
    serialised result, and a second fetch for the same key in that state
    returns the same result and leaves the state as it is: no further
    request, no write. *)
Theorem C2_cache_round_trip :
  forall (w : World) (FinancialMetrics CompanyNews CompanyFacts : Type)
         (HM : BaseModel FinancialMetrics) (HN : BaseModel CompanyNews)
         (HF : BaseModel CompanyFacts),
    (forall (ticker end_date period : string) (s s1 : state)
            (r : list FinancialMetrics),
        truthy_opt (financial_metrics_cache (cache s)
                      !! financial_metrics_cache_key ticker end_date period)
        = false ->
        get_sa_financial_metrics w ticker end_date period s = (inr r, s1) ->
        r <> [] ->
        financial_metrics_cache (cache s1)
          !! financial_metrics_cache_key ticker end_date period
        = Some (dump_all r)
        /\ get_sa_financial_metrics w ticker end_date period s1 = (inr r, s1))
    /\ (forall (ticker end_date : string) (start_date : option string)
               (s s1 : state) (r : list CompanyNews),
          truthy_opt (news_cache (cache s)
                        !! news_cache_key ticker end_date start_date) = false ->
          get_sa_news w ticker end_date start_date s = (inr r, s1) ->
          r <> [] ->
          news_cache (cache s1) !! news_cache_key ticker end_date start_date
          = Some (dump_all r)
          /\ get_sa_news w ticker end_date start_date s1 = (inr r, s1))
    /\ (forall (ticker : string) (s s1 : state) (facts : CompanyFacts),
          truthy_opt (company_facts_cache (cache s)
                        !! company_facts_cache_key ticker) = false ->
          get_sa_company_facts w ticker s = (inr (Some facts), s1) ->
          model_dump facts <> [] ->
          company_facts_cache (cache s1) !! company_facts_cache_key ticker
          = Some (JObj (model_dump facts))
          /\ get_sa_company_facts w ticker s1 = (inr (Some facts), s1)).
Proof.
  intros w FinancialMetrics CompanyNews CompanyFacts HM HN HF.
  split; [| split].
  - intros ticker end_date period s s1 r Hmiss Hrun Hne.
    destruct (financial_metrics_first_fetch w _ _ _ _ _ _ Hmiss Hrun Hne)
      as [_ Hc].
    assert (Hget : financial_metrics_cache (cache s1)
                     !! financial_metrics_cache_key ticker end_date period
                   = Some (dump_all r))
      by (rewrite Hc; apply lookup_insert_eq).
    split; [exact Hget |].
    apply (financial_metrics_cached w _ _ _ _ _ _ Hget);
      [apply truthy_dump_all, Hne | apply construct_all_dump_all].
  - intros ticker end_date start_date s s1 r Hmiss Hrun Hne.
    destruct (news_first_fetch w _ _ _ _ _ _ Hmiss Hrun Hne) as [_ Hc].
    assert (Hget : news_cache (cache s1)
                     !! news_cache_key ticker end_date start_date
                   = Some (dump_all r))
      by (rewrite Hc; apply lookup_insert_eq).
    split; [exact Hget |].
    apply (news_cached w _ _ _ _ _ _ Hget);
      [apply truthy_dump_all, Hne | apply construct_all_dump_all].
  - intros ticker s s1 facts Hmiss Hrun Hne.
    destruct (company_facts_first_fetch w _ _ _ _ Hmiss Hrun) as [_ Hc].
    assert (Hget : company_facts_cache (cache s1)
                     !! company_facts_cache_key ticker
                   = Some (JObj (model_dump facts)))
      by (rewrite Hc; apply lookup_insert_eq).
    split; [exact Hget |].
    apply (company_facts_cached w _ _ _ _ Hget).
    + simpl. destruct (model_dump facts); [congruence | reflexivity].
    + simpl. unfold construct_dict. rewrite construct_model_dump. reflexivity.
Qed.

Lemma C2_cache_round_trip_witness :
  (let s1 := snd (get_sa_financial_metrics (FinancialMetrics := pydict json)
                    fundamentals_world "NPN" "2024-06-03" "ttm" init_state) in
   get_sa_financial_metrics (FinancialMetrics := pydict json)
     fundamentals_world "NPN" "2024-06-03" "ttm" s1
   = (inr [ [ ("ticker", JStr "JSE:NPN");
              ("price_to_earnings_ratio", JNum (187 # 10));
              ("currency", JStr "ZAR") ] ], s1))
  /\ (let s1 := snd (get_sa_news (CompanyNews := pydict json)
                       fundamentals_world "NPN" "2024-06-03" None init_state) in
      get_sa_news (CompanyNews := pydict json)
        fundamentals_world "NPN" "2024-06-03" None s1
      = (inr [ [ ("title", JStr "Naspers profit growth");
                 ("sentiment", JStr "positive") ] ], s1))
  /\ (let s1 := snd (get_sa_company_facts (CompanyFacts := pydict json)
                       fundamentals_world "NPN" init_state) in
      get_sa_company_facts (CompanyFacts := pydict json)
        fundamentals_world "NPN" s1
      = (inr (Some [ ("name", JStr "Naspers"); ("exchange", JStr "JSE");
                     ("currency", JStr "ZAR") ]), s1)).
Proof.
  destruct (C2_cache_round_trip fundamentals_world (pydict json) (pydict json)
              (pydict json) RawModel RawModel RawModel) as (Hm & Hn & Hf).
  split; [| split]; cbv zeta.
  - apply (Hm "NPN" "2024-06-03" "ttm" init_state);
      [reflexivity | vm_compute; reflexivity | discriminate].
  - apply (Hn "NPN" "2024-06-03" None init_state);
      [reflexivity | vm_compute; reflexivity | discriminate].
  - apply (Hf "NPN" init_state);
      [reflexivity | vm_compute; reflexivity | discriminate].
Defined.

(** The claim as worded fails for an empty result: the first fetch does
    write the (empty) list under the key, and it reads back as written, but
    an empty list is falsy, so the second fetch asks upstream again. *)
Lemma C2_empty_result_counterexample :
  ~ (forall (r : list (pydict json)) (s1 : state),
        get_sa_financial_metrics (FinancialMetrics := pydict json)
          empty_metrics_world "NPN" "2024-06-03" "ttm" init_state
        = (inr r, s1) ->
        financial_metrics_cache (cache s1)
          !! financial_metrics_cache_key "NPN" "2024-06-03" "ttm"
        = Some (dump_all r)
        /\ get_sa_financial_metrics (FinancialMetrics := pydict json)
             empty_metrics_world "NPN" "2024-06-03" "ttm" s1
           = (inr r, s1)).
Proof.
  intros H.
  destruct (H [] (snd (get_sa_financial_metrics (FinancialMetrics := pydict json)
                         empty_metrics_world "NPN" "2024-06-03" "ttm"
                         init_state)))
    as [_ Hsecond]; [vm_compute; reflexivity |].
  vm_compute in Hsecond. discriminate Hsecond.
Qed.

Example empty_result_refetched :
  let s1 := snd (get_sa_financial_metrics (FinancialMetrics := pydict json)
                   empty_metrics_world "NPN" "2024-06-03" "ttm" init_state) in
  financial_metrics_cache (cache s1)
    !! financial_metrics_cache_key "NPN" "2024-06-03" "ttm" = Some (JArr [])
  /\ trace s1
     = [ EvSessionGet (financial_metrics_url "NPN" "2024-06-03" "ttm") [] ]
  /\ trace (snd (get_sa_financial_metrics (FinancialMetrics := pydict json)
                   empty_metrics_world "NPN" "2024-06-03" "ttm" s1))
     = [ EvSessionGet (financial_metrics_url "NPN" "2024-06-03" "ttm") [];
         EvSessionGet (financial_metrics_url "NPN" "2024-06-03" "ttm") [] ].
Proof. cbv zeta. repeat split; vm_compute; reflexivity. Qed.

(** ** The market analyst agent: degrading on model failures *)

Section MarketAnalyst.

Context (w : World) {CompanyNews CompanyFacts : Type}.
Context `{!BaseModel CompanyNews} `{!BaseModel CompanyFacts}.
Context (st : AgentState) (economic_indicators fx_rates : pydict Q).



(** The fetches an iteration makes return and keep the cache within [I]. *)
Context (I : Cache -> Prop).
Hypothesis company_facts_returns :
  forall ticker s, I (cache s) ->
    exists r s', get_sa_company_facts (CompanyFacts := CompanyFacts)
                   w ticker s = (inr r, s')
                 /\ I (cache s').
Hypothesis news_returns :
  forall ticker end_date s, I (cache s) ->
    exists r s', get_sa_news (CompanyNews := CompanyNews)
                   w ticker end_date None s = (inr r, s')
                 /\ I (cache s').



End MarketAnalyst.








Example market_analyst_offline_run :
  signals_of
    (match fst (sa_market_analyst_agent (CompanyNews := pydict json)
                  (CompanyFacts := pydict json) offline_world
                  (sample_state ["NPN"; "AAPL"]) init_state) with
     | inr st' => st'
     | inl _ => sample_state []
     end) "sa_market_analyst"
  = Some {[ "NPN" := default_signal
                       (OtherException "APIConnectionError" "unreachable") ]}.
Proof. vm_compute. reflexivity. Qed.

(* ===================================================================== *)
(** * Further properties of the adapter *)
(* ===================================================================== *)

(** ** Failures of the upstream request *)

Section FetchFailures.

Context (w : World).
Context {FinancialMetrics CompanyNews CompanyFacts : Type}.
Context `{!BaseModel FinancialMetrics} `{!BaseModel CompanyNews}
        `{!BaseModel CompanyFacts}.




End FetchFailures.



(** ** Exceptions the fetches let through *)

Section FetchEscapes.

Context (w : World).
Context {FinancialMetrics CompanyNews CompanyFacts : Type}.
Context `{!BaseModel FinancialMetrics} `{!BaseModel CompanyNews}
        `{!BaseModel CompanyFacts}.

Ltac escape_cases Hesc :=
  unfold escaping_failure in Hesc;
  match goal with
  | |- context [http w ?tr ?u] =>
      destruct (http w tr u) as [? | ? [? | ?]]; cbn [status_code body]
  end;
  repeat match type of Hesc with
         | context [if ?b then _ else _] => destruct b
         | context [match ?d with JNull => _ | _ => _ end] => destruct d
         end;
  try discriminate Hesc; injection Hesc as <-; reflexivity.

Lemma financial_metrics_escape ticker end_date period s e :
  truthy_opt (financial_metrics_cache (cache s)
                !! financial_metrics_cache_key ticker end_date period) = false ->
  escaping_failure
    (http w (trace s) (financial_metrics_url ticker end_date period)) = Some e ->
  get_sa_financial_metrics (FinancialMetrics := FinancialMetrics)
    w ticker end_date period s
  = (inl e,
     after s [ EvSessionGet (financial_metrics_url ticker end_date period)
                 (request_headers w) ]).
Proof.
  intros Hmiss Hesc. unfold get_sa_financial_metrics, after. run_stmt.
  rewrite Hmiss. escape_cases Hesc.
Qed.

Lemma news_escape ticker end_date start_date s e :
  truthy_opt (news_cache (cache s)
                !! news_cache_key ticker end_date start_date) = false ->
  escaping_failure
    (http w (trace s) (news_url ticker end_date start_date)) = Some e ->
  get_sa_news (CompanyNews := CompanyNews) w ticker end_date start_date s
  = (inl e,
     after s [ EvSessionGet (news_url ticker end_date start_date)
                 (request_headers w) ]).
Proof.
  intros Hmiss Hesc. unfold get_sa_news, after. run_stmt.
  rewrite Hmiss. escape_cases Hesc.
Qed.

Lemma company_facts_escape ticker s e :
  truthy_opt (company_facts_cache (cache s)
                !! company_facts_cache_key ticker) = false ->
  escaping_failure (http w (trace s) (company_facts_url ticker)) = Some e ->
  get_sa_company_facts (CompanyFacts := CompanyFacts) w ticker s
  = (inl e,
     after s [ EvSessionGet (company_facts_url ticker) (request_headers w) ]).
Proof.
  intros Hmiss Hesc. unfold get_sa_company_facts, after. run_stmt.
  rewrite Hmiss. escape_cases Hesc.
Qed.

End FetchEscapes.

(** X2. The three session-based fetches only catch [RequestException]: on a
    cache miss, an exception of another class raised by the request or by
    decoding, and the [AttributeError] of a decoded body that is not a JSON
    object, propagate to the caller after the one request; nothing is
    printed and nothing is cached. *)
Theorem X2_fetch_lets_other_exceptions_through :
  forall (w : World) (FinancialMetrics CompanyNews CompanyFacts : Type)
         (HM : BaseModel FinancialMetrics) (HN : BaseModel CompanyNews)
         (HF : BaseModel CompanyFacts),
    (forall (ticker end_date period : string) (s : state) (e : exn),
        truthy_opt (financial_metrics_cache (cache s)
                      !! financial_metrics_cache_key ticker end_date period)
        = false ->
        escaping_failure
          (http w (trace s) (financial_metrics_url ticker end_date period))
        = Some e ->
        get_sa_financial_metrics (FinancialMetrics := FinancialMetrics)
          w ticker end_date period s
        = (inl e,
           after s [ EvSessionGet
                       (financial_metrics_url ticker end_date period)
                       (request_headers w) ]))
    /\ (forall (ticker end_date : string) (start_date : option string)
               (s : state) (e : exn),
          truthy_opt (news_cache (cache s)
                        !! news_cache_key ticker end_date start_date) = false ->
          escaping_failure
            (http w (trace s) (news_url ticker end_date start_date)) = Some e ->
          get_sa_news (CompanyNews := CompanyNews)
            w ticker end_date start_date s
          = (inl e,
             after s [ EvSessionGet (news_url ticker end_date start_date)
                         (request_headers w) ]))
    /\ (forall (ticker : string) (s : state) (e : exn),
          truthy_opt (company_facts_cache (cache s)
                        !! company_facts_cache_key ticker) = false ->
          escaping_failure (http w (trace s) (company_facts_url ticker))
          = Some e ->
          get_sa_company_facts (CompanyFacts := CompanyFacts) w ticker s
          = (inl e,
             after s [ EvSessionGet (company_facts_url ticker)
                         (request_headers w) ])).
Proof.
  intros w FinancialMetrics CompanyNews CompanyFacts HM HN HF.
  split; [| split].
  - intros. apply financial_metrics_escape; assumption.
  - intros. apply news_escape; assumption.
  - intros. apply company_facts_escape; assumption.
Qed.

Lemma X2_fetch_lets_other_exceptions_through_witness :
  get_sa_financial_metrics (FinancialMetrics := pydict json)
    array_world "NPN" "2024-06-03" "ttm" init_state
  = (inl (AttributeError "object has no attribute 'get'"),
     after init_state
       [ EvSessionGet (financial_metrics_url "NPN" "2024-06-03" "ttm") [] ])
  /\ get_sa_news (CompanyNews := pydict json)
       array_world "NPN" "2024-06-03" None init_state
     = (inl (AttributeError "object has no attribute 'get'"),
        after init_state
          [ EvSessionGet (news_url "NPN" "2024-06-03" None) [] ])
  /\ get_sa_company_facts (CompanyFacts := pydict json)
       array_world "NPN" init_state
     = (inl (AttributeError "object has no attribute 'get'"),
        after init_state [ EvSessionGet (company_facts_url "NPN") [] ]).
Proof.
  destruct (X2_fetch_lets_other_exceptions_through array_world (pydict json)
              (pydict json) (pydict json) RawModel RawModel RawModel)
    as (Hm & Hn & Hf).
  split; [| split].
  - apply (Hm "NPN" "2024-06-03" "ttm" init_state); reflexivity.
  - apply (Hn "NPN" "2024-06-03" None init_state); reflexivity.
  - apply (Hf "NPN" init_state); reflexivity.
Defined.

(** ** What a successful fetch returns *)

Section PyDictLookup.

Context {V : Type}.
Implicit Types (d : pydict V) (k : string) (v : V).

Lemma get_set_eq d k v : PyDict.get (PyDict.set d k v) k = Some v.
Proof.
  induction d as [| [k' v'] d IH]; simpl.
  - rewrite String.eqb_refl. reflexivity.
  - destruct (String.eqb k' k) eqn:E; simpl; rewrite E; [reflexivity | exact IH].
Qed.

Lemma get_set_ne d k v k0 :
  k0 <> k -> PyDict.get (PyDict.set d k v) k0 = PyDict.get d k0.
Proof.
  intros Hne. induction d as [| [k' v'] d IH]; simpl.
  - destruct (String.eqb k k0) eqn:E; [| reflexivity].
    apply String.eqb_eq in E. congruence.
  - destruct (String.eqb k' k) eqn:E; simpl.
    + apply String.eqb_eq in E. subst k'.
      destruct (String.eqb k k0) eqn:E0; [| reflexivity].
      apply String.eqb_eq in E0. congruence.
    + destruct (String.eqb k' k0); [reflexivity | exact IH].
Qed.

End PyDictLookup.

Lemma map_exn_Forall2 {A B} (f : A -> exn + B) xs ys :
  map_exn f xs = inr ys -> Forall2 (fun x y => f x = inr y) xs ys.
Proof.
  revert ys. induction xs as [| x xs IH]; intros ys; simpl.
  - intros [= <-]. constructor.
  - destruct (f x) as [e | y] eqn:E; cbn [ebind]; [discriminate |].
    destruct (map_exn f xs) as [e | ys']; cbn [ebind]; [discriminate |].
    intros [= <-]. constructor; [exact E | apply IH; reflexivity].
Qed.

Lemma sentiment_label text :
  In (_analyze_sa_sentiment text) ["positive"; "negative"; "neutral"].
Proof.
  unfold _analyze_sa_sentiment. cbv zeta.
  destruct (_ >? _); [simpl; tauto |].
  destruct (_ >? _); simpl; tauto.
Qed.

Section FetchSuccess.

Context (w : World).
Context {FinancialMetrics CompanyNews CompanyFacts : Type}.
Context `{!BaseModel FinancialMetrics} `{!BaseModel CompanyNews}
        `{!BaseModel CompanyFacts}.

Ltac dead_branch :=
  cbn [is_request_exception];
  first [ intros [= <- <-]; congruence | intros [= ] ].

Lemma financial_metrics_parsed ticker end_date period s r s1 :
  truthy_opt (financial_metrics_cache (cache s)
                !! financial_metrics_cache_key ticker end_date period) = false ->
  get_sa_financial_metrics (FinancialMetrics := FinancialMetrics)
    w ticker end_date period s = (inr r, s1) ->
  r <> [] ->
  exists data items,
    decoded_body
      (http w (trace s) (financial_metrics_url ticker end_date period))
    = Some data
    /\ json_get data "financial_metrics" (JArr []) = inr items
    /\ annotate_currency items = inr r.
Proof.
  intros Hmiss Hrun Hne. revert Hrun.
  unfold get_sa_financial_metrics, decoded_body. run_stmt. rewrite Hmiss.
  destruct (http w (trace s) _) as [e | code b]; cbn [status_code body].
  { destruct (is_request_exception e); dead_branch. }
  destruct ((400 <=? code) && (code <? 600)); [dead_branch |].
  destruct b as [e | data].
  { destruct (is_request_exception e); dead_branch. }
  destruct (json_get data _ _) as [e | items] eqn:Eg.
  { rewrite (json_get_not_request _ _ _ _ Eg). dead_branch. }
  destruct (annotate_currency items) as [e | metrics] eqn:Ea.
  { rewrite (annotate_currency_not_request _ _ Ea). dead_branch. }
  intros [= <- <-]. exists data, items. repeat split; assumption.
Qed.

Lemma news_parsed ticker end_date start_date s r s1 :
  truthy_opt (news_cache (cache s)
                !! news_cache_key ticker end_date start_date) = false ->
  get_sa_news (CompanyNews := CompanyNews)
    w ticker end_date start_date s = (inr r, s1) ->
  r <> [] ->
  exists data items,
    decoded_body (http w (trace s) (news_url ticker end_date start_date))
    = Some data
    /\ json_get data "news" (JArr []) = inr items
    /\ annotate_sentiment items = inr r.
Proof.
  intros Hmiss Hrun Hne. revert Hrun.
  unfold get_sa_news, decoded_body. run_stmt. rewrite Hmiss.
  destruct (http w (trace s) _) as [e | code b]; cbn [status_code body].
  { destruct (is_request_exception e); dead_branch. }
  destruct ((400 <=? code) && (code <? 600)); [dead_branch |].
  destruct b as [e | data].
  { destruct (is_request_exception e); dead_branch. }
  destruct (json_get data _ _) as [e | items] eqn:Eg.
  { rewrite (json_get_not_request _ _ _ _ Eg). dead_branch. }
  destruct (annotate_sentiment items) as [e | news_items] eqn:Ea.
  { rewrite (annotate_sentiment_not_request _ _ Ea). dead_branch. }
  intros [= <- <-]. exists data, items. repeat split; assumption.
Qed.

Lemma company_facts_parsed ticker s facts s1 :
  truthy_opt (company_facts_cache (cache s)
                !! company_facts_cache_key ticker) = false ->
  get_sa_company_facts (CompanyFacts := CompanyFacts) w ticker s
  = (inr (Some facts), s1) ->
  exists data d,
    decoded_body (http w (trace s) (company_facts_url ticker)) = Some data
    /\ json_get data "company_facts" (JObj []) = inr (JObj d)
    /\ construct (PyDict.set (PyDict.set d "exchange" (JStr "JSE"))
                    "currency" (JStr "ZAR")) = Some facts.
Proof.
  intros Hmiss Hrun. revert Hrun.
  unfold get_sa_company_facts, decoded_body. run_stmt. rewrite Hmiss.
  destruct (http w (trace s) _) as [e | code b]; cbn [status_code body].
  { destruct (is_request_exception e); dead_branch. }
  destruct ((400 <=? code) && (code <? 600)); [dead_branch |].
  destruct b as [e | data].
  { destruct (is_request_exception e); dead_branch. }
  destruct (json_get data _ _) as [e | company_facts] eqn:Eg.
  { rewrite (json_get_not_request _ _ _ _ Eg). dead_branch. }
  destruct (json_setitem company_facts _ _) as [e | d'] eqn:Es.
  { rewrite (json_setitem_not_request _ _ _ _ Es). dead_branch. }
  destruct (construct_dict _) as [e | facts'] eqn:Ec.
  { rewrite (construct_dict_not_request _ _ Ec). dead_branch. }
  intros [= <- <-]. destruct company_facts; try discriminate Es.
  simpl in Es. injection Es as <-.
  exists data, d. repeat split; try assumption.
  unfold construct_dict in Ec. destruct (construct _); congruence.
Qed.

End FetchSuccess.

(** X3. When a cache-miss call of [get_sa_financial_metrics] returns a
    non-empty list, there is one record per item of the upstream
    ["financial_metrics"] list, in upstream order, and each record was
    validated from its item with the ["currency"] field set to ["ZAR"],
    whatever currency the item carried. *)
Theorem X3_financial_metrics_annotated :
  forall (w : World) (FinancialMetrics : Type) (HM : BaseModel FinancialMetrics)
         (ticker end_date period : string) (s s1 : state)
         (r : list FinancialMetrics),
    truthy_opt (financial_metrics_cache (cache s)
                  !! financial_metrics_cache_key ticker end_date period)
    = false ->
    get_sa_financial_metrics w ticker end_date period s = (inr r, s1) ->
    r <> [] ->
    exists (data : json) (items : list json),
      decoded_body
        (http w (trace s) (financial_metrics_url ticker end_date period))
      = Some data
      /\ ebind (json_get data "financial_metrics" (JArr [])) py_iter = inr items
      /\ Forall2
           (fun item m =>
              exists d : pydict json,
                item = JObj d
                /\ construct (PyDict.set d "currency" (JStr "ZAR")) = Some m
                /\ PyDict.get (PyDict.set d "currency" (JStr "ZAR")) "currency"
                   = Some (JStr "ZAR"))
           items r.
Proof.
  intros w FinancialMetrics HM ticker end_date period s s1 r Hmiss Hrun Hne.
  destruct (financial_metrics_parsed w _ _ _ _ _ _ Hmiss Hrun Hne)
    as (data & items & Hd & Hg & Ha).
  unfold annotate_currency in Ha.
  destruct (py_iter items) as [e | l] eqn:Ei; cbn [ebind] in Ha;
    [discriminate Ha |].
  exists data, l. split; [exact Hd |].
  split; [rewrite Hg; cbn [ebind]; exact Ei |].
  apply map_exn_Forall2 in Ha.
  eapply Forall2_impl; [exact Ha |].
  intros item m Hitem. cbv beta in Hitem.
  destruct item; try discriminate Hitem. simpl in Hitem.
  unfold construct_dict in Hitem.
  destruct (construct _) as [m' |] eqn:Ec; [| discriminate Hitem].
  injection Hitem as <-. eexists. split; [reflexivity |].
  split; [exact Ec | apply get_set_eq].
Qed.

Lemma X3_financial_metrics_annotated_witness :
  exists (data : json) (items : list json),
    decoded_body
      (http fundamentals_world []
         (financial_metrics_url "NPN" "2024-06-03" "ttm")) = Some data
    /\ ebind (json_get data "financial_metrics" (JArr [])) py_iter = inr items
    /\ Forall2
         (fun item m =>
            exists d : pydict json,
              item = JObj d
              /\ construct (PyDict.set d "currency" (JStr "ZAR")) = Some m
              /\ PyDict.get (PyDict.set d "currency" (JStr "ZAR")) "currency"
                 = Some (JStr "ZAR"))
         items
         [ [ ("ticker", JStr "JSE:NPN");
             ("price_to_earnings_ratio", JNum (187 # 10));
             ("currency", JStr "ZAR") ] ].
Proof.
  apply (X3_financial_metrics_annotated fundamentals_world (pydict json)
           RawModel "NPN" "2024-06-03" "ttm" init_state
           (snd (get_sa_financial_metrics (FinancialMetrics := pydict json)
                   fundamentals_world "NPN" "2024-06-03" "ttm" init_state)));
    [reflexivity | vm_compute; reflexivity | discriminate].
Defined.

(** X4. When a cache-miss call of [get_sa_company_facts] returns a record,
    the record was validated from the upstream ["company_facts"] object
    (the empty object when the key is absent) with ["exchange"] set to
    ["JSE"] and ["currency"] set to ["ZAR"], overriding upstream values. *)
Theorem X4_company_facts_annotated :
  forall (w : World) (CompanyFacts : Type) (HF : BaseModel CompanyFacts)
         (ticker : string) (s s1 : state) (facts : CompanyFacts),
    truthy_opt (company_facts_cache (cache s)
                  !! company_facts_cache_key ticker) = false ->
    get_sa_company_facts w ticker s = (inr (Some facts), s1) ->
    exists (data : json) (d d' : pydict json),
      decoded_body (http w (trace s) (company_facts_url ticker)) = Some data
      /\ json_get data "company_facts" (JObj []) = inr (JObj d)
      /\ construct d' = Some facts
      /\ PyDict.get d' "exchange" = Some (JStr "JSE")
      /\ PyDict.get d' "currency" = Some (JStr "ZAR")
      /\ forall k, k <> "exchange" -> k <> "currency" ->
                   PyDict.get d' k = PyDict.get d k.
Proof.
  intros w CompanyFacts HF ticker s s1 facts Hmiss Hrun.
  destruct (company_facts_parsed w _ _ _ _ Hmiss Hrun)
    as (data & d & Hd & Hg & Hc).
  exists data, d, (PyDict.set (PyDict.set d "exchange" (JStr "JSE"))
                     "currency" (JStr "ZAR")).
  split; [exact Hd |]. split; [exact Hg |]. split; [exact Hc |].
  split; [| split].
  - rewrite get_set_ne by discriminate. apply get_set_eq.
  - apply get_set_eq.
  - intros k H1 H2. rewrite !get_set_ne by assumption. reflexivity.
Qed.

Lemma X4_company_facts_annotated_witness :
  exists (data : json) (d d' : pydict json),
    decoded_body (http fundamentals_world [] (company_facts_url "NPN"))
    = Some data
    /\ json_get data "company_facts" (JObj []) = inr (JObj d)
    /\ construct d' = Some [ ("name", JStr "Naspers"); ("exchange", JStr "JSE");
                             ("currency", JStr "ZAR") ]
    /\ PyDict.get d' "exchange" = Some (JStr "JSE")
    /\ PyDict.get d' "currency" = Some (JStr "ZAR")
    /\ forall k, k <> "exchange" -> k <> "currency" ->
                 PyDict.get d' k = PyDict.get d k.
Proof.
  apply (X4_company_facts_annotated fundamentals_world (pydict json) RawModel
           "NPN" init_state
           (snd (get_sa_company_facts (CompanyFacts := pydict json)
                   fundamentals_world "NPN" init_state)));
    [reflexivity | vm_compute; reflexivity].
Defined.

(** X5. When a cache-miss call of [get_sa_news] returns a non-empty list,
    there is one record per upstream news item, in order, each validated
    from its item with a ["sentiment"] field added: the keyword sentiment
    of the item's title (of the empty string when the item has no title),
    which is one of "positive", "negative" and "neutral". *)
Theorem X5_news_sentiment_annotated :
  forall (w : World) (CompanyNews : Type) (HN : BaseModel CompanyNews)
         (ticker end_date : string) (start_date : option string)
         (s s1 : state) (r : list CompanyNews),
    truthy_opt (news_cache (cache s)
                  !! news_cache_key ticker end_date start_date) = false ->
    get_sa_news w ticker end_date start_date s = (inr r, s1) ->
    r <> [] ->
    exists (data : json) (items : list json),
      decoded_body (http w (trace s) (news_url ticker end_date start_date))
      = Some data
      /\ ebind (json_get data "news" (JArr [])) py_iter = inr items
      /\ Forall2
           (fun item m =>
              exists (d : pydict json) (title : string),
                item = JObj d
                /\ get_default d "title" (JStr "") = JStr title
                /\ construct (PyDict.set d "sentiment"
                                (JStr (_analyze_sa_sentiment title))) = Some m
                /\ In (_analyze_sa_sentiment title)
                      ["positive"; "negative"; "neutral"])
           items r.
Proof.
  intros w CompanyNews HN ticker end_date start_date s s1 r Hmiss Hrun Hne.
  destruct (news_parsed w _ _ _ _ _ _ Hmiss Hrun Hne)
    as (data & items & Hd & Hg & Ha).
  unfold annotate_sentiment in Ha.
  destruct (py_iter items) as [e | l] eqn:Ei; cbn [ebind] in Ha;
    [discriminate Ha |].
  exists data, l. split; [exact Hd |].
  split; [rewrite Hg; cbn [ebind]; exact Ei |].
  apply map_exn_Forall2 in Ha.
  eapply Forall2_impl; [exact Ha |].
  intros item m Hitem. cbv beta in Hitem.
  destruct item; try discriminate Hitem. cbn [json_get ebind] in Hitem.
  destruct (get_default d "title" (JStr "")) as [| ? | ? | title | ? | ?] eqn:Et;
    try discriminate Hitem.
  cbn [as_text ebind json_setitem] in Hitem.
  unfold construct_dict in Hitem.
  destruct (construct _) as [m' |] eqn:Ec; [| discriminate Hitem].
  injection Hitem as <-. exists d, title.
  split; [reflexivity |]. split; [exact Et |].
  split; [exact Ec | apply sentiment_label].
Qed.

Lemma X5_news_sentiment_annotated_witness :
  exists (data : json) (items : list json),
    decoded_body (http fundamentals_world []
                    (news_url "NPN" "2024-06-03" None)) = Some data
    /\ ebind (json_get data "news" (JArr [])) py_iter = inr items
    /\ Forall2
         (fun item m =>
            exists (d : pydict json) (title : string),
              item = JObj d
              /\ get_default d "title" (JStr "") = JStr title
              /\ construct (PyDict.set d "sentiment"
                              (JStr (_analyze_sa_sentiment title))) = Some m
              /\ In (_analyze_sa_sentiment title)
                    ["positive"; "negative"; "neutral"])
         items
         [ [ ("title", JStr "Naspers profit growth");
             ("sentiment", JStr "positive") ] ].
Proof.
  apply (X5_news_sentiment_annotated fundamentals_world (pydict json)
           RawModel "NPN" "2024-06-03" None init_state
           (snd (get_sa_news (CompanyNews := pydict json)
                   fundamentals_world "NPN" "2024-06-03" None init_state)));
    [reflexivity | vm_compute; reflexivity | discriminate].
Defined.

(** ** What a fetch leaves alone *)

(** Case analysis on every scrutinee of a stuck run. *)
Ltac split_run :=
  repeat (match goal with
          | |- context [match ?x with _ => _ end] =>
              lazymatch x with
              | context [match _ with _ => _ end] => fail
              | _ => destruct x eqn:?
              end
          end;
          cbn [fst snd cache trace prices_cache financial_metrics_cache
               news_cache company_facts_cache economic_indicators_cache
               fx_rates_cache status_code body]).

(** X6. Whatever the upstream service answers and however a call ends,
    [get_sa_financial_metrics], [get_sa_news] and [get_sa_company_facts]
    change at most the entry under their own composite key in their own
    store: every other store and every other key is left as it was. *)
Theorem X6_fetch_touches_only_its_entry :
  forall (w : World) (FinancialMetrics CompanyNews CompanyFacts : Type)
         (HM : BaseModel FinancialMetrics) (HN : BaseModel CompanyNews)
         (HF : BaseModel CompanyFacts) (s : state),
    (forall ticker end_date period : string,
        same_but_financial_metrics
          (financial_metrics_cache_key ticker end_date period)
          (cache s)
          (cache (snd (get_sa_financial_metrics
                         (FinancialMetrics := FinancialMetrics)
                         w ticker end_date period s))))
    /\ (forall (ticker end_date : string) (start_date : option string),
          same_but_news (news_cache_key ticker end_date start_date)
            (cache s)
            (cache (snd (get_sa_news (CompanyNews := CompanyNews)
                           w ticker end_date start_date s))))
    /\ (forall ticker : string,
          same_but_company_facts (company_facts_cache_key ticker)
            (cache s)
            (cache (snd (get_sa_company_facts (CompanyFacts := CompanyFacts)
                           w ticker s)))).
Proof.
  intros w FinancialMetrics CompanyNews CompanyFacts HM HN HF s.
  split; [| split].
  - intros ticker end_date period.
    unfold get_sa_financial_metrics. run_stmt. split_run.
    all: unfold same_but_financial_metrics;
      cbn [prices_cache financial_metrics_cache news_cache company_facts_cache
           economic_indicators_cache fx_rates_cache];
      repeat split; intros; try reflexivity;
      apply lookup_insert_ne; congruence.
  - intros ticker end_date start_date.
    unfold get_sa_news. run_stmt. split_run.
    all: unfold same_but_news;
      cbn [prices_cache financial_metrics_cache news_cache company_facts_cache
           economic_indicators_cache fx_rates_cache];
      repeat split; intros; try reflexivity;
      apply lookup_insert_ne; congruence.
  - intros ticker.
    unfold get_sa_company_facts. run_stmt. split_run.
    all: unfold same_but_company_facts;
      cbn [prices_cache financial_metrics_cache news_cache company_facts_cache
           economic_indicators_cache fx_rates_cache];
      repeat split; intros; try reflexivity;
      apply lookup_insert_ne; congruence.
Qed.

(** ** [get_sa_market_data] *)

Lemma for_fold_sets {R} (F : string -> pydict json -> stmt R (pydict json))
    (val : string -> json) (P : state -> Prop) :
  (forall index acc s, P s ->
     exists s', F index acc s = (Normal (PyDict.set acc index (val index)), s')
                /\ P s') ->
  forall l acc s, P s ->
    exists md s',
      for_fold l acc F s = (Normal md, s')
      /\ P s'
      /\ (forall index, In index l -> PyDict.get md index = Some (val index))
      /\ (forall index, ~ In index l ->
                        PyDict.get md index = PyDict.get acc index).
Proof.
  intros HF. induction l as [| x l IH]; intros acc s HP.
  - exists acc, s. split; [reflexivity |]. split; [exact HP |].
    split; [intros index [] | reflexivity].
  - destruct (HF x acc s HP) as (s1 & Hstep & HP1).
    destruct (IH (PyDict.set acc x (val x)) s1 HP1)
      as (md & s' & Hrun & HP' & Hin & Hout).
    exists md, s'. cbn [for_fold]. unfold bind. rewrite Hstep.
    split; [exact Hrun |]. split; [exact HP' |]. split.
    + intros index [<- | Hi].
      * destruct (in_dec string_dec x l) as [Hx | Hx]; [apply Hin, Hx |].
        rewrite (Hout x Hx). apply get_set_eq.
      * apply Hin, Hi.
    + intros index Hni. rewrite Hout by (intros H; apply Hni; right; exact H).
      apply get_set_ne. intros ->. apply Hni. left. reflexivity.
Qed.

(** X7. When every upstream request fails in a way the adapter catches,
    [get_sa_market_data] still returns: it writes nothing to the cache,
    and its result has exactly the requested indices as keys (the first
    three major indices when none are given), each mapped to its truthy
    cached listing if there is one and to the empty list otherwise. *)
Theorem X7_market_data_when_upstream_fails :
  forall (w : World) (indices : option (list string)) (s : state),
    (forall tr url, exists e, caught_failure (http w tr url) = Some e) ->
    exists (md : pydict json) (s' : state),
      get_sa_market_data w indices s = (inr md, s')
      /\ cache s' = cache s
      /\ (forall index,
            In index (default (firstn 3 SAMarketConfig.MAJOR_INDICES) indices) ->
            PyDict.get md index = Some (cached_or_empty (cache s) index))
      /\ (forall index,
            ~ In index (default (firstn 3 SAMarketConfig.MAJOR_INDICES) indices) ->
            PyDict.get md index = None).
Proof.
  intros w indices s Hfail.
  unfold get_sa_market_data. cbv [def]. unfold bind at 1.
  match goal with
  | |- context [for_fold ?l0 ?acc0 ?F s] =>
      assert (Hstep : forall index acc s0, cache s0 = cache s ->
                exists s', F index acc s0
                           = (Normal (PyDict.set acc index
                                        (cached_or_empty (cache s) index)), s')
                           /\ cache s' = cache s);
      [| destruct (for_fold_sets F (cached_or_empty (cache s))
                     (fun s0 => cache s0 = cache s) Hstep l0 acc0 s eq_refl)
           as (md & s' & Hrun & Hc & Hin & Hout)]
  end.
  - intros index acc s0 Hs0. run_stmt. unfold cached_or_empty.
    rewrite Hs0.
    destruct (prices_cache (cache s) !! ("JSE_INDEX_" +:+ index)) as [v |];
      cbn [truthy_opt default from_option id].
    + destruct (truthy v).
      * eexists. split; [reflexivity | exact Hs0].
      * destruct (Hfail (trace s0) (index_url w index)) as [e He].
        unfold caught_failure in He.
        destruct (http w (trace s0) _) as [e' | code b];
          cbn [status_code body].
        -- destruct (is_request_exception e'); [| discriminate He].
           eexists. split; [reflexivity | exact Hs0].
        -- destruct ((400 <=? code) && (code <? 600)).
           ++ eexists. split; [reflexivity | exact Hs0].
           ++ destruct b as [e' | data]; [| discriminate He].
              destruct (is_request_exception e'); [| discriminate He].
              eexists. split; [reflexivity | exact Hs0].
    + destruct (Hfail (trace s0) (index_url w index)) as [e He].
      unfold caught_failure in He.
      destruct (http w (trace s0) _) as [e' | code b];
        cbn [status_code body].
      * destruct (is_request_exception e'); [| discriminate He].
        eexists. split; [reflexivity | exact Hs0].
      * destruct ((400 <=? code) && (code <? 600)).
        -- eexists. split; [reflexivity | exact Hs0].
        -- destruct b as [e' | data]; [| discriminate He].
           destruct (is_request_exception e'); [| discriminate He].
           eexists. split; [reflexivity | exact Hs0].
  - exists md, s'.
    match goal with
    | |- context [@for_fold ?R0 ?X0 ?S0 ?l0 ?a0 ?F0 s] =>
        pose proof (Hrun : @for_fold R0 X0 S0 l0 a0 F0 s = (Normal md, s'))
          as Hrun'
    end.
    rewrite Hrun'. cbv [py_return].
    split; [reflexivity |]. split; [exact Hc |].
    destruct indices as [l |]; cbn [default from_option id] in *;
      (split; [exact Hin | intros index Hni; rewrite (Hout index Hni); reflexivity]).
Qed.

Lemma X7_market_data_when_upstream_fails_witness :
  exists (md : pydict json) (s' : state),
    get_sa_market_data offline_world None init_state = (inr md, s')
    /\ cache s' = cache init_state
    /\ (forall index,
          In index ["JSE:J203"; "JSE:J200"; "JSE:J250"] ->
          PyDict.get md index
          = Some (cached_or_empty (cache init_state) index))
    /\ (forall index,
          ~ In index ["JSE:J203"; "JSE:J200"; "JSE:J250"] ->
          PyDict.get md index = None).
Proof.
  apply (X7_market_data_when_upstream_fails offline_world None init_state).
  intros tr url. exists (RequestException "connection refused"). reflexivity.
Defined.

(** ** Placeholder data and cached prices *)

(** X8. [get_sa_economic_indicators] and [get_zar_fx_rates] never make a
    request and never return an empty dictionary; after one call, every
    further call returns the same dictionary and changes nothing. *)
Theorem X8_indicators_and_rates_settle :
  forall s : state,
    (exists (ei : pydict Q) (s1 : state),
        get_sa_economic_indicators s = (inr ei, s1)
        /\ ei <> []
        /\ trace s1 = trace s
        /\ get_sa_economic_indicators s1 = (inr ei, s1))
    /\ (exists (fx : pydict Q) (s1 : state),
          get_zar_fx_rates s = (inr fx, s1)
          /\ fx <> []
          /\ trace s1 = trace s
          /\ get_zar_fx_rates s1 = (inr fx, s1)).
Proof.
  intros s. split.
  - unfold get_sa_economic_indicators, dict_truthy. run_stmt.
    destruct (economic_indicators_cache (cache s) !! "SA_ECONOMIC_INDICATORS")
      as [[| kv ei] |] eqn:E.
    + eexists _, _. split; [reflexivity |]. split; [discriminate |].
      split; [reflexivity |].
      cbn [cache economic_indicators_cache]. rewrite lookup_insert_eq.
      cbn [default from_option id cache trace economic_indicators_cache].
      reflexivity.
    + exists (kv :: ei), s. split; [destruct s; reflexivity |].
      split; [discriminate |]. split; [reflexivity |].
      rewrite E. destruct s; reflexivity.
    + eexists _, _. split; [reflexivity |]. split; [discriminate |].
      split; [reflexivity |].
      cbn [cache economic_indicators_cache]. rewrite lookup_insert_eq.
      cbn [default from_option id cache trace economic_indicators_cache].
      reflexivity.
  - unfold get_zar_fx_rates, dict_truthy. run_stmt.
    destruct (fx_rates_cache (cache s) !! "ZAR_FX_RATES")
      as [[| kv fx] |] eqn:E.
    + eexists _, _. split; [reflexivity |]. split; [discriminate |].
      split; [reflexivity |].
      cbn [cache fx_rates_cache]. rewrite lookup_insert_eq.
      cbn [default from_option id cache trace fx_rates_cache].
      reflexivity.
    + exists (kv :: fx), s. split; [destruct s; reflexivity |].
      split; [discriminate |]. split; [reflexivity |].
      rewrite E. destruct s; reflexivity.
    + eexists _, _. split; [reflexivity |]. split; [discriminate |].
      split; [reflexivity |].
      cbn [cache fx_rates_cache]. rewrite lookup_insert_eq.
      cbn [default from_option id cache trace fx_rates_cache].
      reflexivity.
Qed.

(** X9. For a valid ticker whose composite key holds a non-empty
    serialised list of prices, [get_jse_prices] returns exactly those
    prices, typed, without any request and without touching the state. *)
Theorem X9_get_jse_prices_cache_hit :
  forall (w : World) (Price : Type) (HP : BaseModel Price)
         (ticker start_date end_date : string) (s : state) (ps : list Price),
    is_jse_ticker ticker = true ->
    prices_cache (cache s) !! prices_cache_key ticker start_date end_date
    = Some (dump_all ps) ->
    ps <> [] ->
    get_jse_prices w ticker start_date end_date s = (inr (TypedPrices ps), s).
Proof.
  intros w Price HP ticker start_date end_date s ps Hv Hget Hne.
  unfold get_jse_prices, get_jse_prices_body. rewrite Hv. cbn [negb].
  run_stmt. rewrite Hget. cbn [truthy_opt default from_option id].
  rewrite (truthy_dump_all ps Hne), construct_all_dump_all. reflexivity.
Qed.

Lemma X9_get_jse_prices_cache_hit_witness :
  get_jse_prices (Price := pydict json) offline_world
    "NPN" "2024-01-01" "2024-01-31"
    (state_with_prices (prices_cache_key "NPN" "2024-01-01" "2024-01-31")
       (JArr [ JObj [ ("close", JNum (3180 # 1)); ("currency", JStr "ZAR") ] ]))
  = (inr (TypedPrices [ [ ("close", JNum (3180 # 1));
                          ("currency", JStr "ZAR") ] ]),
     state_with_prices (prices_cache_key "NPN" "2024-01-01" "2024-01-31")
       (JArr [ JObj [ ("close", JNum (3180 # 1)); ("currency", JStr "ZAR") ] ])).
Proof.
  apply (X9_get_jse_prices_cache_hit offline_world (pydict json) RawModel
           "NPN" "2024-01-01" "2024-01-31" _
           [ [ ("close", JNum (3180 # 1)); ("currency", JStr "ZAR") ] ]);
    [reflexivity | vm_compute; reflexivity | discriminate].
Defined.

(** ** Composite cache keys *)

Lemma separator_split (a a' b b' : string) :
  no_underscore a = true -> no_underscore a' = true ->
  a +:+ "_" +:+ b = a' +:+ "_" +:+ b' -> a = a' /\ b = b'.
Proof.
  revert a'. induction a as [| c a IH]; intros [| c' a'] Ha Ha' H;
    cbn [String.append] in H.
  - injection H as H. split; [reflexivity | exact H].
  - injection H as Hc _. subst c'. cbn in Ha'. discriminate Ha'.
  - injection H as Hc _. subst c. cbn in Ha. discriminate Ha.
  - injection H as Hc H. subst c'.
    unfold no_underscore in Ha, Ha'. simpl in Ha, Ha'.
    apply andb_true_iff in Ha as [_ Ha]. apply andb_true_iff in Ha' as [_ Ha'].
    destruct (IH a' Ha Ha' H) as [-> ->]. split; reflexivity.
Qed.

(** X10. Distinct requests do not share a cache entry as long as the
    leading key parts contain no underscore: the financial-metrics key
    determines ticker, end date and period, and the price key determines
    ticker, start date and end date. *)
Theorem X10_cache_keys_injective :
  forall (t e p t' e' p' : string),
    no_underscore t = true -> no_underscore e = true ->
    no_underscore t' = true -> no_underscore e' = true ->
    (financial_metrics_cache_key t e p = financial_metrics_cache_key t' e' p' ->
     t = t' /\ e = e' /\ p = p')
    /\ (prices_cache_key t e p = prices_cache_key t' e' p' ->
        t = t' /\ e = e' /\ p = p').
Proof.
  intros t e p t' e' p' Ht He Ht' He'. split.
  - unfold financial_metrics_cache_key. intros H.
    cbn [String.append] in H. injection H as H.
    destruct (separator_split t t' _ _ Ht Ht' H) as [-> H'].
    destruct (separator_split e e' _ _ He He' H') as [-> ->].
    repeat split.
  - unfold prices_cache_key. intros H.
    cbn [String.append] in H. injection H as H.
    destruct (separator_split t t' _ _ Ht Ht' H) as [-> H'].
    destruct (separator_split e e' _ _ He He' H') as [-> ->].
    repeat split.
Qed.

Lemma X10_cache_keys_injective_witness :
  (financial_metrics_cache_key "NPN" "2024-06-03" "ttm"
   = financial_metrics_cache_key "NPN" "2024-06-03" "ttm" ->
   "NPN" = "NPN" /\ "2024-06-03" = "2024-06-03" /\ "ttm" = "ttm")
  /\ (prices_cache_key "NPN" "2024-06-03" "ttm"
      = prices_cache_key "NPN" "2024-06-03" "ttm" ->
      "NPN" = "NPN" /\ "2024-06-03" = "2024-06-03" /\ "ttm" = "ttm").
Proof.
  apply (X10_cache_keys_injective "NPN" "2024-06-03" "ttm"
           "NPN" "2024-06-03" "ttm"); reflexivity.
Defined.

(** Without the restriction two different requests can meet in one entry. *)
Example cache_key_collision :
  financial_metrics_cache_key "A_B" "C" "ttm"
  = financial_metrics_cache_key "A" "B_C" "ttm".
Proof. reflexivity. Qed.

(* ===================================================================== *)
(** * Further properties of the agents *)
(* ===================================================================== *)

(** ** The currency-risk agent *)

Lemma currency_analyses_skip ts c (m : gmap string AnalystSignal) t :
  ~ In t ts \/ validate_sa_ticker t = false ->
  currency_analyses ts c m !! t = m !! t.
Proof.
  revert m. induction ts as [| x ts IH]; intros m H; [reflexivity |].
  simpl.
  assert (Hrest : ~ In t ts \/ validate_sa_ticker t = false).
  { destruct H as [H | H]; [left; intros Hin; apply H; right; exact Hin
                           | right; exact H]. }
  destruct (validate_sa_ticker x) eqn:Hx; simpl; [| apply IH, Hrest].
  rewrite IH by exact Hrest. apply lookup_insert_ne.
  intros ->. destruct H as [H | H]; [apply H; left; reflexivity | congruence].
Qed.

Lemma sa_currency_risk_agent_quiet (st : AgentState) (s : state) :
  exists s',
    sa_currency_risk_agent st s
    = (inr (record_signals st "sa_currency_risk"
              (currency_analyses (tickers st)
                 (make_currency_context (fx_rates_at s) (indicators_at s)) ∅)),
       s')
    /\ trace s' = trace s
    /\ prices_cache (cache s') = prices_cache (cache s)
    /\ financial_metrics_cache (cache s') = financial_metrics_cache (cache s)
    /\ news_cache (cache s') = news_cache (cache s)
    /\ company_facts_cache (cache s') = company_facts_cache (cache s).
Proof.
  destruct s as [[pc fc nc cc ec xc] tr].
  unfold sa_currency_risk_agent, fx_rates_at, indicators_at,
    get_zar_fx_rates, get_sa_economic_indicators, dict_truthy.
  run_stmt.
  destruct (xc !! "ZAR_FX_RATES") as [[| ? ?] |]; run_stmt;
    destruct (ec !! "SA_ECONOMIC_INDICATORS") as [[| ? ?] |]; run_stmt;
    eexists; (split; [reflexivity |]); repeat split.
Qed.

(** X11. The currency-risk agent always returns, makes no request and no
    model call (the trace is unchanged, the stores fed by HTTP are
    untouched), and records a signal for exactly the tickers of its input
    that are on the allow-list. *)
Theorem X11_currency_agent_quiet_and_exact :
  forall (st : AgentState) (s : state),
    exists (st' : AgentState) (s' : state) (m : gmap string AnalystSignal),
      sa_currency_risk_agent st s = (inr st', s')
      /\ trace s' = trace s
      /\ prices_cache (cache s') = prices_cache (cache s)
      /\ financial_metrics_cache (cache s') = financial_metrics_cache (cache s)
      /\ news_cache (cache s') = news_cache (cache s)
      /\ company_facts_cache (cache s') = company_facts_cache (cache s)
      /\ signals_of st' "sa_currency_risk" = Some m
      /\ forall t : string,
           is_Some (m !! t)
           <-> (In t (tickers st) /\ In t SAMarketConfig.TOP_STOCKS).
Proof.
  intros st s.
  destruct (sa_currency_risk_agent_quiet st s)
    as (s' & Hrun & Htr & Hp & Hf & Hn & Hc).
  eexists _, s', _. split; [exact Hrun |].
  split; [exact Htr |]. split; [exact Hp |]. split; [exact Hf |].
  split; [exact Hn |]. split; [exact Hc |].
  split; [apply signals_of_record |].
  intros t. rewrite <- validate_sa_ticker_In. split.
  - intros Hsome.
    destruct (in_dec string_dec t (tickers st)) as [Hin | Hnin].
    + destruct (validate_sa_ticker t) eqn:Hv; [tauto |].
      rewrite currency_analyses_skip in Hsome by (right; exact Hv).
      rewrite lookup_empty in Hsome. destruct Hsome as [? H]. discriminate H.
    + rewrite currency_analyses_skip in Hsome by (left; exact Hnin).
      rewrite lookup_empty in Hsome. destruct Hsome as [? H]. discriminate H.
  - intros [Hin Hv]. rewrite currency_analyses_lookup by assumption.
    eexists. reflexivity.
Qed.


(** X13. For a valid ticker the table marks "medium" the agent records
    "HOLD" with confidence 0.6, and for one it marks "low" it records "BUY"
    with confidence 0.7; both with maximum position size 0.05 and for any
    state of the cache. *)
Theorem X13_currency_medium_and_low :
  forall (st : AgentState) (s : state) (ticker sensitivity : string),
    In ticker (tickers st) ->
    validate_sa_ticker ticker = true ->
    PyDict.get currency_sensitive_stocks ticker = Some sensitivity ->
    sensitivity = "medium" \/ sensitivity = "low" ->
    exists (st' : AgentState) (s' : state) (m : gmap string AnalystSignal)
           (sg : AnalystSignal),
      sa_currency_risk_agent st s = (inr st', s')
      /\ signals_of st' "sa_currency_risk" = Some m
      /\ m !! ticker = Some sg
      /\ signal sg = Some (if String.eqb sensitivity "medium"
                           then "HOLD" else "BUY")
      /\ confidence sg = Some (if String.eqb sensitivity "medium"
                               then 6 # 10 else 7 # 10)
      /\ max_position_size sg = Some (5 # 100).
Proof.
  intros st s ticker sensitivity Hin Hv Hget Hs.
  destruct (sa_currency_risk_agent_entry st s ticker Hin Hv)
    as (st' & s' & m & Hrun & Hsig & Hm).
  eexists st', s', m, _.
  split; [exact Hrun |]. split; [exact Hsig |]. split; [exact Hm |].
  unfold currency_signal, currency_sensitivity, get_default. rewrite Hget.
  destruct Hs as [-> | ->]; simpl; repeat split; reflexivity.
Qed.

Lemma X13_currency_medium_and_low_witness :
  exists (st' : AgentState) (s' : state) (m : gmap string AnalystSignal)
         (sg : AnalystSignal),
    sa_currency_risk_agent (sample_state ["SBK"; "SHP"]) init_state
    = (inr st', s')
    /\ signals_of st' "sa_currency_risk" = Some m
    /\ m !! "SBK" = Some sg
    /\ signal sg = Some "HOLD"
    /\ confidence sg = Some (6 # 10)
    /\ max_position_size sg = Some (5 # 100).
Proof.
  apply (X13_currency_medium_and_low (sample_state ["SBK"; "SHP"]) init_state
           "SBK" "medium");
    [simpl; tauto | reflexivity | reflexivity | left; reflexivity].
Defined.

(** ** The regulatory compliance agent *)

Lemma Qgtb_zero_limit : Qgtb 0 SAMarketConfig.MAX_POSITION_SIZE = false.
Proof. reflexivity. Qed.

Lemma position_issues_without_cash ps total :
  (total <= 0)%Q -> position_issues ps total = [].
Proof.
  intros Hc. apply position_issues_none. intros ticker position _ _.
  unfold position_size. apply Qgtb_false in Hc. rewrite Hc.
  apply Qgtb_zero_limit.
Qed.

(** X14. When the portfolio's total cash is zero or negative the
    position-size check is switched off: no position is ever reported,
    however large, and the compliance issues are exactly the sector
    issues. *)
Theorem X14_no_cash_no_position_issue :
  forall p : Portfolio,
    (total_cash p <= 0)%Q ->
    position_issues (positions p) (total_cash p) = []
    /\ compliance_issues p
       = sector_issues (accumulate_sectors (positions p) []).
Proof.
  intros p Hc. unfold compliance_issues.
  rewrite (position_issues_without_cash _ _ Hc). split; reflexivity.
Qed.

Lemma X14_no_cash_no_position_issue_witness :
  position_issues (positions cashless_portfolio) (total_cash cashless_portfolio)
  = []
  /\ compliance_issues cashless_portfolio
     = sector_issues (accumulate_sectors (positions cashless_portfolio) []).
Proof.
  apply (X14_no_cash_no_position_issue cashless_portfolio).
  unfold Qle. simpl. lia.
Defined.





Lemma get_default_cons_ne (d : pydict Z) k k' v' :
  String.eqb k' k = false ->
  get_default ((k', v') :: d) k 0 = get_default d k 0.
Proof. intros E. unfold get_default. simpl. rewrite E. reflexivity. Qed.

Lemma sum_values_set (d : pydict Z) k v :
  sum_values (PyDict.set d k (get_default d k 0 + v)) = sum_values d + v.
Proof.
  unfold sum_values, values.
  induction d as [| [k' v'] d IH].
  - unfold get_default. simpl. lia.
  - cbn [PyDict.set]. destruct (String.eqb k' k) eqn:E.
    + unfold get_default. simpl. rewrite E. simpl. lia.
    + rewrite (get_default_cons_ne d k k' v' E).
      cbn [map fold_right snd]. rewrite IH. lia.
Qed.

Lemma accumulate_sectors_sum ps :
  forall d, sum_values (accumulate_sectors ps d) = sum_values d + mapped_shares ps.
Proof.
  induction ps as [| [t p] ps IH]; intros d; simpl; [lia |].
  destruct (shares p >? 0); cbn [andb]; [| rewrite IH; lia].
  destruct (get_sa_sector_exposure t) as [sector |]; cbn [sector_counts];
    [| rewrite IH; lia].
  destruct (negb (String.eqb sector "")); rewrite IH; [| lia].
  rewrite sum_values_set. lia.
Qed.

(** X16. The denominator of every sector ratio is the number of shares
    held in positions with positive shares and a mapped sector: the
    per-sector counts the agent accumulates add up to exactly that number
    (so the ratios are shares of the holdings, not of the cash), no sector
    appears twice, and every count is positive. *)
Theorem X16_sector_exposures_add_up :
  forall p : Portfolio,
    sum_values (accumulate_sectors (positions p) []) = mapped_shares (positions p)
    /\ List.NoDup (keys (accumulate_sectors (positions p) []))
    /\ (forall sector exposure,
          In (sector, exposure) (accumulate_sectors (positions p) []) ->
          exposure > 0
          /\ exists ticker position,
               In (ticker, position) (positions p)
               /\ shares position > 0
               /\ get_sa_sector_exposure ticker = Some sector).
Proof.
  intros p. split; [rewrite accumulate_sectors_sum; reflexivity |].
  set (P := fun sector : string =>
              exists ticker position,
                In (ticker, position) (positions p)
                /\ shares position > 0
                /\ get_sa_sector_exposure ticker = Some sector).
  assert (Hgen : forall ps d,
             (forall ticker position, In (ticker, position) ps ->
                                      In (ticker, position) (positions p)) ->
             List.NoDup (keys d) ->
             (forall k v, In (k, v) d -> v > 0 /\ P k) ->
             List.NoDup (keys (accumulate_sectors ps d))
             /\ (forall k v, In (k, v) (accumulate_sectors ps d) ->
                             v > 0 /\ P k)).
  { induction ps as [| [t q] ps IH]; intros d Hsub Hnd Hall; simpl;
      [split; assumption |].
    assert (Hsub' : forall ticker position, In (ticker, position) ps ->
                      In (ticker, position) (positions p))
      by (intros; apply Hsub; right; assumption).
    destruct (shares q >? 0) eqn:Epos; [| apply IH; assumption].
    destruct (get_sa_sector_exposure t) as [sector |] eqn:Esec;
      [| apply IH; assumption].
    destruct (negb (String.eqb sector "")); [| apply IH; assumption].
    apply Z.gtb_lt in Epos.
    apply IH; [assumption | apply set_NoDup, Hnd |].
    intros k v Hin. apply set_In in Hin. destruct Hin as [[= -> ->] | Hin].
    - split.
      + assert (get_default d sector 0 >= 0); [| lia].
        unfold get_default. destruct (PyDict.get d sector) as [v0 |] eqn:Eg;
          [| lia].
        apply get_In in Eg. apply Hall in Eg. lia.
      + exists t, q. split; [apply Hsub; left; reflexivity |].
        split; [lia | exact Esec].
    - apply Hall, Hin. }
  apply (Hgen (positions p) []);
    [tauto | constructor | intros k v []].
Qed.



Lemma position_issues_holdings ps total :
  position_issues (holdings ps) total = position_issues ps total.
Proof.
  unfold holdings. induction ps as [| [t q] ps IH]; simpl; [reflexivity |].
  destruct (shares q >? 0) eqn:E; simpl; [rewrite E, IH; reflexivity | exact IH].
Qed.

Lemma accumulate_sectors_holdings ps :
  forall d, accumulate_sectors (holdings ps) d = accumulate_sectors ps d.
Proof.
  unfold holdings. induction ps as [| [t q] ps IH]; intros d; simpl;
    [reflexivity |].
  destruct (shares q >? 0) eqn:E; simpl; [| apply IH].
  rewrite E. destruct (get_sa_sector_exposure t) as [sector |]; [| apply IH].
  destruct (negb (String.eqb sector "")); apply IH.
Qed.

(** X18. Positions with zero or negative shares (closed positions, shorts)
    play no part in the verdict: the compliance signal of a portfolio is
    the signal of the same portfolio with those positions removed. *)
Theorem X18_only_holdings_count :
  forall p : Portfolio,
    compliance_signal p
    = compliance_signal {| total_cash := total_cash p;
                           positions := holdings (positions p) |}.
Proof.
  intros p. unfold compliance_signal, compliance_issues.
  cbn [total_cash positions].
  rewrite position_issues_holdings, accumulate_sectors_holdings. reflexivity.
Qed.

Example only_holdings_count_mixed :
  holdings (positions mixed_portfolio) = [("NPN", {| shares := 100 |})]
  /\ compliance_issues mixed_portfolio
     = [ position_issue "NPN" (1 # 10); sector_issue "Technology" (1 # 1) ].
Proof. split; vm_compute; reflexivity. Qed.

(** ** Agents and the shared state *)

Lemma record_signals_other st agent other m :
  other <> agent ->
  signals_of (record_signals st agent m) other = signals_of st other.
Proof.
  intros Hne. unfold signals_of, record_signals. cbn [analyst_signals].
  rewrite lookup_insert_ne by congruence.
  destruct (analyst_signals st); [reflexivity | apply lookup_empty].
Qed.

(** X19. The compliance agent and the currency-risk agent write only
    their own entry of the shared signals: the tickers, the end date, the
    portfolio, the model selection and every other agent's signals come
    out as they went in; so after running one and then the other, both
    results are present. *)
Theorem X19_agents_keep_the_rest :
  forall (st : AgentState) (s : state),
    (let st' := sa_regulatory_compliance_agent st in
     tickers st' = tickers st /\ end_date st' = end_date st
     /\ portfolio st' = portfolio st
     /\ model_name st' = model_name st
     /\ model_provider st' = model_provider st
     /\ forall other, other <> "sa_regulatory_compliance" ->
                      signals_of st' other = signals_of st other)
    /\ (exists (st' : AgentState) (s' : state),
          sa_currency_risk_agent st s = (inr st', s')
          /\ tickers st' = tickers st /\ end_date st' = end_date st
          /\ portfolio st' = portfolio st
          /\ model_name st' = model_name st
          /\ model_provider st' = model_provider st
          /\ forall other, other <> "sa_currency_risk" ->
                           signals_of st' other = signals_of st other)
    /\ (exists (st2 : AgentState) (s2 : state)
               (m : gmap string AnalystSignal),
          sa_currency_risk_agent (sa_regulatory_compliance_agent st) s
          = (inr st2, s2)
          /\ signals_of st2 "sa_regulatory_compliance"
             = Some {[ "PORTFOLIO" := compliance_signal (portfolio st) ]}
          /\ signals_of st2 "sa_currency_risk" = Some m).
Proof.
  intros st s. split; [| split].
  - cbv zeta. unfold sa_regulatory_compliance_agent.
    repeat split. intros other Hne. apply record_signals_other, Hne.
  - destruct (sa_currency_risk_agent_run st s) as [s' Hrun].
    eexists _, s'. split; [exact Hrun |].
    repeat split. intros other Hne. apply record_signals_other, Hne.
  - destruct (sa_currency_risk_agent_run (sa_regulatory_compliance_agent st) s)
      as [s2 Hrun].
    eexists _, s2, _. split; [exact Hrun |]. split.
    + rewrite record_signals_other by discriminate.
      unfold sa_regulatory_compliance_agent. apply signals_of_record.
    + apply signals_of_record.
Qed.

(** ** The market analyst agent: replies and entries *)

Section MarketAnalystReplies.

Context (w : World) {CompanyNews CompanyFacts : Type}.
Context `{!BaseModel CompanyNews} `{!BaseModel CompanyFacts}.
Context (st : AgentState) (economic_indicators fx_rates : pydict Q).

Lemma analyze_ticker_success {R} ticker acc s facts s1 news s2 content d sg :
  validate_sa_ticker ticker = true ->
  get_sa_company_facts (CompanyFacts := CompanyFacts) w ticker s
  = (inr facts, s1) ->
  get_sa_news (CompanyNews := CompanyNews) w ticker (end_date st) None s1
  = (inr news, s2) ->
  let req := make_ticker_context ticker (get_sa_sector_exposure ticker)
               facts news economic_indicators fx_rates in
  llm w (trace s2) req = inr content ->
  json_loads w content = inr (JObj d) ->
  AnalystSignal_validate w (PyDict.get d "signal") (PyDict.get d "confidence")
    (PyDict.get d "reasoning") (PyDict.get d "max_position_size") = Some sg ->
  analyze_ticker (R := R) (CompanyNews := CompanyNews)
    (CompanyFacts := CompanyFacts) w st economic_indicators fx_rates
    ticker acc s
  = (Normal (<[ticker := sg]> acc), after s2 [EvLlmInvoke req]).
Proof.
  intros Hv Hf Hn req Hl Hj Hs. unfold analyze_ticker. rewrite Hv. cbn [negb].
  cbv [bind call]. rewrite Hf. cbv beta iota. rewrite Hn. cbv beta iota.
  fold req. run_stmt. unfold after. rewrite Hl, Hj.
  cbn [analysis_get cache trace]. rewrite Hs. reflexivity.
Qed.


(** An iteration ends normally or raises; it keeps the earlier entries and
    adds one exactly for a valid ticker. *)
Lemma analyze_ticker_shape {R} ticker acc s c s' :
  analyze_ticker (R := R) (CompanyNews := CompanyNews)
    (CompanyFacts := CompanyFacts) w st economic_indicators fx_rates
    ticker acc s = (c, s') ->
  match c with
  | Normal m =>
      (validate_sa_ticker ticker = false /\ m = acc)
      \/ (validate_sa_ticker ticker = true
          /\ exists sg, m = <[ticker := sg]> acc)
  | Return _ => False
  | Raise _ => True
  end.
Proof.
  unfold analyze_ticker.
  destruct (validate_sa_ticker ticker) eqn:Hv; cbn [negb].
  2: { intros [= <- <-]. left. split; reflexivity. }
  cbv [bind call].
  destruct (get_sa_company_facts w ticker s) as [[e | facts] s1];
    [intros [= <- <-]; exact I |].
  destruct (get_sa_news w ticker (end_date st) None s1) as [[e | news] s2];
    [intros [= <- <-]; exact I |].
  run_stmt.
  destruct (llm w (trace s2) _) as [e | content]; cbn [cache trace].
  { intros [= <- <-]. right. split; [reflexivity | eexists; reflexivity]. }
  destruct (json_loads w content) as [e | analysis]; cbn [cache trace].
  { intros [= <- <-]. right. split; [reflexivity | eexists; reflexivity]. }
  destruct analysis; cbn [analysis_get cache trace];
    try (intros [= <- <-]; right; split; [reflexivity | eexists; reflexivity]).
  destruct (AnalystSignal_validate w _ _ _ _); cbn [cache trace];
    intros [= <- <-]; right; (split; [reflexivity | eexists; reflexivity]).
Qed.

Lemma analyze_tickers_shape {R} (ts : list string) :
  forall acc s c s',
    for_fold (R := R) ts acc
      (analyze_ticker (CompanyNews := CompanyNews)
         (CompanyFacts := CompanyFacts) w st economic_indicators fx_rates) s
    = (c, s') ->
    match c with
    | Normal m =>
        forall t, is_Some (m !! t)
                  <-> (is_Some (acc !! t)
                       \/ (In t ts /\ validate_sa_ticker t = true))
    | Return _ => False
    | Raise _ => True
    end.
Proof.
  induction ts as [| x ts IH]; intros acc s c s'.
  - intros [= <- <-]. intros t. simpl. tauto.
  - cbn [for_fold]. unfold bind.
    destruct (analyze_ticker w st economic_indicators fx_rates x acc s)
      as [[m1 | r | e] s1] eqn:E1;
      pose proof (analyze_ticker_shape _ _ _ _ _ E1) as Hshape;
      cbn beta iota in Hshape.
    + intros Hrest. specialize (IH m1 s1 c s' Hrest).
      destruct c as [m | r | e]; [| exact IH | exact I].
      intros t. rewrite (IH t).
      destruct Hshape as [[Hv ->] | [Hv [sg ->]]].
      * split.
        -- intros [H | [H1 H2]]; [left; exact H | right; split; [right |]; assumption].
        -- intros [H | [[<- | H1] H2]];
             [left; exact H | congruence | right; split; assumption].
      * destruct (decide (x = t)) as [<- | Hne].
        -- rewrite lookup_insert_eq. split.
           ++ intros _. right. split; [left; reflexivity | exact Hv].
           ++ intros _. left. eexists; reflexivity.
        -- rewrite lookup_insert_ne by exact Hne. split.
           ++ intros [H | [H1 H2]];
                [left; exact H | right; split; [right |]; assumption].
           ++ intros [H | [[-> | H1] H2]];
                [left; exact H | congruence | right; split; assumption].
    + destruct Hshape.
    + intros [= <- <-]. exact I.
Qed.

End MarketAnalystReplies.

(** X20. In the market analyst's iteration for a valid ticker, when the
    model's reply decodes to an object whose four fields validate, the
    validated signal is what gets recorded for the ticker; the only effect
    beyond the two fetches is the one model call, and nothing is printed. *)
Theorem X20_market_analyst_records_reply :
  forall (w : World) (CompanyNews CompanyFacts : Type)
         (HN : BaseModel CompanyNews) (HF : BaseModel CompanyFacts)
         (R : Type) (st : AgentState) (ei fx : pydict Q) (ticker : string)
         (acc : gmap string AnalystSignal) (s s1 s2 : state)
         (facts : option CompanyFacts) (news : list CompanyNews)
         (content : string) (d : pydict json) (sg : AnalystSignal),
    validate_sa_ticker ticker = true ->
    get_sa_company_facts w ticker s = (inr facts, s1) ->
    get_sa_news w ticker (end_date st) None s1 = (inr news, s2) ->
    llm w (trace s2)
      (make_ticker_context ticker (get_sa_sector_exposure ticker)
         facts news ei fx) = inr content ->
    json_loads w content = inr (JObj d) ->
    AnalystSignal_validate w (PyDict.get d "signal") (PyDict.get d "confidence")
      (PyDict.get d "reasoning") (PyDict.get d "max_position_size") = Some sg ->
    analyze_ticker (R := R) (CompanyNews := CompanyNews)
      (CompanyFacts := CompanyFacts) w st ei fx ticker acc s
    = (Normal (<[ticker := sg]> acc),
       after s2
         [ EvLlmInvoke
             (make_ticker_context ticker (get_sa_sector_exposure ticker)
                facts news ei fx) ]).
Proof.
  intros. eapply analyze_ticker_success; eassumption.
Qed.

Lemma X20_market_analyst_records_reply_witness :
  exists s' : state,
    analyze_ticker (R := unit) (CompanyNews := pydict json)
      (CompanyFacts := pydict json) (replying_world "buy reply")
      (sample_state ["NPN"]) [] [] "NPN" ∅ init_state
    = (Normal {[ "NPN" := {| signal := Some "BUY";
                             confidence := Some (75 # 100);
                             reasoning :=
                               JObj [ ("currency_impact", JStr "ZAR stable") ];
                             max_position_size := Some (4 # 100) |} ]},
       s').
Proof.
  eexists.
  refine (X20_market_analyst_records_reply (replying_world "buy reply")
            (pydict json) (pydict json) RawModel RawModel unit
            (sample_state ["NPN"]) [] [] "NPN" ∅ init_state _ _ None []
            "buy reply" _ _ eq_refl _ _ eq_refl eq_refl eq_refl).
  - vm_compute. reflexivity.
  - vm_compute. reflexivity.
Defined.



(** X22. Whenever the market analyst agent returns, it has written only
    its own entry of the shared signals (tickers, end date, portfolio and
    the other agents' signals are as before), and that entry holds a signal
    for exactly the tickers of its input that are on the allow-list. *)
Theorem X22_market_analyst_entries :
  forall (w : World) (CompanyNews CompanyFacts : Type)
         (HN : BaseModel CompanyNews) (HF : BaseModel CompanyFacts)
         (st st' : AgentState) (s s' : state),
    sa_market_analyst_agent (CompanyNews := CompanyNews)
      (CompanyFacts := CompanyFacts) w st s = (inr st', s') ->
    tickers st' = tickers st
    /\ end_date st' = end_date st
    /\ portfolio st' = portfolio st
    /\ (forall other, other <> "sa_market_analyst" ->
                      signals_of st' other = signals_of st other)
    /\ exists m : gmap string AnalystSignal,
         signals_of st' "sa_market_analyst" = Some m
         /\ forall t : string,
              is_Some (m !! t)
              <-> (In t (tickers st) /\ In t SAMarketConfig.TOP_STOCKS).
Proof.
  intros w CompanyNews CompanyFacts HN HF st st' s s'.
  unfold sa_market_analyst_agent. cbv [def bind call py_return].
  destruct (get_sa_economic_indicators s) as [[e | ei] s1]; [discriminate |].
  destruct (get_zar_fx_rates s1) as [[e | fx] s2]; [discriminate |].
  destruct (get_sa_market_data w None s2) as [[e | md] s3]; [discriminate |].
  destruct (for_fold (tickers st) ∅ _ s3) as [[m | r | e] s4] eqn:Eloop;
    pose proof (analyze_tickers_shape w st ei fx (tickers st) _ _ _ _ Eloop)
      as Hshape; cbn beta iota in Hshape;
    [| destruct Hshape | discriminate].
  intros [= <- <-]. repeat split.
  - intros other Hne. apply record_signals_other, Hne.
  - exists m. split; [apply signals_of_record |].
    intros t. rewrite (Hshape t), lookup_empty, <- validate_sa_ticker_In.
    split.
    + intros [[x Hx] | H]; [discriminate Hx | exact H].
    + intros H. right. exact H.
Qed.

Lemma X22_market_analyst_entries_witness :
  exists m : gmap string AnalystSignal,
    signals_of
      (match fst (sa_market_analyst_agent (CompanyNews := pydict json)
                    (CompanyFacts := pydict json) offline_world
                    (sample_state ["NPN"; "AAPL"]) init_state) with
       | inr st' => st'
       | inl _ => sample_state []
       end) "sa_market_analyst" = Some m
    /\ forall t : string,
         is_Some (m !! t)
         <-> (In t ["NPN"; "AAPL"] /\ In t SAMarketConfig.TOP_STOCKS).
Proof.
  refine (proj2 (proj2 (proj2 (proj2
    (X22_market_analyst_entries offline_world (pydict json) (pydict json)
       RawModel RawModel (sample_state ["NPN"; "AAPL"]) _ init_state
       (snd (sa_market_analyst_agent (CompanyNews := pydict json)
               (CompanyFacts := pydict json) offline_world
               (sample_state ["NPN"; "AAPL"]) init_state)) _))))).
  vm_compute. reflexivity.
Defined.

(* ===================================================================== *)
(** * The command-line entry points: ticker selection *)
(* ===================================================================== *)

Lemma sort_tickers_filter ts :
  forall valid invalid,
    sort_tickers ts valid invalid
    = ((valid ++ List.filter validate_sa_ticker ts)%list,
       (invalid ++ List.filter (fun t => negb (validate_sa_ticker t)) ts)%list).
Proof.
  induction ts as [| t ts IH]; intros valid invalid; simpl.
  - rewrite !app_nil_r. reflexivity.
  - destruct (validate_sa_ticker t); simpl; rewrite IH, <- app_assoc;
      reflexivity.
Qed.

Lemma split_nonempty sep s : split sep s <> [].
Proof.
  destruct s as [| c s]; simpl; [discriminate |].
  destruct (Ascii.eqb c sep); [discriminate |].
  destruct (split sep s); discriminate.
Qed.

Lemma filter_all {A} (f : A -> bool) (l : list A) :
  (forall x, In x l -> f x = true) -> List.filter f l = l.
Proof.
  induction l as [| x l IH]; intros H; simpl; [reflexivity |].
  rewrite (H x) by (left; reflexivity).
  rewrite IH by (intros; apply H; right; assumption). reflexivity.
Qed.

Lemma filter_none {A} (f : A -> bool) (l : list A) :
  (forall x, In x l -> f x = true) ->
  List.filter (fun x => negb (f x)) l = [].
Proof.
  induction l as [| x l IH]; intros H; simpl; [reflexivity |].
  rewrite (H x) by (left; reflexivity). simpl.
  apply IH. intros; apply H; right; assumption.
Qed.


Example ticker_selection_mixed :
  main_select_tickers " npn ,AAPL,sbk" init_state
  = (inr (Proceed ["NPN"; "SBK"]),
     after init_state
       [ EvPrint "⚠️  Warning: Invalid JSE tickers: AAPL";
         EvPrint ("Valid JSE tickers: NPN, BHP, AGL, MTN, VOD, SBK, FSR, NED, "
                  +:+ "ABG, SOL, IMP, ANG, AMS, SHP, WHL, TBS, BID, TFG, MRP, CLS") ]).
Proof. vm_compute. reflexivity. Qed.

Example ticker_selection_none :
  main_select_tickers "AAPL, MSFT" init_state
  = (inr (Exit 1),
     after init_state
       [ EvPrint "⚠️  Warning: Invalid JSE tickers: AAPL, MSFT";
         EvPrint ("Valid JSE tickers: NPN, BHP, AGL, MTN, VOD, SBK, FSR, NED, "
                  +:+ "ABG, SOL, IMP, ANG, AMS, SHP, WHL, TBS, BID, TFG, MRP, CLS");
         EvPrint "❌ No valid JSE tickers provided. Exiting." ]).
Proof. vm_compute. reflexivity. Qed.

Lemma append_empty_r (s : string) : s +:+ "" = s.
Proof.
  induction s as [| c s IH]; [reflexivity |].
  change (String c (s +:+ "") = String c s). rewrite IH. reflexivity.
Qed.

Lemma split_no_comma_app (t rest : string) :
  no_comma t = true ->
  split ","%char (t +:+ rest)
  = match split ","%char rest with
    | h :: tl => (t +:+ h) :: tl
    | [] => [t]
    end.
Proof.
  induction t as [| c t IH]; intros Hc.
  - change ("" +:+ rest) with rest.
    destruct (split "," rest) eqn:E; [| reflexivity].
    exfalso. exact (split_nonempty _ _ E).
  - unfold no_comma in Hc. simpl in Hc. apply andb_true_iff in Hc as [Hc Ht].
    apply negb_true_iff in Hc.
    change (String c t +:+ rest) with (String c (t +:+ rest)).
    cbn [split]. rewrite Hc.
    rewrite (IH Ht). destruct (split "," rest) eqn:E; [| reflexivity].
    exfalso. exact (split_nonempty _ _ E).
Qed.

Lemma split_join (ts : list string) :
  ts <> [] ->
  (forall t, In t ts -> no_comma t = true) ->
  split ","%char (join "," ts) = ts.
Proof.
  induction ts as [| x ts IH]; intros Hne Hc; [congruence |].
  destruct ts as [| y ts].
  - cbn [join]. rewrite <- (append_empty_r x) at 1.
    rewrite split_no_comma_app by (apply Hc; left; reflexivity).
    simpl. rewrite append_empty_r. reflexivity.
  - change (join "," (x :: y :: ts)) with (x +:+ "," +:+ join "," (y :: ts)).
    rewrite split_no_comma_app by (apply Hc; left; reflexivity).
    change ("," +:+ join "," (y :: ts))
      with (String ","%char (join "," (y :: ts))).
    cbn [split Ascii.eqb Bool.eqb].
    rewrite IH; [| discriminate | intros t Ht; apply Hc; right; exact Ht].
    rewrite append_empty_r. reflexivity.
Qed.

Lemma top_stock_plain t :
  In t SAMarketConfig.TOP_STOCKS ->
  upper (strip t) = t /\ no_comma t = true.
Proof.
  intros H. simpl in H.
  repeat (destruct H as [<- | H]; [split; reflexivity |]). destruct H.
Qed.

(** X24. Joining allow-list tickers with commas and handing the result
    to ticker selection gives back exactly those tickers, in order, with
    nothing printed and no exit; the default of [--ticker], the first five
    top stocks joined by commas, is such an argument. *)
Theorem X24_selection_of_joined_allow_list :
  forall (ts : list string) (s : state),
    ts <> [] ->
    (forall t, In t ts -> In t SAMarketConfig.TOP_STOCKS) ->
    parse_tickers (join "," ts) = ts
    /\ main_select_tickers (join "," ts) s = (inr (Proceed ts), s).
Proof.
  intros ts s Hne Htop.
  assert (Hparse : parse_tickers (join "," ts) = ts).
  { unfold parse_tickers. rewrite split_join;
      [| exact Hne | intros t Ht; apply top_stock_plain, Htop, Ht].
    clear Hne. induction ts as [| t ts IH]; [reflexivity |].
    cbn [map]. rewrite (proj1 (top_stock_plain t (Htop t (or_introl eq_refl)))).
    rewrite IH by (intros; apply Htop; right; assumption). reflexivity. }
  split; [exact Hparse |].
  unfold main_select_tickers. rewrite sort_tickers_filter, Hparse. cbn [app].
  rewrite (filter_all validate_sa_ticker)
    by (intros t Ht; apply validate_sa_ticker_In, Htop, Ht).
  rewrite (filter_none validate_sa_ticker)
    by (intros t Ht; apply validate_sa_ticker_In, Htop, Ht).
  destruct ts as [| t ts]; [congruence |].
  run_stmt. cbn [is_empty negb]. run_stmt. destruct s; reflexivity.
Qed.

Lemma X24_selection_of_joined_allow_list_witness :
  parse_tickers (join "," (firstn 5 SAMarketConfig.TOP_STOCKS))
  = firstn 5 SAMarketConfig.TOP_STOCKS
  /\ main_select_tickers (join "," (firstn 5 SAMarketConfig.TOP_STOCKS))
       init_state
     = (inr (Proceed (firstn 5 SAMarketConfig.TOP_STOCKS)), init_state).
Proof.
  apply (X24_selection_of_joined_allow_list
           (firstn 5 SAMarketConfig.TOP_STOCKS) init_state).
  - discriminate.
  - intros t Ht. simpl in Ht. simpl. tauto.
Defined.

Lemma lower_top_stock_selected t :
  In t SAMarketConfig.TOP_STOCKS ->
  is_jse_ticker (lower t) = false
  /\ parse_tickers (" " +:+ lower t +:+ " ") = [t].
Proof.
  intros H. simpl in H.
  repeat (destruct H as [<- | H]; [split; reflexivity |]). destruct H.
Qed.

(** X25. The validator itself is case-sensitive, ticker selection is not:
    for every allow-list ticker, the lower-case spelling is rejected by
    [is_jse_ticker], yet given on the command line, even padded with
    blanks, it is upper-cased and stripped first and so selected, with
    nothing printed. *)
Theorem X25_selection_normalises_case :
  forall (t : string) (s : state),
    In t SAMarketConfig.TOP_STOCKS ->
    is_jse_ticker (lower t) = false
    /\ main_select_tickers (" " +:+ lower t +:+ " ") s = (inr (Proceed [t]), s).
Proof.
  intros t s Hin. destruct (lower_top_stock_selected t Hin) as [Hlow Hparse].
  split; [exact Hlow |].
  unfold main_select_tickers. rewrite Hparse. cbn [sort_tickers].
  rewrite (proj2 (validate_sa_ticker_In t) Hin). cbn [app].
  run_stmt. cbn [is_empty negb]. run_stmt. destruct s; reflexivity.
Qed.

Lemma X25_selection_normalises_case_witness :
  is_jse_ticker (lower "SBK") = false
  /\ main_select_tickers (" " +:+ lower "SBK" +:+ " ") init_state
     = (inr (Proceed ["SBK"]), init_state).
Proof.
  apply (X25_selection_normalises_case "SBK" init_state). simpl. tauto.
Defined.

(** ** Keyword sentiment *)





